(** * ilib-lint: the DNT-terms rule, the declarative resource rule and the
    project's file-type resolution, embedded from the JavaScript sources

    - [ResourceDNTTerms.js]        -> [Module ResourceDNTTerms], and
      [Module DNTStore] for its methods as statements over a store of
      array objects
    - [DeclarativeResourceRule.js] -> [Module DeclarativeResourceRule]
      (both versions of the class that follow [ResourceDNTTerms.js])
    - [Project.js]                 -> [Module Project], [Module ProjectOps]
    - [TestFormatter.js]           -> [Module TestFormatter]

    JavaScript values are embedded in [Module JS]; classes imported from
    other packages or files ([Result], [Resource], [fs], [JSON], [path],
    [micromatch], [DirItem], [FileType], the plugin, rule and formatter
    managers) appear as records or as operations of a host interface. *)

From Stdlib Require Import ZArith NArith Ascii String List Bool Lia DecimalString Sorted.
From stdpp Require Import base strings list gmap.

Set Warnings "-register-all".
Local Open Scope string_scope.
Local Open Scope list_scope.

(** ** JavaScript values *)
Module JS.

(** The values the sources inspect: primitives, arrays and plain objects.
    An object lists its own enumerable properties in creation order, each key
    once; members inherited from [Object.prototype] are not represented.
    Numbers are restricted to the integers a JavaScript number holds
    exactly, of magnitude below [2^53] (only their truthiness and their
    decimal form are ever observed).  A string is a sequence of characters,
    each standing for one code unit. *)
Inductive JsVal : Type :=
| JUndefined
| JNull
| JBool (b : bool)
| JNum (n : Z)
| JStr (s : string)
| JArr (items : list JsVal)
| JObj (props : list (string * JsVal)).

(** What a [throw] statement raises: [new Error(message)], a bare value, or
    the [TypeError] the engine raises when a value that is not a function is
    called. *)
Inductive Exn : Type :=
| Error (message : string)
| TypeError (message : string)
| Thrown (v : JsVal).

(** An operation either returns or throws. *)
Inductive Throws (A : Type) : Type :=
| Return (a : A)
| Throw (e : Exn).
Arguments Return {A} a.
Arguments Throw {A} e.

Definition bind {A B} (m : Throws A) (k : A -> Throws B) : Throws B :=
  match m with
  | Return a => k a
  | Throw e => Throw e
  end.

(** [arr.map(f)] for a callback that may throw: the elements are visited in
    order and the first exception ends the call. *)
Fixpoint map_throws {A B} (f : A -> Throws B) (l : list A) : Throws (list B) :=
  match l with
  | [] => Return []
  | x :: l' =>
      bind (f x) (fun y =>
      bind (map_throws f l') (fun ys => Return (y :: ys)))
  end.

(** [typeof v] *)
Definition typeof (v : JsVal) : string :=
  match v with
  | JUndefined => "undefined"
  | JNull => "object"
  | JBool _ => "boolean"
  | JNum _ => "number"
  | JStr _ => "string"
  | JArr _ => "object"
  | JObj _ => "object"
  end.

(** ToBoolean, as used by [!v], [v || w], [v ? a : b] and [filter(x => x)]. *)
Definition truthy (v : JsVal) : bool :=
  match v with
  | JUndefined => false
  | JNull => false
  | JBool b => b
  | JNum n => negb (n =? 0)%Z
  | JStr s => negb (String.eqb s "")
  | JArr _ => true
  | JObj _ => true
  end.

(** [Array.isArray(v)] *)
Definition isArray (v : JsVal) : bool :=
  match v with
  | JArr _ => true
  | _ => false
  end.

(** [v instanceof Object] *)
Definition instanceofObject (v : JsVal) : bool :=
  match v with
  | JArr _ => true
  | JObj _ => true
  | _ => false
  end.

(** ["string" === typeof v] *)
Definition isString (v : JsVal) : bool :=
  match v with
  | JStr _ => true
  | _ => false
  end.

(** [v === s] for a string literal [s] (strict equality, no coercion). *)
Definition strictEqStr (v : JsVal) (s : string) : bool :=
  match v with
  | JStr t => String.eqb t s
  | _ => false
  end.

(** *** Property keys and their enumeration order *)

Definition digit_of (c : ascii) : option N :=
  let n := N_of_ascii c in
  if ((48 <=? n) && (n <=? 57))%N then Some (n - 48)%N else None.

Fixpoint digits_value (s : string) (acc : N) : option N :=
  match s with
  | EmptyString => Some acc
  | String c s' =>
      match digit_of c with
      | Some d => digits_value s' (10 * acc + d)%N
      | None => None
      end
  end.

(** A property key is an array index when it is the canonical decimal form
    of an integer in [0, 2^32 - 2]. *)
Definition array_index (k : string) : option N :=
  match k with
  | EmptyString => None
  | String c rest =>
      if Ascii.eqb c "0"
      then (if String.eqb rest "" then Some 0%N else None)
      else match digits_value k 0 with
           | Some n => if (n <? 2 ^ 32 - 1)%N then Some n else None
           | None => None
           end
  end.

(** The key of the element at position [i] of an array or of a string. *)
Definition index_key (i : nat) : string :=
  NilZero.string_of_uint (Nat.to_uint i).

Fixpoint insert_index (e : N * string) (l : list (N * string)) : list (N * string) :=
  match l with
  | [] => [e]
  | e' :: l' =>
      if (fst e <? fst e')%N then e :: l else e' :: insert_index e l'
  end.

Definition sort_index (l : list (N * string)) : list (N * string) :=
  foldr insert_index [] l.

Definition index_keys (ks : list string) : list (N * string) :=
  omap (fun k => match array_index k with
                 | Some n => Some (n, k)
                 | None => None
                 end) ks.

Definition is_index (k : string) : bool :=
  match array_index k with
  | Some _ => true
  | None => false
  end.

(** OrdinaryOwnPropertyKeys restricted to string keys: array indices in
    ascending numeric order, then every other key in creation order. *)
Definition ordinary_keys (ks : list string) : list string :=
  map snd (sort_index (index_keys ks)) ++ List.filter (fun k => negb (is_index k)) ks.

Fixpoint string_chars (s : string) : list string :=
  match s with
  | EmptyString => []
  | String c s' => String c EmptyString :: string_chars s'
  end.

(** The own enumerable string keys of [v] in enumeration order: what
    [for (k in v)], [Object.keys(v)], [Object.entries(v)], [Object.values(v)]
    and the spread [{...v}] walk through.  [for-in] and spread enumerate
    nothing on [undefined] and [null]; the sources call the [Object.*]
    functions only on values that passed an [instanceof Object] or a
    truthiness test. *)
Definition own_keys (v : JsVal) : list string :=
  match v with
  | JObj props => ordinary_keys (map fst props)
  | JArr items => map index_key (seq 0 (length items))
  | JStr s => map index_key (seq 0 (String.length s))
  | _ => []
  end.

Fixpoint lookup_prop (k : string) (props : list (string * JsVal)) : option JsVal :=
  match props with
  | [] => None
  | (k', v) :: props' => if String.eqb k' k then Some v else lookup_prop k props'
  end.

(** [k in o] for a plain object [o] given by its properties. *)
Definition has_prop (k : string) (props : list (string * JsVal)) : bool :=
  match lookup_prop k props with
  | Some _ => true
  | None => false
  end.

(** [o.k] for a plain object [o] given by its properties. *)
Definition get_prop (k : string) (props : list (string * JsVal)) : JsVal :=
  match lookup_prop k props with
  | Some v => v
  | None => JUndefined
  end.

(** [v[k]] for an own enumerable key; the sources only read properties of
    values that are truthy, so the read itself never throws. *)
Definition get (v : JsVal) (k : string) : JsVal :=
  match v with
  | JObj props => get_prop k props
  | JArr items =>
      match array_index k with
      | Some n => default JUndefined (items !! N.to_nat n)
      | None => JUndefined
      end
  | JStr s =>
      match array_index k with
      | Some n => default JUndefined (JStr <$> (string_chars s !! N.to_nat n))
      | None => JUndefined
      end
  | _ => JUndefined
  end.

(** [Object.entries(v)] and [Object.values(v)] *)
Definition entries (v : JsVal) : list (string * JsVal) :=
  map (fun k => (k, get v k)) (own_keys v).

Definition values (v : JsVal) : list JsVal :=
  map (fun k => get v k) (own_keys v).

(** [o[k] = v] on a plain object: an existing property keeps its place. *)
Fixpoint set_prop (k : string) (v : JsVal) (props : list (string * JsVal))
  : list (string * JsVal) :=
  match props with
  | [] => [(k, v)]
  | (k', v') :: props' =>
      if String.eqb k' k then (k, v) :: props' else (k', v') :: set_prop k v props'
  end.

(** The object literal [{...o, ...v}]: the own enumerable properties of [v]
    are copied over [o] in enumeration order. *)
Definition spread (o : list (string * JsVal)) (v : JsVal) : list (string * JsVal) :=
  fold_left (fun acc kv => set_prop (fst kv) (snd kv) acc) (entries v) o.

(** [arr.every(x => "string" === typeof x)] on the elements of an array. *)
Definition everyString (items : list JsVal) : bool := forallb isString items.

(** [Array.isArray(v) && v.every(x => "string" === typeof x)] *)
Definition isStringArray (v : JsVal) : bool :=
  match v with
  | JArr items => everyString items
  | _ => false
  end.

(** The texts held by a list of values: the view [string[]] of an array
    that passed [isStringArray]. *)
Definition strings_of (items : list JsVal) : list string :=
  omap (fun v => match v with
                 | JStr s => Some s
                 | _ => None
                 end) items.

(** The text of a value known to be a string. *)
Definition text_of (v : JsVal) : string :=
  match v with
  | JStr s => s
  | _ => ""
  end.

(** The elements of a value known to be an array. *)
Definition elements (v : JsVal) : list JsVal :=
  match v with
  | JArr items => items
  | _ => []
  end.

(** ToString, as performed by a template literal [`${v}`]; a number is
    printed in decimal, as JavaScript does below [10^21]. *)
Fixpoint toString (v : JsVal) : string :=
  match v with
  | JUndefined => "undefined"
  | JNull => "null"
  | JBool true => "true"
  | JBool false => "false"
  | JNum n => NilZero.string_of_int (Z.to_int n)
  | JStr s => s
  | JArr items =>
      (fix join (l : list JsVal) : string :=
         match l with
         | [] => ""
         | x :: l' =>
             let sx := match x with
                       | JUndefined => ""
                       | JNull => ""
                       | _ => toString x
                       end in
             match l' with
             | [] => sx
             | _ => sx +:+ "," +:+ join l'
             end
         end) items
  | JObj _ => "[object Object]"
  end.

(** *** Strings *)

(** [s.includes(term)] *)
Fixpoint includes (s term : string) : bool :=
  if String.prefix term s then true
  else match s with
       | EmptyString => false
       | String _ s' => includes s' term
       end.

(** White space and line terminators removed by [trim] (code units below 256). *)
Definition is_space (c : ascii) : bool :=
  let n := N_of_ascii c in
  ((n =? 9) || (n =? 10) || (n =? 11) || (n =? 12) || (n =? 13) || (n =? 32)
   || (n =? 160))%N.

Fixpoint trimStart (s : string) : string :=
  match s with
  | EmptyString => EmptyString
  | String c s' => if is_space c then trimStart s' else s
  end.

Fixpoint trimEnd (s : string) : string :=
  match s with
  | EmptyString => EmptyString
  | String c s' =>
      match trimEnd s' with
      | EmptyString => if is_space c then EmptyString else String c EmptyString
      | t => String c t
      end
  end.

(** [s.trim()] *)
Definition trim (s : string) : string := trimEnd (trimStart s).

Definition is_newline (c : ascii) : bool :=
  let n := N_of_ascii c in ((n =? 10) || (n =? 13))%N.

(** [split_lines_from cur in_sep s]: [cur] is the piece being read and
    [in_sep] tells whether the previous character belonged to a separator
    run. *)
Fixpoint split_lines_from (cur : string) (in_sep : bool) (s : string) : list string :=
  match s with
  | EmptyString => [cur]
  | String c s' =>
      if is_newline c
      then (if in_sep then split_lines_from cur true s'
            else cur :: split_lines_from EmptyString true s')
      else split_lines_from (cur +:+ String c EmptyString) false s'
  end.

(** [s.split(/[\r\n]+/)]: the pieces between maximal runs of CR and LF. *)
Definition split_lines (s : string) : list string :=
  split_lines_from EmptyString false s.

End JS.

(** ** src/rules/ResourceDNTTerms.js *)
Module ResourceDNTTerms.
Import JS.

(** The host operations the rule calls while it is constructed:
    [fs.readFileSync(path, "utf8")], which returns the text of the file or
    throws, and [JSON.parse(text)], which returns the parsed value or throws
    a [SyntaxError] ([None]). *)
Class Host : Type := {
  readFileSync : JsVal -> Throws string;
  JSON_parse : string -> option JsVal
}.

(** [Resource] of ilib-tools-common, through the four getters [match] uses. *)
Record Resource : Type := {
  getKey : string;
  getType : string;
  getSource : JsVal;
  getTarget : JsVal
}.

(** Modelled from the spec: [ResourcePlural.validPluralCategories] of
    ilib-tools-common, the fixed closed set of CLDR plural categories
    [zero, one, two, few, many, other]. *)
Definition validPluralCategories : list string :=
  ["zero"; "one"; "two"; "few"; "many"; "other"].

(** The rule instance: the class fields of [ResourceDNTTerms]. *)
Record t : Type := {
  name : string;
  description : string;
  link : string;
  ruleType : string;
  _dntTerms : list string
}.

(** The object literals pushed by the [_match*] methods. *)
Record PartialResult : Type := {
  pr_source : string;
  pr_highlight : string
}.

(** [Result] of i18nlint-common, as built from
    [{ ...resultProps, ...partialResult }]. *)
Module Result.
Record t (Rule : Type) : Type := {
  id : string;
  rule : Rule;
  pathName : string;
  locale : string;
  severity : string;
  description : string;
  source : string;
  highlight : string
}.
Arguments id {Rule} _.
Arguments rule {Rule} _.
Arguments pathName {Rule} _.
Arguments locale {Rule} _.
Arguments severity {Rule} _.
Arguments description {Rule} _.
Arguments source {Rule} _.
Arguments highlight {Rule} _.
End Result.

(** [[...new Set(l)]]: the distinct elements of [l] in order of first
    occurrence. *)
Definition Set_of (l : list string) : list string :=
  fold_left (fun acc x => if existsb (String.eqb x) acc then acc else acc ++ [x]) l [].

(** [l.filter((t) => t.length > 0)] *)
Definition nonempty (l : list string) : list string :=
  List.filter (fun t => (0 <? String.length t)%nat) l.

Definition quote : string := String "034" EmptyString.

Section Construction.
Context `{Host}.

(** [static parseTermsFromJsonFile(path)] *)
Definition parseTermsFromJsonFile (path : JsVal) : Throws (list string) :=
  bind (readFileSync path) (fun text =>
    match JSON_parse text with
    | None => Throw (Error "Failed to parse DNT terms file as JSON")
    | Some content =>
        if negb (isArray content) || negb (everyString (elements content))
        then Throw (Error "DNT terms JSON file has unexpected content; expected string[]")
        else Return (strings_of (elements content))
    end).

(** [static parseTermsFromTxtFile(path)] *)
Definition parseTermsFromTxtFile (path : JsVal) : Throws (list string) :=
  bind (readFileSync path) (fun text =>
    Return (nonempty (map trim (split_lines text)))).

(** [constructor(params)], for [params] a plain object; the call
    [super({})] to [Rule] is left out. *)
Definition new (params : list (string * JsVal)) : Throws t :=
  bind
    (if has_prop "terms" params then
       let terms := get_prop "terms" params in
       if negb (isArray terms) || negb (everyString (elements terms))
       then Throw (Error "DNT terms provided in an unexpected format; expected string[]")
       else Return (strings_of (elements terms))
     else if has_prop "termsFilePath" params then
       let termsFileType := get_prop "termsFileType" params in
       if strictEqStr termsFileType "json" then
         parseTermsFromJsonFile (get_prop "termsFilePath" params)
       else if strictEqStr termsFileType "txt" then
         parseTermsFromTxtFile (get_prop "termsFilePath" params)
       else
         Throw (Error (quote +:+ toString termsFileType +:+ quote
                       +:+ " is not a valid DNT terms file type"))
     else Return [])
    (fun terms =>
       Return {| name := "resource-dnt-terms";
                 description := "Ensure that Do Not Translate terms have not been translated.";
                 link := "https://github.com/ilib-js/i18nlint/blob/main/docs/resource-dnt-terms.md";
                 ruleType := "resource";
                 _dntTerms := Set_of (nonempty terms) |}).

End Construction.

(** [_matchString(source, target)] *)
Definition _matchString (this : t) (source target : string) : list PartialResult :=
  fold_left
    (fun partialResults term =>
       if includes source term && negb (includes target term)
       then partialResults ++
              [{| pr_source := source;
                  pr_highlight := "Missing term: <e0>" +:+ term +:+ "</e0>" |}]
       else partialResults)
    (_dntTerms this) [].

(** [_matchArray(source, target)] *)
Definition _matchArray (this : t) (source target : list string) : list PartialResult :=
  fold_left
    (fun partialResults item =>
       let idx := fst item in
       let sourceItem := snd item in
       let targetItem := default "" (target !! idx) in
       partialResults ++ _matchString this sourceItem targetItem)
    (imap (fun idx sourceItem => (idx, sourceItem)) source) [].

(** [_matchPlural(source, target)]; both arguments passed the check of
    [_matchResource], so every value is a string. *)
Definition _matchPlural (this : t) (source target : JsVal) : list PartialResult :=
  fold_left
    (fun partialResults term =>
       let matchingSourceItem :=
         List.find (fun sourceItem => includes sourceItem term)
                   (strings_of (values source)) in
       match matchingSourceItem with
       | Some item =>
           if negb (forallb (fun targetItem => includes targetItem term)
                            (strings_of (values target)))
           then partialResults ++
                  [{| pr_source := item;
                      pr_highlight := "Missing term: <e0>" +:+ term +:+ "</e0>" |}]
           else partialResults
       | None => partialResults
       end)
    (_dntTerms this) [].

(** The guards of the [array] and [plural] cases of [_matchResource]. *)
Definition array_guard (source target : JsVal) : bool :=
  isArray source && everyString (elements source)
  && isArray target && everyString (elements target).

Definition plural_guard (source target : JsVal) : bool :=
  instanceofObject source && instanceofObject target
  && forallb (fun kv => existsb (String.eqb (fst kv)) validPluralCategories
                        && isString (snd kv))
             (entries source ++ entries target).

(** [_matchResource(resource)]; [None] is the bare [return]. *)
Definition _matchResource (this : t) (resource : Resource) : option (list PartialResult) :=
  let source := getSource resource in
  let target := getTarget resource in
  if String.eqb (getType resource) "string" then
    if negb (isString source) || negb (isString target) then None
    else Some (_matchString this (text_of source) (text_of target))
  else if String.eqb (getType resource) "array" then
    if negb (array_guard source target) then None
    else Some (_matchArray this (strings_of (elements source)) (strings_of (elements target)))
  else if String.eqb (getType resource) "plural" then
    if negb (plural_guard source target) then None
    else Some (_matchPlural this source target)
  else None.

(** The object literal [{ ...resultProps, ...partialResult }] for the
    [resultProps] of [match]: the fields handed to [new Result]. *)
Definition result (this : t) (resource : Resource) (file locale : string)
    (partialResult : PartialResult) : Result.t t :=
  {| Result.id := getKey resource;
     Result.rule := this;
     Result.pathName := file;
     Result.locale := locale;
     Result.severity := "error";
     Result.description := "A DNT term is missing in target string.";
     Result.source := pr_source partialResult;
     Result.highlight := pr_highlight partialResult |}.

(** What the constructor of [Result] throws. *)
Definition missing_fields : Exn :=
  Thrown (JStr "Missing fields in Result constructor").

(** [new Result(fields)] of i18nlint-common: the constructor throws a string
    unless [severity], [description], [pathName], [rule] and [highlight] are
    all truthy, and takes over the fields otherwise (the severity [error],
    which [match] passes, is one it keeps as it is).  The rule is the
    instance, an object, hence truthy. *)
Definition Result_new (fields : Result.t t) : Throws (Result.t t) :=
  if negb (truthy (JStr (Result.severity fields)))
     || negb (truthy (JStr (Result.description fields)))
     || negb (truthy (JStr (Result.pathName fields)))
     || negb (truthy (JStr (Result.highlight fields)))
  then Throw missing_fields
  else Return fields.

(** [match({ resource, file, locale })]; [None] is [undefined].  The
    optional chain [?.map] builds one [Result] per partial result, in order,
    and the first constructor that throws ends the call. *)
Definition match_ (this : t) (resource : Resource) (file locale : string)
  : Throws (option (list (Result.t t))) :=
  match _matchResource this resource with
  | None => Return None
  | Some partialResults =>
      bind (map_throws
              (fun partialResult =>
                 Result_new (result this resource file locale partialResult))
              partialResults)
           (fun results => Return (Some results))
  end.

End ResourceDNTTerms.

(** ** The rule instance and its arrays as objects in a store

    The methods of [ResourceDNTTerms.js] once more, this time as the
    statements they are: [this._dntTerms] is a reference to an array object,
    every [[]] allocates a new array, [push] updates an array in place and
    [for...of] reads the array it iterates as it goes. *)
Module DNTStore.
Import JS ResourceDNTTerms.

(** The elements of the arrays: terms and partial results. *)
Inductive Val : Type :=
| Str (s : string)
| Partial (p : PartialResult).

(** The state a method runs in: the fields of the instance [this], where
    [_dntTerms] holds a reference, and the heap of array objects, a
    reference being a position in the heap. *)
Record Store : Type := {
  this_name : string;
  this_description : string;
  this_link : string;
  this_ruleType : string;
  this_dntTerms : nat;
  heap : list (list Val)
}.

Definition with_heap (h : list (list Val)) (st : Store) : Store :=
  {| this_name := this_name st;
     this_description := this_description st;
     this_link := this_link st;
     this_ruleType := this_ruleType st;
     this_dntTerms := this_dntTerms st;
     heap := h |}.

(** A statement runs from a store to a value and the store it leaves, or
    does not finish ([None]): a loop ran out of fuel, a reference does not
    point to an array, or an element is not of the kind the statement
    expects. *)
Definition M (A : Type) : Type := Store -> option (A * Store).

Definition ret {A : Type} (a : A) : M A := fun st => Some (a, st).

Definition fault {A : Type} : M A := fun _ => None.

Definition and_then {A B : Type} (m : M A) (k : A -> M B) : M B :=
  fun st =>
    match m st with
    | Some (a, st') => k a st'
    | None => None
    end.

Declare Scope store_scope.
Delimit Scope store_scope with store.
Notation "x <- m ;; k" := (and_then m (fun x => k))
  (at level 100, m at next level, right associativity) : store_scope.
Notation "m ;; k" := (and_then m (fun _ => k))
  (at level 100, right associativity) : store_scope.
Local Open Scope store_scope.

(** [[]]: a new empty array; the value of the expression is its reference. *)
Definition new_array : M nat :=
  fun st => Some (length (heap st), with_heap (heap st ++ [[]]) st).

(** [arr.push(...items)] *)
Definition push (arr : nat) (items : list Val) : M unit :=
  fun st =>
    match heap st !! arr with
    | Some old => Some (tt, with_heap (<[arr := old ++ items]> (heap st)) st)
    | None => None
    end.

(** The elements of [arr], as read by a spread [...arr] or by [arr.map]. *)
Definition read (arr : nat) : M (list Val) :=
  fun st =>
    match heap st !! arr with
    | Some items => Some (items, st)
    | None => None
    end.

(** [this._dntTerms]: the reference the field holds. *)
Definition get_dntTerms : M nat := fun st => Some (this_dntTerms st, st).

(** [for (const x of arr) body], from position [index] on: the iterator
    reads the element at the next position of the array as the array is at
    that moment, and ends when the position is past its current length.
    [fuel] bounds the number of iterations. *)
Fixpoint for_of (fuel : nat) (arr : nat) (index : nat) (body : Val -> M unit) : M unit :=
  fun st =>
    match heap st !! arr with
    | None => None
    | Some items =>
        match items !! index with
        | None => Some (tt, st)
        | Some x =>
            match fuel with
            | O => None
            | S fuel' =>
                match body x st with
                | Some (_, st') => for_of fuel' arr (S index) body st'
                | None => None
                end
            end
        end
    end.

(** [source.forEach((item, idx) => body)] over the items of a resource,
    which are values, not objects of the store; [idx] is the position of the
    first item of [l]. *)
Fixpoint forEach {A : Type} (body : A -> nat -> M unit) (idx : nat) (l : list A) : M unit :=
  match l with
  | [] => ret tt
  | item :: l' => body item idx ;; forEach body (S idx) l'
  end.

(** [_matchString(source, target)]: the reference of the array it returns. *)
Definition _matchString (fuel : nat) (source target : string) : M nat :=
  partialResults <- new_array ;;
  terms <- get_dntTerms ;;
  for_of fuel terms 0
    (fun term =>
       match term with
       | Str term =>
           if includes source term && negb (includes target term)
           then push partialResults
                  [Partial {| pr_source := source;
                              pr_highlight := "Missing term: <e0>" +:+ term +:+ "</e0>" |}]
           else ret tt
       | Partial _ => fault
       end) ;;
  ret partialResults.

(** [_matchArray(source, target)] *)
Definition _matchArray (fuel : nat) (source target : list string) : M nat :=
  partialResults <- new_array ;;
  forEach
    (fun sourceItem idx =>
       let targetItem := default "" (target !! idx) in
       found <- _matchString fuel sourceItem targetItem ;;
       items <- read found ;;
       push partialResults items)
    0 source ;;
  ret partialResults.

(** [_matchPlural(source, target)]; both arguments passed the check of
    [_matchResource], so every value is a string. *)
Definition _matchPlural (fuel : nat) (source target : JsVal) : M nat :=
  partialResults <- new_array ;;
  terms <- get_dntTerms ;;
  for_of fuel terms 0
    (fun term =>
       match term with
       | Str term =>
           let matchingSourceItem :=
             List.find (fun sourceItem => includes sourceItem term)
                       (strings_of (values source)) in
           match matchingSourceItem with
           | Some item =>
               if negb (forallb (fun targetItem => includes targetItem term)
                                (strings_of (values target)))
               then push partialResults
                      [Partial {| pr_source := item;
                                  pr_highlight := "Missing term: <e0>" +:+ term +:+ "</e0>" |}]
               else ret tt
           | None => ret tt
           end
       | Partial _ => fault
       end) ;;
  ret partialResults.

(** [_matchResource(resource)]; [None] is the bare [return]. *)
Definition _matchResource (fuel : nat) (resource : Resource) : M (option nat) :=
  let source := getSource resource in
  let target := getTarget resource in
  if String.eqb (getType resource) "string" then
    if negb (isString source) || negb (isString target) then ret None
    else found <- _matchString fuel (text_of source) (text_of target) ;; ret (Some found)
  else if String.eqb (getType resource) "array" then
    if negb (array_guard source target) then ret None
    else found <- _matchArray fuel (strings_of (elements source))
                              (strings_of (elements target)) ;;
         ret (Some found)
  else if String.eqb (getType resource) "plural" then
    if negb (plural_guard source target) then ret None
    else found <- _matchPlural fuel source target ;; ret (Some found)
  else ret None.

Fixpoint strs_of (items : list Val) : option (list string) :=
  match items with
  | [] => Some []
  | Str s :: items' => option_map (cons s) (strs_of items')
  | Partial _ :: _ => None
  end.

Fixpoint partials_of (items : list Val) : option (list PartialResult) :=
  match items with
  | [] => Some []
  | Partial p :: items' => option_map (cons p) (partials_of items')
  | Str _ :: _ => None
  end.

(** [this], as the value a [Result] carries in its field [rule]: the fields
    of the instance with the terms its array holds at that moment. *)
Definition self : M t :=
  fun st =>
    match heap st !! this_dntTerms st with
    | Some items =>
        match strs_of items with
        | Some terms =>
            Some ({| name := this_name st;
                     description := this_description st;
                     link := this_link st;
                     ruleType := this_ruleType st;
                     _dntTerms := terms |}, st)
        | None => None
        end
    | None => None
    end.

(** [match({ resource, file, locale })]: whether the call returns or
    throws, and what. *)
Definition match_ (fuel : nat) (resource : Resource) (file locale : string)
  : M (Throws (option (list (Result.t t)))) :=
  this <- self ;;
  found <- _matchResource fuel resource ;;
  match found with
  | None => ret (Return None)
  | Some partialResults =>
      items <- read partialResults ;;
      match partials_of items with
      | Some partials =>
          ret (bind (map_throws
                       (fun partialResult =>
                          Result_new (result this resource file locale partialResult))
                       partials)
                    (fun results => Return (Some results)))
      | None => fault
      end
  end.

(** The store the constructor leaves: the instance and the one array it
    assigned to [this._dntTerms]. *)
Definition store_of (this : t) : Store :=
  {| this_name := name this;
     this_description := description this;
     this_link := link this;
     this_ruleType := ruleType this;
     this_dntTerms := 0;
     heap := [List.map Str (_dntTerms this)] |}.

End DNTStore.

(** ** src/rules/DeclarativeResourceRule.js *)
Module DeclarativeResourceRule.
Import JS.

(** The abstract method [checkString]: a concrete rule supplies it.  It
    receives the compiled pattern and the source/target/file/resource of the
    call and returns a [Result], an array of them or [undefined]; [St] is the
    state it may read and update between calls (the [lastIndex] of the
    global regular expressions, for one). *)
Class CheckString (Re Resource St : Type) : Type :=
  checkString : Re -> JsVal -> JsVal -> string -> Resource -> St -> JsVal * St.

(** The instance, through the one field [matchString] reads: the compiled
    patterns [this.re]. *)
Record t (Re : Type) : Type := { re : list Re }.
Arguments re {Re} _.

(** [results.concat(x)]: an array argument is spread, any other value is
    appended as one element. *)
Definition concat (results : list JsVal) (x : JsVal) : list JsVal :=
  match x with
  | JArr items => results ++ items
  | _ => results ++ [x]
  end.

Section Matching.
Context {Re Resource St : Type} `{CheckString Re Resource St}.

(** The [forEach] loop of [matchString]: the results gathered so far and the
    state left by the calls made so far. *)
Definition check_all (this : t Re) (source target : JsVal) (file : string)
    (resource : Resource) (st : St) : list JsVal * St :=
  fold_left
    (fun acc re =>
       let r := checkString re source target file resource (snd acc) in
       (concat (fst acc) (fst r), snd r))
    (re this) ([], st).

(** [matchString({source, target, file, resource})] *)
Definition matchString (this : t Re) (source target : JsVal) (file : string)
    (resource : Resource) (st : St) : option (list JsVal) * St :=
  let loop := check_all this source target file resource st in
  let results := List.filter truthy (fst loop) in
  (if truthy (JArr results) && truthy (JNum (Z.of_nat (length results)))
   then Some results else None,
   snd loop).

(** The earlier [matchString(locale, source, target, file, resource)]: same
    body, the arguments are positional and [locale] is not used. *)
Definition matchString_positional (this : t Re) (locale : JsVal)
    (source target : JsVal) (file : string) (resource : Resource) (st : St)
  : option (list JsVal) * St :=
  let loop := check_all this source target file resource st in
  let results := List.filter truthy (fst loop) in
  (if truthy (JArr results) && truthy (JNum (Z.of_nat (length results)))
   then Some results else None,
   snd loop).

End Matching.

(** The body [checkString(params) {}] of the class itself. *)
Definition base_checkString {Re Resource St : Type} : CheckString Re Resource St :=
  fun _ _ _ _ _ st => (JUndefined, st).

End DeclarativeResourceRule.

(** ** src/Project.js *)
Module Project.
Import JS.

Definition rulesetDefinitions : JsVal :=
  JObj [("resource-check-all",
         JObj [("resource-icu-plurals", JBool true);
               ("resource-quote-style", JStr "localeOnly");
               ("resource-unique-keys", JBool true);
               ("resource-url-match", JBool true);
               ("resource-named-params", JBool true)])].

Definition xliffFileTypeDefinition : JsVal :=
  JObj [("name", JStr "xliff");
        ("glob", JStr "**/*.xliff");
        ("ruleset", JArr [JStr "resource-check-all"])].

Definition unknownFileTypeDefinition : JsVal :=
  JObj [("name", JStr "unknown");
        ("glob", JStr "**/*")].

(** The names of the members every object inherits from
    [Object.prototype]; each of them is a function or, for [__proto__], an
    accessor whose value is the prototype of the object. *)
Definition Object_prototype : list string :=
  ["constructor"; "__defineGetter__"; "__defineSetter__"; "hasOwnProperty";
   "__lookupGetter__"; "__lookupSetter__"; "isPrototypeOf";
   "propertyIsEnumerable"; "toString"; "valueOf"; "__proto__"; "toLocaleString"].

(** The fields of a project that the constructor and file-type resolution
    read or write.  [options] is the argument of that name through its data
    properties, and [pluginMgr] the value of its property [pluginManager], a
    host object of type [Obj] ([None] when the property is missing or
    falsy).  [this.filetypes] is an object literal: [filetypes] holds its own
    properties and [filetypes_proto] its prototype, [None] for
    [Object.prototype] and [Some ft] once an assignment to the key
    [__proto__] has installed the file type [ft] in its place.  [mappings]
    is [undefined] until the constructor assigns [config.paths]. *)
Record t (FileType Obj : Type) : Type := {
  root : JsVal;
  options : JsVal;
  config : JsVal;
  includes : list string;
  excludes : JsVal;
  name : JsVal;
  pluginMgr : option Obj;
  filetypes : gmap string FileType;
  filetypes_proto : option FileType;
  mappings : JsVal
}.
Arguments root {FileType Obj} _.
Arguments options {FileType Obj} _.
Arguments config {FileType Obj} _.
Arguments includes {FileType Obj} _.
Arguments excludes {FileType Obj} _.
Arguments name {FileType Obj} _.
Arguments pluginMgr {FileType Obj} _.
Arguments filetypes {FileType Obj} _.
Arguments filetypes_proto {FileType Obj} _.
Arguments mappings {FileType Obj} _.

(** What a read [this.filetypes[name]] can find: a file type, or a member
    of that name inherited from the prototype of the object, which is not a
    file type. *)
Inductive Member (FileType : Type) : Type :=
| FileTypeOf (ft : FileType)
| Inherited (name : string).
Arguments FileTypeOf {FileType} ft.
Arguments Inherited {FileType} name.

(** What the project imports and calls.  [path.normalize] and
    [mm.isMatch(path, glob)] are functions of their arguments.  The other
    operations act on objects with state of their own, the world [W], and
    return or throw: the constructor of the superclass [DirItem]
    (DirItem.js), called with the arguments of the constructor;
    [pluginMgr.getRuleManager()] and [pluginMgr.getFormatterManager()],
    which return a manager; [ruleMgr.add(rules)],
    [ruleMgr.addRuleSetDefinitions(defs)] and [fmtMgr.add(formatters)]; and
    the constructor of [FileType] (FileType.js), which receives the project
    under construction and the remaining properties of its argument.
    [FileType_member ft name] tells whether the read [ft[name]] of a member
    of a file type, own or inherited, gives a truthy value. *)
Class Host (FileType Obj W : Type) : Type := {
  normalize : string -> string;
  isMatch : string -> string -> bool;
  DirItem_new : JsVal -> JsVal -> option Obj -> JsVal -> W -> Throws W;
  getRuleManager : Obj -> W -> Throws (Obj * W);
  RuleManager_add : Obj -> JsVal -> W -> Throws W;
  RuleManager_addRuleSetDefinitions : Obj -> JsVal -> W -> Throws W;
  getFormatterManager : Obj -> W -> Throws (Obj * W);
  FormatterManager_add : Obj -> JsVal -> W -> Throws W;
  FileType_new : t FileType Obj -> list (string * JsVal) -> W -> Throws (FileType * W);
  FileType_member : FileType -> string -> bool
}.

Section Project.
Context {FileType Obj W : Type} `{Host FileType Obj W}.

(** [this.filetypes[k] = ft]: the assignment creates or updates an own
    property, except for the key [__proto__], where it runs the setter
    inherited from [Object.prototype], which makes the object [ft] the
    prototype of [this.filetypes]. *)
Definition set_filetype (k : string) (ft : FileType) (this : t FileType Obj)
  : t FileType Obj :=
  {| root := root this; options := options this; config := config this;
     includes := includes this; excludes := excludes this; name := name this;
     pluginMgr := pluginMgr this;
     filetypes := if String.eqb k "__proto__" then filetypes this
                  else <[k := ft]> (filetypes this);
     filetypes_proto := if String.eqb k "__proto__" then Some ft
                        else filetypes_proto this;
     mappings := mappings this |}.

(** [this.mappings = v] *)
Definition set_mappings (v : JsVal) (this : t FileType Obj) : t FileType Obj :=
  {| root := root this; options := options this; config := config this;
     includes := includes this; excludes := excludes this; name := name this;
     pluginMgr := pluginMgr this;
     filetypes := filetypes this;
     filetypes_proto := filetypes_proto this;
     mappings := v |}.

(** [for (let ft in this.config.filetypes) { this.filetypes[ft] = new FileType({name: ft, project: this, ...this.config.filetypes[ft]}) }] *)
Fixpoint declare_filetypes (fts : list string) (this : t FileType Obj) (w : W)
  : Throws (t FileType Obj * W) :=
  match fts with
  | [] => Return (this, w)
  | ft :: fts' =>
      bind (FileType_new this
              (spread [("name", JStr ft)] (get (get (config this) "filetypes") ft)) w)
           (fun r => declare_filetypes fts' (set_filetype ft (fst r) this) (snd r))
  end.

(** [for (let glob in this.mappings) { if (typeof(this.mappings[glob]) === 'object') { this.filetypes[glob] = new FileType({name: glob, project: this, ...this.mappings[glob]}) } }] *)
Fixpoint declare_inline (globs : list string) (this : t FileType Obj) (w : W)
  : Throws (t FileType Obj * W) :=
  match globs with
  | [] => Return (this, w)
  | glob :: globs' =>
      if String.eqb (typeof (get (mappings this) glob)) "object"
      then bind (FileType_new this
                   (spread [("name", JStr glob)] (get (mappings this) glob)) w)
                (fun r => declare_inline globs' (set_filetype glob (fst r) this) (snd r))
      else declare_inline globs' this w
  end.

(** The statements from [this.pluginMgr.getRuleManager()] to
    [fmtMgr.add(this.config.formatters)]. *)
Definition register (pluginMgr : Obj) (config : JsVal) (w : W) : Throws W :=
  bind (getRuleManager pluginMgr w) (fun r =>
  let ruleMgr := fst r in
  bind (if truthy (get config "rules")
        then RuleManager_add ruleMgr (get config "rules") (snd r)
        else Return (snd r)) (fun w =>
  bind (RuleManager_addRuleSetDefinitions ruleMgr rulesetDefinitions w) (fun w =>
  bind (if truthy (get config "rulesets")
        then RuleManager_addRuleSetDefinitions ruleMgr (get config "rulesets") w
        else Return w) (fun w =>
  if truthy (get config "formatters")
  then bind (getFormatterManager pluginMgr w) (fun r =>
       let fmtMgr := fst r in
       FormatterManager_add fmtMgr (get config "formatters") (snd r))
  else Return w)))).

(** The fields assigned before [this.filetypes]: [filetypes] and [mappings]
    are still unset. *)
Definition init (root options : JsVal) (pluginManager : option Obj) (config : JsVal)
  : t FileType Obj :=
  {| root := root; options := options; config := config;
     includes := if truthy (get config "paths")
                 then own_keys (get config "paths") else ["**"];
     excludes := get config "excludes";
     name := get config "name";
     pluginMgr := pluginManager;
     filetypes := ∅;
     filetypes_proto := None;
     mappings := JUndefined |}.

(** [new FileType({project: this, ...xliffFileTypeDefinition})] and
    [new FileType({project: this, ...unknownFileTypeDefinition})] *)
Definition builtin_xliff (this : t FileType Obj) (w : W) : Throws (FileType * W) :=
  FileType_new this (spread [] xliffFileTypeDefinition) w.

Definition builtin_unknown (this : t FileType Obj) (w : W) : Throws (FileType * W) :=
  FileType_new this (spread [] unknownFileTypeDefinition) w.

Definition insufficient_params : Exn :=
  Thrown (JStr "Insufficient params given to Project constructor").

(** [constructor(root, options, config)], with [pluginManager] the value of
    [options.pluginManager]; the field [files], which the constructor sets
    to the empty array, is the list the operations on files take as their
    argument. *)
Definition new (root options : JsVal) (pluginManager : option Obj) (config : JsVal)
    (w : W) : Throws (t FileType Obj * W) :=
  bind (DirItem_new root options pluginManager config w) (fun w =>
  match pluginManager with
  | None => Throw insufficient_params
  | Some pluginMgr =>
      if negb (truthy options) || negb (truthy root) || negb (truthy config)
      then Throw insufficient_params
      else
        let this := init root options pluginManager config in
        bind (register pluginMgr config w) (fun w =>
        bind (builtin_xliff this w) (fun xliff =>
        bind (builtin_unknown this (snd xliff)) (fun unknown =>
        let this := set_filetype "unknown" (fst unknown)
                      (set_filetype "xliff" (fst xliff) this) in
        bind (if truthy (get config "filetypes")
              then declare_filetypes (own_keys (get config "filetypes")) this
                     (snd unknown)
              else Return (this, snd unknown)) (fun r =>
        if truthy (get config "paths")
        then let this := set_mappings (get config "paths") (fst r) in
             declare_inline (own_keys (mappings this)) this (snd r)
        else Return r))))
  end).

(** The read [this.filetypes[name]] as the test of [||] sees it, [None]
    for [undefined] or another falsy value: an own property if there is
    one; otherwise what the prototype gives, a member of [Object.prototype]
    or, once a file type has been installed as the prototype, a truthy
    member of that file type.  The member [__proto__] is the prototype
    itself. *)
Definition lookup_filetype (this : t FileType Obj) (name : string)
  : option (Member FileType) :=
  if String.eqb name "__proto__" then
    match filetypes_proto this with
    | Some ft => Some (FileTypeOf ft)
    | None => Some (Inherited name)
    end
  else
    match filetypes this !! name with
    | Some ft => Some (FileTypeOf ft)
    | None =>
        if match filetypes_proto this with
           | Some ft => FileType_member ft name
           | None => existsb (String.eqb name) Object_prototype
           end
        then Some (Inherited name)
        else None
    end.

(** [this.filetypes.unknown]: the read of an own property. *)
Definition filetypes_unknown (this : t FileType Obj) : option (Member FileType) :=
  FileTypeOf <$> filetypes this !! "unknown".

(** [this.filetypes[name] || this.filetypes.unknown]; a file type is an
    object and an inherited member a function or an object, hence truthy. *)
Definition filetype_or_unknown (this : t FileType Obj) (name : string)
  : option (Member FileType) :=
  match lookup_filetype this name with
  | Some member => Some member
  | None => filetypes_unknown this
  end.

(** [typeof(this.mappings[glob]) === 'string' ? this.mappings[glob] : glob] *)
Definition mapped_name (this : t FileType Obj) (glob : string) : string :=
  if String.eqb (typeof (get (mappings this) glob)) "string"
  then text_of (get (mappings this) glob)
  else glob.

(** The [for (let glob in this.mappings)] loop of [getFileTypeForPath] and
    the [return] after it. *)
Fixpoint scan_mappings (this : t FileType Obj) (pathName : string) (globs : list string)
  : option (Member FileType) :=
  match globs with
  | [] => filetypes_unknown this
  | glob :: globs' =>
      if isMatch pathName glob
      then filetype_or_unknown this (mapped_name this glob)
      else scan_mappings this pathName globs'
  end.

(** [getFileTypeForPath(pathName)]; [None] is [undefined]. *)
Definition getFileTypeForPath (this : t FileType Obj) (pathName : string)
  : option (Member FileType) :=
  let pathName := normalize pathName in
  scan_mappings this pathName (own_keys (mappings this)).

End Project.
End Project.

(** ** Vocabulary of the statements *)

(** Notions the statements about [ResourceDNTTerms] are phrased in. *)
Module DNTTermsSpec.
Import JS ResourceDNTTerms.

(** [x] occurs in [s] as a contiguous run of characters. *)
Definition Substring (x s : string) : Prop :=
  exists a b, s = a +:+ x +:+ b.

(** The highlight of a finding about the term [x]. *)
Definition missing_term (x : string) : string :=
  "Missing term: <e0>" +:+ x +:+ "</e0>".

(** A finding cites the term [x]. *)
Definition cites (f : Result.t t) (x : string) : Prop :=
  Result.highlight f = missing_term x.

(** The test [_matchString] applies to a term and the object it pushes. *)
Definition missing_in (source target term : string) : bool :=
  includes source term && negb (includes target term).

Definition partial (source term : string) : PartialResult :=
  {| pr_source := source; pr_highlight := missing_term term |}.

(** The findings of a result of [match]: none when it is [undefined]. *)
Definition findings_of {A : Type} (r : option (list A)) : list A :=
  match r with
  | Some l => l
  | None => []
  end.

(** The findings of a call of [match]: none when the call throws. *)
Definition findings {A : Type} (outcome : Throws (option (list A))) : list A :=
  match outcome with
  | Return r => findings_of r
  | Throw _ => []
  end.

(** The resource of shape [string] with the given key, source and target. *)
Definition string_resource (key s t : string) : Resource :=
  {| getKey := key; getType := "string"; getSource := JStr s; getTarget := JStr t |}.

(** A dictionary keyed by plural categories whose values are texts. *)
Definition isPluralDict (v : JsVal) : bool :=
  instanceofObject v
  && forallb (fun kv => existsb (String.eqb (fst kv)) validPluralCategories
                        && isString (snd kv))
             (entries v).

(** The texts of the categories of a plural dictionary, in enumeration order. *)
Definition category_texts (v : JsVal) : list string :=
  strings_of (values v).

(** What [_matchPlural] pushes for a term, if anything. *)
Definition plural_partial (source target : JsVal) (term : string) : option PartialResult :=
  match List.find (fun sourceItem => includes sourceItem term) (category_texts source) with
  | Some item =>
      if negb (forallb (fun targetItem => includes targetItem term) (category_texts target))
      then Some (partial item term) else None
  | None => None
  end.

(** The content of a resource fits its declared shape. *)
Definition well_typed (resource : Resource) : bool :=
  if String.eqb (getType resource) "string" then
    isString (getSource resource) && isString (getTarget resource)
  else if String.eqb (getType resource) "array" then
    isStringArray (getSource resource) && isStringArray (getTarget resource)
  else if String.eqb (getType resource) "plural" then
    isPluralDict (getSource resource) && isPluralDict (getTarget resource)
  else false.

(** The term [x] is present in the source of a well-typed resource and
    missing from its target, shape by shape. *)
Definition term_missing (resource : Resource) (x : string) : bool :=
  if String.eqb (getType resource) "string" then
    includes (text_of (getSource resource)) x
    && negb (includes (text_of (getTarget resource)) x)
  else if String.eqb (getType resource) "array" then
    existsb (fun p => includes (snd p) x && negb (includes (fst p) x))
      (imap (fun idx sourceItem =>
               (default "" (strings_of (elements (getTarget resource)) !! idx),
                sourceItem))
            (strings_of (elements (getSource resource))))
  else
    existsb (fun sourceItem => includes sourceItem x)
            (category_texts (getSource resource))
    && negb (forallb (fun targetItem => includes targetItem x)
                     (category_texts (getTarget resource))).

(** The defects of a terms file and the error each one raises. *)
Inductive TermsFileDefect `{Host} (params : list (string * JsVal)) : Exn -> Prop :=
| malformed_json (text : string) :
    strictEqStr (get_prop "termsFileType" params) "json" = true ->
    readFileSync (get_prop "termsFilePath" params) = Return text ->
    JSON_parse text = None ->
    TermsFileDefect params (Error "Failed to parse DNT terms file as JSON")
| not_a_string_array (text : string) (content : JsVal) :
    strictEqStr (get_prop "termsFileType" params) "json" = true ->
    readFileSync (get_prop "termsFilePath" params) = Return text ->
    JSON_parse text = Some content ->
    isStringArray content = false ->
    TermsFileDefect params
      (Error "DNT terms JSON file has unexpected content; expected string[]")
| unknown_file_type :
    strictEqStr (get_prop "termsFileType" params) "json" = false ->
    strictEqStr (get_prop "termsFileType" params) "txt" = false ->
    TermsFileDefect params
      (Error (quote +:+ toString (get_prop "termsFileType" params) +:+ quote
              +:+ " is not a valid DNT terms file type")).

End DNTTermsSpec.

(** Notions the statements about the rule in the store are phrased in. *)
Module DNTStoreSpec.
Import JS ResourceDNTTerms DNTStore.

(** The field [_dntTerms] of the instance refers to an array that holds the
    terms [T]. *)
Definition holds_terms (st : Store) (T : list string) : Prop :=
  heap st !! this_dntTerms st = Some (List.map Str T).

(** The instance of a store as a value, for the terms [T] of its array. *)
Definition instance (st : Store) (T : list string) : t :=
  {| name := this_name st;
     description := this_description st;
     link := this_link st;
     ruleType := this_ruleType st;
     _dntTerms := T |}.

(** A run from [st] to [st'] touched nothing that existed before it: the
    fields of the instance hold what they held, and every array of [st] has
    in [st'] the elements it had. *)
Definition untouched (st st' : Store) : Prop :=
  this_name st' = this_name st
  /\ this_description st' = this_description st
  /\ this_link st' = this_link st
  /\ this_ruleType st' = this_ruleType st
  /\ this_dntTerms st' = this_dntTerms st
  /\ forall arr items, heap st !! arr = Some items -> heap st' !! arr = Some items.

(** The run of [m] from [st] finishes with the value [a] in a store with
    the heap [h'] and the fields of [st], and every array of [st] has in
    [h'] the elements it had. *)
Definition runs {A : Type} (m : M A) (st : Store) (a : A) (h' : list (list Val)) : Prop :=
  m st = Some (a, with_heap h' st)
  /\ forall arr items, heap st !! arr = Some items -> h' !! arr = Some items.

(** The run of [m] from [st] finishes that way and returns a reference to an
    array that holds the partial results [expected]. *)
Definition returns_array (m : M nat) (st : Store) (expected : list PartialResult) : Prop :=
  exists a h', runs m st a h' /\ h' !! a = Some (List.map Partial expected).

End DNTStoreSpec.

(** Notions the statements about [DeclarativeResourceRule] are phrased in. *)
Module DeclarativeSpec.
Import JS DeclarativeResourceRule.

Section Calls.
Context {Re Resource St : Type} `{CheckString Re Resource St}.

(** The per-pattern check invoked for each pattern in order: the values it
    returns, pattern by pattern, and the state after the last call; each call
    starts in the state left by the one before. *)
Fixpoint check_each (res : list Re) (source target : JsVal) (file : string)
    (resource : Resource) (st : St) : list JsVal * St :=
  match res with
  | [] => ([], st)
  | re :: res' =>
      let r := checkString re source target file resource st in
      let rest := check_each res' source target file resource (snd r) in
      (fst r :: fst rest, snd rest)
  end.

End Calls.

(** The findings a returned value stands for: the elements of an array, the
    value itself otherwise. *)
Definition returned (x : JsVal) : list JsVal :=
  match x with
  | JArr items => items
  | _ => [x]
  end.

(** [undefined] for the empty list, the list otherwise. *)
Definition nonempty_or_undefined (l : list JsVal) : option (list JsVal) :=
  match l with
  | [] => None
  | _ :: _ => Some l
  end.

End DeclarativeSpec.

(** Notions the statements about [Project] are phrased in. *)
Module ProjectSpec.
Import JS Project.

(** The configuration declares a file type under [name] as an entry of
    [config.filetypes]. *)
Definition declares_filetype (config : JsVal) (name : string) : bool :=
  truthy (get config "filetypes")
  && existsb (String.eqb name) (own_keys (get config "filetypes")).

(** The configuration declares a file type under [name] as a path mapping
    whose glob is [name] and whose value is an inline definition. *)
Definition declares_inline (config : JsVal) (name : string) : bool :=
  truthy (get config "paths")
  && existsb (String.eqb name) (own_keys (get config "paths"))
  && String.eqb (typeof (get (get config "paths") name)) "object".

(** The configuration declares a file type under [name], one way or the
    other. *)
Definition redeclares (config : JsVal) (name : string) : bool :=
  declares_filetype config name || declares_inline config name.

(** The definition the configuration gives for [name]: the inline one when
    there is one, the entry of [config.filetypes] otherwise. *)
Definition user_definition (config : JsVal) (name : string) : JsVal :=
  if declares_inline config name
  then get (get config "paths") name
  else get (get config "filetypes") name.



Section Resolution.
Context {FileType Obj W : Type} `{Host FileType Obj W}.

(** The file-type table holds the file type [ft] under [name]: as an own
    property, or, for the name [__proto__], as its prototype. *)
Definition registered (this : t FileType Obj) (name : string) (ft : FileType) : Prop :=
  if String.eqb name "__proto__"
  then filetypes_proto this = Some ft
  else filetypes this !! name = Some ft.

(** The file-type table inherits a truthy member called [name] from its
    prototype: from [Object.prototype], or from the file type installed in
    its place. *)
Definition inherited (this : t FileType Obj) (name : string) : bool :=
  match filetypes_proto this with
  | Some ft => FileType_member ft name
  | None => existsb (String.eqb name) Object_prototype
  end.


End Resolution.
End ProjectSpec.

(** ** Sample hosts and inputs *)
Module Samples.
Import JS.

(** *** A host with three terms files *)

Definition foo_object_text : string :=
  "{" +:+ ResourceDNTTerms.quote +:+ "foo" +:+ ResourceDNTTerms.quote +:+ ": 1}".

Definition oauth_array_text : string :=
  "[" +:+ ResourceDNTTerms.quote +:+ "OAuth" +:+ ResourceDNTTerms.quote +:+ "]".

Definition sample_readFileSync (path : JsVal) : Throws string :=
  if strictEqStr path "dnt.json" then Return oauth_array_text
  else if strictEqStr path "object.json" then Return foo_object_text
  else if strictEqStr path "broken.json" then Return "[1,"
  else Throw (Error "ENOENT: no such file or directory").

(** [JSON.parse] on the texts of the three files. *)
Definition sample_JSON_parse (text : string) : option JsVal :=
  if String.eqb text oauth_array_text then Some (JArr [JStr "OAuth"])
  else if String.eqb text foo_object_text then Some (JObj [("foo", JNum 1)])
  else None.

Definition dnt_host : ResourceDNTTerms.Host :=
  {| ResourceDNTTerms.readFileSync := sample_readFileSync;
     ResourceDNTTerms.JSON_parse := sample_JSON_parse |}.

(** The rule with the single term [OAuth]. *)
Definition oauth_params : list (string * JsVal) :=
  [("terms", JArr [JStr "OAuth"])].

Definition oauth_rule : ResourceDNTTerms.t :=
  {| ResourceDNTTerms.name := "resource-dnt-terms";
     ResourceDNTTerms.description :=
       "Ensure that Do Not Translate terms have not been translated.";
     ResourceDNTTerms.link :=
       "https://github.com/ilib-js/i18nlint/blob/main/docs/resource-dnt-terms.md";
     ResourceDNTTerms.ruleType := "resource";
     ResourceDNTTerms._dntTerms := ["OAuth"] |}.

Definition sign_in : ResourceDNTTerms.Resource :=
  {| ResourceDNTTerms.getKey := "sign.in";
     ResourceDNTTerms.getType := "string";
     ResourceDNTTerms.getSource := JStr "Sign in with OAuth";
     ResourceDNTTerms.getTarget := JStr "Connectez-vous" |}.

Definition tokens : ResourceDNTTerms.Resource :=
  {| ResourceDNTTerms.getKey := "tokens";
     ResourceDNTTerms.getType := "plural";
     ResourceDNTTerms.getSource :=
       JObj [("one", JStr "1 OAuth token"); ("other", JStr "%d OAuth tokens")];
     ResourceDNTTerms.getTarget :=
       JObj [("one", JStr "1 jeton"); ("other", JStr "%d jetons OAuth")] |}.

Definition menu : ResourceDNTTerms.Resource :=
  {| ResourceDNTTerms.getKey := "menu";
     ResourceDNTTerms.getType := "array";
     ResourceDNTTerms.getSource :=
       JArr (List.map JStr ["Sign in with OAuth"; "Help"; "OAuth settings"]);
     ResourceDNTTerms.getTarget :=
       JArr (List.map JStr ["Connexion OAuth"; "Aide"]) |}.

(** A [string] resource without a target. *)
Definition untranslated : ResourceDNTTerms.Resource :=
  {| ResourceDNTTerms.getKey := "sign.in";
     ResourceDNTTerms.getType := "string";
     ResourceDNTTerms.getSource := JStr "Sign in with OAuth";
     ResourceDNTTerms.getTarget := JUndefined |}.

(** A [string] resource whose target keeps the term. *)
Definition translated : ResourceDNTTerms.Resource :=
  {| ResourceDNTTerms.getKey := "sign.in";
     ResourceDNTTerms.getType := "string";
     ResourceDNTTerms.getSource := JStr "Sign in with OAuth";
     ResourceDNTTerms.getTarget := JStr "Connectez-vous avec OAuth" |}.

Definition object_file_params : list (string * JsVal) :=
  [("termsFilePath", JStr "object.json"); ("termsFileType", JStr "json")].

(** *** A project host *)

Fixpoint endsWith (s suffix : string) : bool :=
  if String.eqb s suffix then true
  else match s with
       | EmptyString => false
       | String _ s' => endsWith s' suffix
       end.

(** [micromatch] on the globs of the examples: [**] matches every path,
    [**/*] every path, [**/*.xliff] and [**/*.js] the paths with that
    extension, [src/**] the paths under [src/], and a glob without wildcard
    matches itself. *)
Definition sample_isMatch (pathName glob : string) : bool :=
  if String.eqb glob "**" then true
  else if String.eqb glob "**/*" then true
  else if String.eqb glob "**/*.xliff" then endsWith pathName ".xliff"
  else if String.eqb glob "**/*.js" then endsWith pathName ".js"
  else if String.eqb glob "src/**" then String.prefix "src/" pathName
  else String.eqb glob pathName.

(** A file type is represented by the properties it was constructed from,
    a host object by its name, and the world by the log of the calls made on
    the managers.  The paths of the examples are already normalized; an
    object other than the plugin manager has no [getRuleManager] and no
    [getFormatterManager]. *)
Definition project_host : Project.Host (list (string * JsVal)) string (list string) :=
  {| Project.normalize := fun pathName => pathName;
     Project.isMatch := sample_isMatch;
     Project.DirItem_new := fun _ _ _ _ w => Return w;
     Project.getRuleManager := fun pluginMgr w =>
       if String.eqb pluginMgr "pluginManager" then Return ("ruleManager", w)
       else Throw (TypeError "this.pluginMgr.getRuleManager is not a function");
     Project.RuleManager_add := fun _ _ w => Return (w ++ ["add rules"]);
     Project.RuleManager_addRuleSetDefinitions := fun _ defs w =>
       Return (w ++ ["add rule sets " +:+ String.concat "," (own_keys defs)]);
     Project.getFormatterManager := fun pluginMgr w =>
       if String.eqb pluginMgr "pluginManager" then Return ("formatterManager", w)
       else Throw (TypeError "this.pluginMgr.getFormatterManager is not a function");
     Project.FormatterManager_add := fun _ _ w => Return (w ++ ["add formatters"]);
     Project.FileType_new := fun _ definition w => Return (definition, w);
     Project.FileType_member := fun ft name =>
       truthy (get_prop name ft)
       || existsb (String.eqb name) Project.Object_prototype |}.

Definition sample_root : JsVal := JStr ".".

Definition sample_options : JsVal := JObj [("locales", JArr [JStr "fr-FR"])].

Definition sample_pluginManager : option string := Some "pluginManager".

(** [{ paths: { "**": "toString" } }] *)
Definition config_inherited_name : JsVal :=
  JObj [("paths", JObj [("**", JStr "toString")])].

(** [{ filetypes: { xliff: { ruleset: ["my-rules"] } } }] *)
Definition config_redeclaring_xliff : JsVal :=
  JObj [("filetypes",
         JObj [("xliff", JObj [("ruleset", JArr [JStr "my-rules"])])])].



(** [{ filetypes: { A: {...}, B: {...} },
       paths: { "src/**": "A", "**/*.js": "B" } }] *)
Definition config_overlapping : JsVal :=
  JObj [("filetypes",
         JObj [("A", JObj [("ruleset", JArr [JStr "a"])]);
               ("B", JObj [("ruleset", JArr [JStr "b"])])]);
        ("paths", JObj [("src/**", JStr "A"); ("**/*.js", JStr "B")])].

Definition builtin_xliff_type : list (string * JsVal) :=
  [("name", JStr "xliff");
   ("glob", JStr "**/*.xliff");
   ("ruleset", JArr [JStr "resource-check-all"])].

Definition builtin_unknown_type : list (string * JsVal) :=
  [("name", JStr "unknown");
   ("glob", JStr "**/*")].

End Samples.

(** ** The other operations of the sources *)

(** [getRuleType] of [ResourceDNTTerms.js]. *)
Module ResourceDNTTermsOps.
Import JS ResourceDNTTerms.

(** [getRuleType()] *)
Definition getRuleType (this : t) : string := ruleType this.

(** The lines of a terms file written one term per line: the terms joined
    by a line feed. *)
Fixpoint join_lines (terms : list string) : string :=
  match terms with
  | [] => EmptyString
  | [term] => term
  | term :: terms' => term +:+ String "010" (join_lines terms')
  end.

Fixpoint last_char (c : ascii) (s : string) : ascii :=
  match s with
  | EmptyString => c
  | String c' s' => last_char c' s'
  end.

Fixpoint no_newline (s : string) : bool :=
  match s with
  | EmptyString => true
  | String c s' => negb (is_newline c) && no_newline s'
  end.

(** A term as a terms file can carry it: not empty, on one line, without
    white space at either end. *)
Definition clean (term : string) : bool :=
  match term with
  | EmptyString => false
  | String c s => negb (is_space c) && negb (is_space (last_char c s)) && no_newline term
  end.

End ResourceDNTTermsOps.

(** The constructors of [DeclarativeResourceRule.js]. *)
Module DeclarativeConstruction.
Import JS DeclarativeResourceRule.

(** What the constructors call: the constructor of the superclass
    [ResourceRule] (ResourceRule.js), which returns or throws, and
    [new RegExp(regexp, "gu")], which returns the compiled pattern or throws
    on a syntax error. *)
Class Host (Re : Type) : Type := {
  ResourceRule_new : JsVal -> Throws unit;
  RegExp_new : JsVal -> Throws Re
}.

(** The fields the later constructor copies from its options. *)
Record Fields : Type := {
  name : JsVal;
  description : JsVal;
  note : JsVal;
  sourceLocale : JsVal;
  link : JsVal;
  severity : JsVal
}.

Definition missing_options : Exn :=
  Thrown (JStr "Missing required options for the DeclarativeResourceRule constructor").

Section Construction.
Context {Re : Type} `{Host Re}.

(** [regexps.map(regexp => new RegExp(regexp, "gu"))] on the elements of an
    array: the patterns are compiled in order and the first failure is
    thrown. *)
Fixpoint compile_all (regexps : list JsVal) : Throws (list Re) :=
  match regexps with
  | [] => Return []
  | regexp :: regexps' =>
      bind (RegExp_new regexp) (fun re =>
      bind (compile_all regexps') (fun res => Return (re :: res)))
  end.

(** [receiver.regexps.map(...)] on a truthy value: only an array has [map];
    the call on anything else raises a [TypeError] that names the expression
    called, [receiver] being [this] or [options]. *)
Definition compile (receiver : string) (regexps : JsVal) : Throws (list Re) :=
  match regexps with
  | JArr items => compile_all items
  | _ => Throw (TypeError (receiver +:+ ".regexps.map is not a function"))
  end.

(** The earlier [constructor(options)]; the field [regexps] is
    [options.regexps] itself. *)
Definition new_positional (options : JsVal) : Throws (JsVal * t Re) :=
  bind (ResourceRule_new options) (fun _ =>
  if negb (truthy options) || negb (truthy (get options "regexps"))
  then Throw missing_options
  else
    let regexps := get options "regexps" in
    bind (compile "this" regexps) (fun res => Return (regexps, {| re := res |}))).

(** [constructor(options)] *)
Definition new (options : JsVal) : Throws (Fields * t Re) :=
  bind (ResourceRule_new options) (fun _ =>
  if negb (truthy options) || negb (truthy (get options "name"))
     || negb (truthy (get options "description"))
     || negb (truthy (get options "note"))
     || negb (truthy (get options "regexps"))
  then Throw missing_options
  else
    let sourceLocale := get options "sourceLocale" in
    let severity := get options "severity" in
    let fields :=
      {| name := get options "name";
         description := get options "description";
         note := get options "note";
         sourceLocale := if truthy sourceLocale then sourceLocale else JStr "en-US";
         link := get options "link";
         severity := if truthy severity then severity else JStr "error" |} in
    bind (compile "options" (get options "regexps")) (fun res =>
    Return (fields, {| re := res |}))).

End Construction.
End DeclarativeConstruction.

(** The accessors of [Project.js] and its operations on [this.files]. *)
Module ProjectOps.
Import JS Project.

(** [getLocales()]: [this.options.locales || this.config.locales] *)
Definition getLocales {FileType Obj : Type} (this : t FileType Obj) : JsVal :=
  if truthy (get (options this) "locales")
  then get (options this) "locales"
  else get (config this) "locales".

(** [getFileType(name)] and [getRuleSet(glob)]: neither has a [return]. *)
Definition getFileType {FileType Obj : Type} (this : t FileType Obj) (name : string)
  : option FileType := None.

Definition getRuleSet {FileType Obj : Type} (this : t FileType Obj) (glob : string)
  : JsVal := JUndefined.

(** The directory items of [this.files]: each can be parsed and asked for
    its issues, and may have an [init] method; all of them act on a world
    [W] (the items are objects with state of their own) and may throw or
    reject.  [load] is [pluginMgr.load(plugins)]. *)
Class Items (Item W : Type) : Type := {
  parse : Item -> W -> Throws W;
  findIssues_of : Item -> JsVal -> W -> Throws (JsVal * W);
  init_of : Item -> option (W -> Throws (JsVal * W));
  load : JsVal -> W -> Throws (JsVal * W)
}.

Section Files.
Context {Item W : Type} `{Items Item W}.

(** [add(item)]: [this.files.push(item)] *)
Definition add (files : list Item) (item : Item) : list Item := files ++ [item].

(** [get()] *)
Definition get_files (files : list Item) : list Item := files.

(** [clear()] *)
Definition clear (files : list Item) : list Item := [].

(** [this.files.map(file => { file.parse(); return file.findIssues(locales); })] *)
Fixpoint examine (files : list Item) (locales : JsVal) (w : W)
  : Throws (list JsVal * W) :=
  match files with
  | [] => Return ([], w)
  | file :: files' =>
      bind (parse file w) (fun w1 =>
      bind (findIssues_of file locales w1) (fun r =>
      bind (examine files' locales (snd r)) (fun rest =>
      Return (fst r :: fst rest, snd rest))))
  end.

(** [arr.flat()]: one level; an element that is an array is replaced by its
    elements. *)
Definition flat (l : list JsVal) : list JsVal :=
  List.concat (List.map (fun x => match x with
                                  | JArr items => items
                                  | _ => [x]
                                  end) l).

(** [findIssues(ruleset, locales)] *)
Definition findIssues (files : list Item) (ruleset locales : JsVal) (w : W)
  : Throws (list JsVal * W) :=
  bind (examine files locales w) (fun r => Return (flat (fst r), snd r)).

(** The chain [promise.then(() => file.init())] over the files that have an
    [init] method, started from a promise fulfilled with [v] in world [w]:
    a step runs when the one before is fulfilled, a rejection ends the
    chain. *)
Fixpoint init_files (files : list Item) (v : JsVal) (w : W) : Throws (JsVal * W) :=
  match files with
  | [] => Return (v, w)
  | file :: files' =>
      match init_of file with
      | Some init_file =>
          bind (init_file w) (fun r => init_files files' (fst r) (snd r))
      | None => init_files files' v w
      end
  end.

(** [init()]: the promise it returns, as its outcome. *)
Definition init (config : JsVal) (files : list Item) (w : W) : Throws (JsVal * W) :=
  bind (if truthy (get config "plugins")
        then load (get config "plugins") w
        else Return (JBool true, w))
       (fun r => init_files files (fst r) (snd r)).

End Files.
End ProjectOps.

(** ** test/ilib-lint-plugin-test/src/TestFormatter.js *)
Module TestFormatter.
Import JS.

Definition ESC : string := String "027" EmptyString.
Definition LF : string := String "010" EmptyString.

Definition rainbowColors : list Z := [91; 43; 93; 42; 34; 35; 95]%Z.

(** The characters [.] does not match: the line terminators (code units
    below 256). *)
Definition is_line_terminator (c : ascii) : bool := is_newline c.

(** [str.split(/./g)]: every character matched by [.] is a separator; [cur]
    is the piece being read. *)
Fixpoint split_dot_from (cur : string) (str : string) : list string :=
  match str with
  | EmptyString => [cur]
  | String c str' =>
      if is_line_terminator c
      then split_dot_from (cur +:+ String c EmptyString) str'
      else cur :: split_dot_from EmptyString str'
  end.

Definition split_dot (str : string) : list string := split_dot_from EmptyString str.

(** [arr.join("")] *)
Definition join (l : list string) : string :=
  fold_right String.append EmptyString l.

(** The escape sequence written before the piece at position [idx]: the
    counter [i] starts at [-1] and is advanced modulo the number of colors
    before each use. *)
Definition color (idx : nat) : string :=
  ESC +:+ "["
  +:+ toString (JNum (default 0%Z (rainbowColors !! (idx mod length rainbowColors))))
  +:+ "]m".

(** [rainbow(str)] *)
Definition rainbow (str : string) : string :=
  let chars := split_dot str in
  let colors := imap (fun idx ch => color idx +:+ ch) chars in
  join (colors ++ [ESC +:+ "[33m"]).

(** The regular expressions of [format]: literal characters and [\d]. *)
Inductive Atom : Type :=
| Lit (c : ascii)
| Digit.

Definition atom_matches (a : Atom) (c : ascii) : bool :=
  match a with
  | Lit c' => Ascii.eqb c' c
  | Digit => let n := N_of_ascii c in ((48 <=? n) && (n <=? 57))%N
  end.

Fixpoint matches_at (pattern : list Atom) (s : string) : bool :=
  match pattern, s with
  | [], _ => true
  | a :: pattern', String c s' => atom_matches a c && matches_at pattern' s'
  | _ :: _, EmptyString => false
  end.

(** [s.replace(/pattern/g, replacement)] for a pattern of positive fixed
    length: matches are found left to right and do not overlap; [skip]
    counts the characters of the current match still to be dropped. *)
Fixpoint replace_from (pattern : list Atom) (replacement : string) (skip : nat)
    (s : string) : string :=
  match s with
  | EmptyString => EmptyString
  | String c s' =>
      match skip with
      | S skip' => replace_from pattern replacement skip' s'
      | O =>
          if matches_at pattern s
          then replacement +:+ replace_from pattern replacement (length pattern - 1) s'
          else String c (replace_from pattern replacement 0 s')
      end
  end.

Definition replace (pattern : list Atom) (replacement : string) (s : string) : string :=
  replace_from pattern replacement 0 s.

(** [/<e\d>/g], [/<\/e\d>/g] and [/<e\d><\/e\d>/g] *)
Definition open_tag : list Atom := [Lit "<"; Lit "e"; Digit; Lit ">"].
Definition close_tag : list Atom := [Lit "<"; Lit "/"; Lit "e"; Digit; Lit ">"].
Definition empty_tag : list Atom := open_tag ++ close_tag.

(** The rule of a result, through [getName()] and [getDescription()]. *)
Record Rule : Type := {
  getName : JsVal;
  getDescription : JsVal
}.

(** [Result] of i18nlint-common, through the fields [format] reads. *)
Record Result : Type := {
  severity : JsVal;
  pathName : JsVal;
  lineNumber : JsVal;
  description : JsVal;
  id : JsVal;
  source : JsVal;
  highlight : JsVal;
  rule : Rule
}.

(** The text [format] builds before the tags are replaced. *)
Definition message (result : Result) : string :=
  let startColor := if strictEqStr (severity result) "error"
                    then ESC +:+ "[91m" else ESC +:+ "[33m" in
  let output :=
    toString (pathName result)
    +:+ (if String.eqb (typeof (lineNumber result)) "number"
         then "(" +:+ toString (lineNumber result) +:+ ")" else "")
    +:+ ":" +:+ LF +:+ "  " +:+ startColor +:+ toString (description result)
    +:+ ESC +:+ "[0m" +:+ LF in
  let output := if truthy (id result)
                then output +:+ "  Key: " +:+ toString (id result) +:+ LF
                else output in
  let output := if truthy (source result)
                then output +:+ "  Source: " +:+ toString (source result) +:+ LF
                else output in
  output +:+ "  " +:+ toString (highlight result) +:+ LF
  +:+ "  Rule (" +:+ toString (getName (rule result)) +:+ "): "
  +:+ toString (getDescription (rule result)) +:+ LF.

(** [format(result)]; [None] as argument is a falsy [result], [None] as
    result is [undefined]. *)
Definition format (result : option Result) : option string :=
  match result with
  | None => None
  | Some result =>
      let output := message result in
      let output := replace empty_tag ">> <<" output in
      let output := replace open_tag ">>" output in
      let output := replace close_tag "<<" output in
      Some (rainbow output)
  end.

End TestFormatter.

(** Notions the further statements are phrased in. *)
Module ProjectOpsSpec.
Import JS Project.

(** Two projects agree on the fields other than [filetypes] and [mappings]. *)
Definition same_fields {FileType Obj : Type} (a b : t FileType Obj) : Prop :=
  root a = root b /\ options a = options b /\ config a = config b
  /\ includes a = includes b /\ excludes a = excludes b /\ name a = name b
  /\ pluginMgr a = pluginMgr b.

End ProjectOpsSpec.

(** Notions the statements about the constructor of the DNT-terms rule are
    phrased in. *)
Module ConstructionSpec.

(** The distinct elements of a list in the order of their first occurrence:
    the head, then the first occurrences among the tail of the elements
    that differ from it. *)
Fixpoint first_occurrences (l : list string) : list string :=
  match l with
  | [] => []
  | x :: l' => x :: List.filter (fun y => negb (String.eqb y x)) (first_occurrences l')
  end.

End ConstructionSpec.

Module TestFormatterSpec.
Import JS TestFormatter.

(** What [rainbow] can see of a string: where its line terminators are. *)
Fixpoint layout (s : string) : list (option ascii) :=
  match s with
  | EmptyString => []
  | String c s' => (if is_line_terminator c then Some c else None) :: layout s'
  end.

Fixpoint string_forall (p : ascii -> bool) (s : string) : bool :=
  match s with
  | EmptyString => true
  | String c s' => p c && string_forall p s'
  end.

(** The characters of the escape sequences [rainbow] writes, and the line
    terminators. *)
Definition escape_or_break (c : ascii) : bool :=
  let n := N_of_ascii c in
  ((n =? 27) || (n =? 91) || (n =? 93) || (n =? 109)
   || ((48 <=? n) && (n <=? 57)) || (n =? 10) || (n =? 13))%N.

End TestFormatterSpec.

(** More sample hosts and inputs. *)
Module MoreSamples.
Import JS.

(** *** A host with two [txt] terms files *)

Definition CRLF : string := String "013" (String "010" EmptyString).

Definition terms_txt : string :=
  ResourceDNTTermsOps.join_lines ["OAuth"; "Acme Cloud"].

(** Indented terms, a blank line, a repeated term and a final line break. *)
Definition messy_txt : string :=
  "  OAuth " +:+ CRLF +:+ CRLF +:+ "Acme Cloud" +:+ CRLF +:+ "OAuth" +:+ CRLF.

Definition txt_readFileSync (path : JsVal) : Throws string :=
  if strictEqStr path "terms.txt" then Return terms_txt
  else if strictEqStr path "messy.txt" then Return messy_txt
  else Throw (Error "ENOENT: no such file or directory").

Definition txt_host : ResourceDNTTerms.Host :=
  {| ResourceDNTTerms.readFileSync := txt_readFileSync;
     ResourceDNTTerms.JSON_parse := fun _ => None |}.

Definition terms_txt_params : list (string * JsVal) :=
  [("termsFilePath", JStr "terms.txt"); ("termsFileType", JStr "txt")].

Definition messy_txt_params : list (string * JsVal) :=
  [("termsFilePath", JStr "messy.txt"); ("termsFileType", JStr "txt")].

Definition missing_file_params : list (string * JsVal) :=
  [("termsFilePath", JStr "missing.json"); ("termsFileType", JStr "json")].

Definition dnt_json_params : list (string * JsVal) :=
  [("termsFilePath", JStr "dnt.json"); ("termsFileType", JStr "json")].

(** A [string] resource left untranslated, and one with an empty target. *)
Definition copied : ResourceDNTTerms.Resource :=
  {| ResourceDNTTerms.getKey := "sign.in";
     ResourceDNTTerms.getType := "string";
     ResourceDNTTerms.getSource := JStr "Sign in with OAuth";
     ResourceDNTTerms.getTarget := JStr "Sign in with OAuth" |}.

Definition blank : ResourceDNTTerms.Resource :=
  {| ResourceDNTTerms.getKey := "sign.in";
     ResourceDNTTerms.getType := "string";
     ResourceDNTTerms.getSource := JStr "Sign in with OAuth";
     ResourceDNTTerms.getTarget := JStr "" |}.

(** An [array] resource with more target items than source items. *)
Definition long_menu : ResourceDNTTerms.Resource :=
  {| ResourceDNTTerms.getKey := "menu";
     ResourceDNTTerms.getType := "array";
     ResourceDNTTerms.getSource := JArr (List.map JStr ["Sign in with OAuth"]);
     ResourceDNTTerms.getTarget :=
       JArr (List.map JStr (["Connexion"] ++ ["Aide"; "OAuth"])) |}.

(** A [plural] resource whose target has no category. *)
Definition no_plurals : ResourceDNTTerms.Resource :=
  {| ResourceDNTTerms.getKey := "tokens";
     ResourceDNTTerms.getType := "plural";
     ResourceDNTTerms.getSource :=
       JObj [("one", JStr "1 OAuth token"); ("other", JStr "%d OAuth tokens")];
     ResourceDNTTerms.getTarget := JObj [] |}.

(** *** A host for the declarative rule *)

(** A compiled pattern is represented by its source; the one pattern of the
    examples that does not compile is an unterminated group. *)
Definition regexp_host : DeclarativeConstruction.Host string :=
  {| DeclarativeConstruction.ResourceRule_new := fun _ => Return tt;
     DeclarativeConstruction.RegExp_new := fun regexp =>
       if strictEqStr regexp "("
       then Throw (Error "Invalid regular expression: /(/: Unterminated group")
       else Return (toString regexp) |}.

Definition rule_options (regexps : JsVal) : JsVal :=
  JObj [("name", JStr "resource-sample");
        ("description", JStr "A sample rule");
        ("note", JStr "Sample note");
        ("regexps", regexps)].

(** *** Items that log what is done to them *)

Definition log_items : ProjectOps.Items string (list string) :=
  {| ProjectOps.parse := fun file w => Return (w ++ ["parse " +:+ file]);
     ProjectOps.findIssues_of := fun file _ w =>
       Return (JArr [JStr ("issue in " +:+ file)], w ++ ["examine " +:+ file]);
     ProjectOps.init_of := fun file =>
       if String.prefix "sub" file
       then Some (fun w => Return (JBool true, w ++ ["init " +:+ file]))
       else None;
     ProjectOps.load := fun _ _ => Throw (Error "Could not load plugin") |}.

(** *** A project with an inline file type *)

(** [{ paths: { "**/*.js": { ruleset: ["source-checks"] }, "**": "unknown" } }] *)
Definition config_inline : JsVal :=
  JObj [("paths",
         JObj [("**/*.js", JObj [("ruleset", JArr [JStr "source-checks"])]);
               ("**", JStr "unknown")])].

End MoreSamples.

(** ** Proofs *)

(** *** Strings *)
Module StringFacts.
Import JS DNTTermsSpec.

Lemma append_nil_l (s : string) : "" +:+ s = s.
Proof. reflexivity. Qed.

Lemma append_cons (c : ascii) (a b : string) : String c a +:+ b = String c (a +:+ b).
Proof. reflexivity. Qed.

Ltac unfold_app := repeat (rewrite ?append_nil_l, ?append_cons in *).

Lemma length_append (a b : string) :
  String.length (a +:+ b) = String.length a + String.length b.
Proof.
  induction a as [|x a IH]; unfold_app; simpl; [reflexivity | now rewrite IH].
Qed.

Lemma append_inv_head (p x y : string) : p +:+ x = p +:+ y -> x = y.
Proof.
  induction p as [|c p IH]; intros E; unfold_app; [exact E |].
  injection E as E. now apply IH.
Qed.

Lemma append_inv_tail (q x y : string) : x +:+ q = y +:+ q -> x = y.
Proof.
  revert y. induction x as [|c x IH]; intros [|d y] E; unfold_app.
  - reflexivity.
  - apply (f_equal String.length) in E. simpl in E. rewrite length_append in E. lia.
  - apply (f_equal String.length) in E. simpl in E. rewrite length_append in E. lia.
  - injection E as -> E. f_equal. now apply IH.
Qed.

Lemma prefix_spec (x s : string) :
  String.prefix x s = true <-> exists b, s = x +:+ b.
Proof.
  revert s. induction x as [|c x IH]; intros s.
  - simpl. split; [intros _; now exists s | intros _; now destruct s].
  - destruct s as [|d s]; simpl.
    + split; [discriminate | intros [b E]; unfold_app; discriminate].
    + destruct (Ascii.ascii_dec c d) as [->|ne].
      * rewrite IH. split; intros [b E]; exists b; unfold_app;
          [now rewrite E | now injection E].
      * split; [discriminate |].
        intros [b E]. unfold_app. injection E as E1 E2. congruence.
Qed.

Lemma includes_nil (x : string) :
  includes "" x = if String.prefix x "" then true else false.
Proof. reflexivity. Qed.

Lemma includes_cons (c : ascii) (s x : string) :
  includes (String c s) x = if String.prefix x (String c s) then true else includes s x.
Proof. reflexivity. Qed.

Lemma includes_spec (s x : string) : includes s x = true <-> Substring x s.
Proof.
  unfold Substring. induction s as [|c s IH].
  - rewrite includes_nil. destruct (String.prefix x "") eqn:P.
    + split; [intros _ | reflexivity].
      apply prefix_spec in P as [b E]. exists "", b. exact E.
    + split; [discriminate |]. intros (a & b & E).
      destruct a; unfold_app; [| discriminate].
      assert (String.prefix x "" = true) by (apply prefix_spec; now exists b).
      congruence.
  - rewrite includes_cons. destruct (String.prefix x (String c s)) eqn:P.
    + split; [intros _ | reflexivity].
      apply prefix_spec in P as [b E]. exists "", b. exact E.
    + rewrite IH. split.
      * intros (a & b & E). exists (String c a), b. unfold_app. now rewrite E.
      * intros (a & b & E). destruct a as [|d a].
        -- unfold_app.
           assert (String.prefix x (String c s) = true)
             by (apply prefix_spec; now exists b).
           congruence.
        -- unfold_app. injection E as _ E. now exists a, b.
Qed.

Lemma Substring_empty (s : string) : Substring "" s.
Proof. now exists "", s. Qed.

Lemma includes_false (s x : string) : includes s x = false <-> ~ Substring x s.
Proof.
  rewrite <- includes_spec. destruct (includes s x); split; congruence.
Qed.

Lemma missing_term_inj (x y : string) : missing_term x = missing_term y -> x = y.
Proof.
  unfold missing_term. intros E.
  apply append_inv_head in E. now apply append_inv_tail in E.
Qed.

End StringFacts.

(** *** The DNT-terms rule *)
Module DNTTermsFacts.
Import JS ResourceDNTTerms DNTTermsSpec StringFacts.

Lemma fold_push_filter {A B : Type} (c : A -> bool) (f : A -> B) (l : list A) (acc : list B) :
  fold_left (fun acc x => if c x then acc ++ [f x] else acc) l acc
  = acc ++ List.map f (List.filter c l).
Proof.
  revert acc. induction l as [|x l IH]; intros acc; simpl.
  - now rewrite List.app_nil_r.
  - rewrite IH. destruct (c x); simpl; [now rewrite <- List.app_assoc | reflexivity].
Qed.

Lemma fold_append_concat {A B : Type} (g : A -> list B) (l : list A) (acc : list B) :
  fold_left (fun acc x => acc ++ g x) l acc = acc ++ List.concat (List.map g l).
Proof.
  revert acc. induction l as [|x l IH]; intros acc; simpl.
  - now rewrite List.app_nil_r.
  - rewrite IH. now rewrite <- List.app_assoc.
Qed.

Lemma map_imap {A B C : Type} (g : B -> C) (f : nat -> A -> B) (l : list A) :
  List.map g (imap f l) = imap (fun i x => g (f i x)) l.
Proof.
  revert f. induction l as [|x l IH]; intros f; [reflexivity |].
  rewrite !imap_cons. simpl. f_equal. apply IH.
Qed.

Lemma strings_of_JStr (l : list string) : strings_of (List.map JStr l) = l.
Proof.
  induction l as [|x l IH]; [reflexivity |].
  simpl. unfold strings_of in *. simpl. now rewrite IH.
Qed.

Lemma everyString_JStr (l : list string) : everyString (List.map JStr l) = true.
Proof. induction l as [|x l IH]; [reflexivity | exact IH]. Qed.

(** *** The methods as list comprehensions *)

Lemma _matchString_eq (this : t) (s tg : string) :
  _matchString this s tg
  = List.map (partial s) (List.filter (missing_in s tg) (_dntTerms this)).
Proof.
  unfold _matchString.
  exact (fold_push_filter (missing_in s tg) (partial s) (_dntTerms this) []).
Qed.

Lemma _matchArray_eq (this : t) (src tgt : list string) :
  _matchArray this src tgt
  = List.concat (imap (fun idx sourceItem =>
                         _matchString this sourceItem (default "" (tgt !! idx))) src).
Proof.
  unfold _matchArray.
  rewrite (fold_append_concat
             (fun item => _matchString this (snd item) (default "" (tgt !! fst item)))).
  simpl. now rewrite map_imap.
Qed.

Lemma _matchPlural_from (source target : JsVal) (l : list string) (acc : list PartialResult) :
  fold_left
    (fun partialResults term =>
       match List.find (fun sourceItem => includes sourceItem term)
                       (strings_of (values source)) with
       | Some item =>
           if negb (forallb (fun targetItem => includes targetItem term)
                            (strings_of (values target)))
           then partialResults ++
                  [{| pr_source := item;
                      pr_highlight := "Missing term: <e0>" +:+ term +:+ "</e0>" |}]
           else partialResults
       | None => partialResults
       end) l acc
  = acc ++ omap (plural_partial source target) l.
Proof.
  revert acc. induction l as [|x l IH]; intros acc; simpl.
  - now rewrite List.app_nil_r.
  - rewrite IH. unfold plural_partial at 2, category_texts.
    destruct (List.find _ _) as [item|]; [| reflexivity].
    destruct (negb _); simpl; [now rewrite <- List.app_assoc | reflexivity].
Qed.

Lemma _matchPlural_eq (this : t) (source target : JsVal) :
  _matchPlural this source target = omap (plural_partial source target) (_dntTerms this).
Proof. exact (_matchPlural_from source target (_dntTerms this) []). Qed.

(** *** The term list built by the constructor *)

Lemma existsb_eqb_In (x : string) (l : list string) :
  existsb (String.eqb x) l = true <-> In x l.
Proof.
  rewrite existsb_exists. split.
  - intros (y & Hy & E). apply String.eqb_eq in E. now subst.
  - intros Hx. exists x. split; [exact Hx | apply String.eqb_refl].
Qed.

Lemma Set_of_from (l acc : list string) :
  List.NoDup acc ->
  let r := fold_left (fun acc x => if existsb (String.eqb x) acc then acc else acc ++ [x]) l acc in
  List.NoDup r /\ forall x, In x r <-> In x acc \/ In x l.
Proof.
  revert acc. induction l as [|y l IH]; intros acc Hacc; simpl.
  - split; [exact Hacc | intros x; tauto].
  - destruct (existsb (String.eqb y) acc) eqn:E.
    + destruct (IH acc Hacc) as [N M]. split; [exact N |].
      intros x. rewrite M. apply existsb_eqb_In in E.
      split; [tauto |]. intros [?|[<-|?]]; tauto.
    + assert (~ In y acc) as Hy by (rewrite <- existsb_eqb_In; congruence).
      assert (List.NoDup (acc ++ [y])) as Hacc'.
      { apply List.NoDup_app; [exact Hacc | repeat constructor; intros [] |].
        intros a Ha [<-|[]]. contradiction. }
      destruct (IH (acc ++ [y]) Hacc') as [N M]. split; [exact N |].
      intros x. rewrite M, in_app_iff. simpl. tauto.
Qed.

Lemma Set_of_NoDup (l : list string) : List.NoDup (Set_of l).
Proof. apply (Set_of_from l []). constructor. Qed.

Lemma Set_of_In (l : list string) (x : string) : In x (Set_of l) <-> In x l.
Proof.
  destruct (Set_of_from l [] (List.NoDup_nil _)) as [_ M].
  unfold Set_of. rewrite M. simpl. tauto.
Qed.

Lemma nonempty_In (l : list string) (x : string) :
  In x (nonempty l) <-> In x l /\ x <> "".
Proof.
  unfold nonempty. rewrite filter_In. split; intros [Hx Hn]; split; try exact Hx.
  - intros ->. discriminate.
  - destruct x; [contradiction | reflexivity].
Qed.

Section Constructed.
Context `{Host}.

Lemma new_terms (params : list (string * JsVal)) (this : t) :
  new params = Return this ->
  exists terms, _dntTerms this = Set_of (nonempty terms).
Proof.
  unfold new. intros E.
  match type of E with
  | bind ?m _ = _ => destruct m as [terms|e]; simpl in E; [| discriminate]
  end.
  injection E as <-. now exists terms.
Qed.

Lemma new_NoDup (params : list (string * JsVal)) (this : t) :
  new params = Return this -> List.NoDup (_dntTerms this).
Proof. intros E. destruct (new_terms _ _ E) as [terms ->]. apply Set_of_NoDup. Qed.

Lemma new_explicit_In (params : list (string * JsVal)) (this : t) (ts : list string) :
  new params = Return this ->
  has_prop "terms" params = true ->
  get_prop "terms" params = JArr (List.map JStr ts) ->
  forall x, In x (_dntTerms this) <-> In x ts /\ x <> "".
Proof.
  unfold new. intros E Hh Hg. rewrite Hh, Hg in E. simpl in E.
  rewrite everyString_JStr in E. simpl in E. injection E as <-. simpl.
  intros x. rewrite Set_of_In, strings_of_JStr. apply nonempty_In.
Qed.

End Constructed.

End DNTTermsFacts.

Module DNTTermsTheory.
Import JS ResourceDNTTerms DNTTermsSpec StringFacts DNTTermsFacts.

(** *** [_matchResource], shape by shape *)

Lemma isStringArray_split (v : JsVal) :
  isStringArray v = isArray v && everyString (elements v).
Proof. now destruct v. Qed.

Lemma array_guard_split (s tg : JsVal) :
  array_guard s tg = isStringArray s && isStringArray tg.
Proof. unfold array_guard. rewrite !isStringArray_split. now rewrite andb_assoc. Qed.

Lemma plural_guard_split (s tg : JsVal) :
  plural_guard s tg = isPluralDict s && isPluralDict tg.
Proof.
  unfold plural_guard, isPluralDict. rewrite forallb_app.
  destruct (instanceofObject s), (instanceofObject tg); simpl;
    rewrite ?andb_false_r; reflexivity.
Qed.

Lemma isStringArray_JStr (v : JsVal) :
  isStringArray v = true -> v = JArr (List.map JStr (strings_of (elements v))).
Proof.
  destruct v as [| | | | |items|]; try discriminate. simpl. intros E. f_equal.
  induction items as [|x items IH]; [reflexivity |].
  simpl in E. apply andb_prop in E as [Hx E].
  destruct x; try discriminate. unfold strings_of in *. simpl. f_equal. now apply IH.
Qed.

Lemma _matchResource_string (this : t) (r : Resource) (s tg : string) :
  getType r = "string" -> getSource r = JStr s -> getTarget r = JStr tg ->
  _matchResource this r
  = Some (List.map (partial s) (List.filter (missing_in s tg) (_dntTerms this))).
Proof.
  intros Ht Hs Htg. unfold _matchResource. rewrite Ht, Hs, Htg. simpl.
  now rewrite _matchString_eq.
Qed.

Lemma _matchResource_array (this : t) (r : Resource) (src tgt : list string) :
  getType r = "array" ->
  getSource r = JArr (List.map JStr src) -> getTarget r = JArr (List.map JStr tgt) ->
  _matchResource this r
  = Some (List.concat
            (imap (fun idx sourceItem =>
                     List.map (partial sourceItem)
                       (List.filter (missing_in sourceItem (default "" (tgt !! idx)))
                                    (_dntTerms this)))
                  src)).
Proof.
  intros Ht Hs Htg. unfold _matchResource. rewrite Ht, Hs, Htg. simpl.
  unfold array_guard. simpl. rewrite !everyString_JStr. simpl.
  rewrite !strings_of_JStr, _matchArray_eq. do 2 f_equal.
  apply imap_ext. intros i x _. apply _matchString_eq.
Qed.

Lemma _matchResource_plural (this : t) (r : Resource) :
  getType r = "plural" -> plural_guard (getSource r) (getTarget r) = true ->
  _matchResource this r
  = Some (omap (plural_partial (getSource r) (getTarget r)) (_dntTerms this)).
Proof.
  intros Ht Hg. unfold _matchResource. rewrite Ht, Hg. simpl.
  now rewrite _matchPlural_eq.
Qed.

Lemma _matchResource_None (this : t) (r : Resource) :
  _matchResource this r = None <-> well_typed r = false.
Proof.
  unfold _matchResource, well_typed.
  rewrite array_guard_split, plural_guard_split.
  destruct (String.eqb (getType r) "string").
  { destruct (isString (getSource r)), (isString (getTarget r)); simpl;
      split; congruence. }
  destruct (String.eqb (getType r) "array").
  { destruct (isStringArray (getSource r) && isStringArray (getTarget r)); simpl;
      split; congruence. }
  destruct (String.eqb (getType r) "plural").
  { destruct (isPluralDict (getSource r) && isPluralDict (getTarget r)); simpl;
      split; congruence. }
  split; reflexivity.
Qed.

(** *** Lists *)

Lemma find_first {A : Type} (p : A -> bool) (l : list A) (x : A) :
  List.find p l = Some x ->
  exists pre post, l = pre ++ x :: post /\ p x = true
                   /\ List.Forall (fun y => p y = false) pre.
Proof.
  induction l as [|y l IH]; simpl; [discriminate |].
  destruct (p y) eqn:E.
  - intros [= ->]. exists [], l. repeat split; [exact E | constructor].
  - intros Hf. destruct (IH Hf) as (pre & post & -> & Hx & Hpre).
    exists (y :: pre), post. repeat split; [exact Hx | now constructor].
Qed.

Lemma find_existsb {A : Type} (p : A -> bool) (l : list A) :
  existsb p l = match List.find p l with
                | Some _ => true
                | None => false
                end.
Proof.
  induction l as [|y l IH]; simpl; [reflexivity |]. destruct (p y); [reflexivity | exact IH].
Qed.

Lemma existsb_Exists_Prop {A : Type} (p : A -> bool) (P : A -> Prop) (l : list A) :
  (forall x, p x = true <-> P x) -> existsb p l = true <-> List.Exists P l.
Proof.
  intros Hp. rewrite existsb_exists, List.Exists_exists.
  split; intros (x & Hx & Px); exists x; split; try exact Hx; now apply Hp.
Qed.

Lemma forallb_Forall_Prop {A : Type} (p : A -> bool) (P : A -> Prop) (l : list A) :
  (forall x, p x = true <-> P x) -> forallb p l = true <-> List.Forall P l.
Proof.
  intros Hp. rewrite forallb_forall, List.Forall_forall.
  split; intros Hl x Hx; apply Hp; now apply Hl.
Qed.

Lemma In_omap {A B : Type} (g : A -> option B) (l : list A) (y : B) :
  In y (omap g l) <-> exists x, In x l /\ g x = Some y.
Proof.
  rewrite <- list_elem_of_In, list_elem_of_omap.
  split; intros (x & Hx & E); exists x; split; try exact E; now apply list_elem_of_In.
Qed.

Lemma NoDup_omap_inj {A B C : Type} (g : A -> option B) (h : B -> C) (k : A -> C)
    (l : list A) :
  (forall x y, g x = Some y -> h y = k x) ->
  (forall x x', k x = k x' -> x = x') ->
  List.NoDup l -> List.NoDup (List.map h (omap g l)).
Proof.
  intros Hg Hk. induction 1 as [|x l Hx Hl IH]; simpl; [constructor |].
  destruct (g x) as [y|] eqn:E; simpl; [| exact IH].
  constructor; [| exact IH].
  rewrite in_map_iff. intros (y' & Ey & Hy'). apply In_omap in Hy' as (x' & Hx' & E').
  apply Hg in E, E'. assert (x = x') by (apply Hk; congruence). now subst.
Qed.

Lemma highlight_result (this : t) (r : Resource) (file locale : string) (p : PartialResult) :
  Result.highlight (result this r file locale p) = pr_highlight p.
Proof. reflexivity. Qed.

(** *** The results built by [match] *)

Lemma map_throws_Return {A B : Type} (f : A -> Throws B) (g : A -> B) (l : list A) :
  (forall x, In x l -> f x = Return (g x)) -> map_throws f l = Return (List.map g l).
Proof.
  induction l as [|x l IH]; intros Hf; simpl; [reflexivity |].
  rewrite (Hf x) by now left. simpl. rewrite IH; [reflexivity |].
  intros y Hy. apply Hf. now right.
Qed.

Lemma missing_term_truthy (x : string) : String.eqb (missing_term x) "" = false.
Proof. reflexivity. Qed.

Lemma eqb_empty (s : string) : s <> "" -> String.eqb s "" = false.
Proof. intros Hs. now destruct s. Qed.

Lemma Result_new_Return (this : t) (r : Resource) (file locale : string)
    (p : PartialResult) :
  file <> "" -> pr_highlight p <> "" ->
  Result_new (result this r file locale p) = Return (result this r file locale p).
Proof.
  intros Hf Hp. unfold Result_new. cbn [result Result.severity Result.description
    Result.pathName Result.highlight truthy].
  now rewrite (eqb_empty file Hf), (eqb_empty (pr_highlight p) Hp).
Qed.

Lemma Result_new_Throw (this : t) (r : Resource) (locale : string) (p : PartialResult) :
  Result_new (result this r "" locale p) = Throw missing_fields.
Proof. reflexivity. Qed.

Lemma partials_cite_terms (this : t) (resource : Resource) (l : list PartialResult) :
  _matchResource this resource = Some l ->
  forall p, In p l -> exists x, In x (_dntTerms this) /\ pr_highlight p = missing_term x.
Proof.
  unfold _matchResource.
  destruct (String.eqb (getType resource) "string").
  { destruct (negb _ || negb _); [discriminate |]. intros [= <-] p Hp.
    rewrite _matchString_eq in Hp. apply in_map_iff in Hp as (x & <- & Hx).
    apply filter_In in Hx as [Hx _]. now exists x. }
  destruct (String.eqb (getType resource) "array").
  { destruct (negb _); [discriminate |]. intros [= <-] p Hp.
    rewrite _matchArray_eq in Hp. apply in_concat in Hp as (l & Hl & Hp).
    apply list_elem_of_In, elem_of_lookup_imap_1 in Hl as (i & s & -> & _).
    rewrite _matchString_eq in Hp. apply in_map_iff in Hp as (x & <- & Hx).
    apply filter_In in Hx as [Hx _]. now exists x. }
  destruct (String.eqb (getType resource) "plural"); [| discriminate].
  destruct (negb _); [discriminate |]. intros [= <-] p Hp.
  rewrite _matchPlural_eq in Hp. apply In_omap in Hp as (x & Hx & E).
  exists x. split; [exact Hx |]. unfold plural_partial in E.
  destruct (List.find _ _); [| discriminate].
  destruct (negb _); [| discriminate]. now injection E as <-.
Qed.

(** With a file path that is not empty, every [Result] is constructed. *)
Lemma match_Some (this : t) (r : Resource) (file locale : string) (l : list PartialResult) :
  file <> "" ->
  _matchResource this r = Some l ->
  match_ this r file locale = Return (Some (List.map (result this r file locale) l)).
Proof.
  intros Hf E. unfold match_. rewrite E.
  rewrite (map_throws_Return _ (result this r file locale)); [reflexivity |].
  intros p Hp. apply Result_new_Return; [exact Hf |].
  destruct (partials_cite_terms this r l E p Hp) as (x & _ & ->). discriminate.
Qed.

(** Without a partial result no [Result] is constructed. *)
Lemma match_nil (this : t) (r : Resource) (file locale : string) :
  _matchResource this r = Some [] ->
  match_ this r file locale = Return (Some []).
Proof. intros E. unfold match_. now rewrite E. Qed.

(** With an empty file path the first [Result] is not constructed. *)
Lemma match_Throw (this : t) (r : Resource) (locale : string) (p : PartialResult)
    (l : list PartialResult) :
  _matchResource this r = Some (p :: l) ->
  match_ this r "" locale = Throw missing_fields.
Proof. intros E. unfold match_. now rewrite E. Qed.

Lemma map_throws_inv {A B : Type} (f : A -> Throws B) (l : list A) (l' : list B) :
  map_throws f l = Return l' -> List.Forall2 (fun x y => f x = Return y) l l'.
Proof.
  revert l'. induction l as [|x l IH]; intros l'; simpl.
  - intros [= <-]. constructor.
  - destruct (f x) as [y|e] eqn:E; simpl; [| discriminate].
    destruct (map_throws f l) as [ys|e]; simpl; [| discriminate].
    intros [= <-]. constructor; [exact E | now apply IH].
Qed.

Lemma Result_new_inv (fields r : Result.t t) : Result_new fields = Return r -> r = fields.
Proof. unfold Result_new. destruct (_ || _); [discriminate |]. now intros [= <-]. Qed.

Lemma match_Return (this : t) (r : Resource) (file locale : string)
    (findings : list (Result.t t)) :
  match_ this r file locale = Return (Some findings) ->
  exists l, _matchResource this r = Some l
            /\ findings = List.map (result this r file locale) l.
Proof.
  unfold match_. destruct (_matchResource this r) as [l|]; [| discriminate].
  destruct (map_throws _ l) as [results|e] eqn:E; simpl; [| discriminate].
  intros [= <-]. exists l. split; [reflexivity |].
  apply map_throws_inv in E. induction E as [|p y l ys Hy _ IH]; [reflexivity |].
  simpl. f_equal; [now apply Result_new_inv | exact IH].
Qed.

Lemma match_None (this : t) (r : Resource) (file locale : string) :
  match_ this r file locale = Return None <-> well_typed r = false.
Proof.
  rewrite <- (_matchResource_None this). unfold match_.
  destruct (_matchResource this r) as [l|]; [| split; reflexivity].
  destruct (map_throws _ l); simpl; split; discriminate.
Qed.


Section Properties.
Context `{Host}.

(** C1. For a rule built by the constructor, with term set
    [T = _dntTerms this], and a resource of shape [string] whose source [s]
    and target [tg] are both text, [match] being called with a file path
    that is not empty: [match] returns a list of findings; a
    finding citing the term [x] is in it exactly when [x] is in [T], [x] is
    a substring of [s] and [x] is not a substring of [tg]; every finding
    has [s] as its source fragment and the highlight
    [Missing term: <e0>x</e0>] of the term it cites; the findings are, in
    order, one per matching term of [T], and no two cite the same term.
    When the rule was given its terms as an explicit list [ts], the same
    equivalence holds with [ts] in place of [T]. *)
Theorem match_string_findings (params : list (string * JsVal)) (this : t)
    (resource : Resource) (file locale s tg : string) :
  new params = Return this ->
  file <> "" ->
  getType resource = "string" ->
  getSource resource = JStr s ->
  getTarget resource = JStr tg ->
  exists findings,
    match_ this resource file locale = Return (Some findings)
    /\ (forall x, (exists f, In f findings /\ cites f x)
                  <-> In x (_dntTerms this) /\ Substring x s /\ ~ Substring x tg)
    /\ (forall f, In f findings ->
                  Result.source f = s
                  /\ exists x, Result.highlight f = "Missing term: <e0>" +:+ x +:+ "</e0>")
    /\ List.map Result.highlight findings
       = List.map missing_term (List.filter (missing_in s tg) (_dntTerms this))
    /\ List.NoDup (List.map Result.highlight findings)
    /\ (forall ts,
          has_prop "terms" params = true ->
          get_prop "terms" params = JArr (List.map JStr ts) ->
          forall x, (exists f, In f findings /\ cites f x)
                    <-> In x ts /\ Substring x s /\ ~ Substring x tg).
Proof.
  intros Hnew Hfile Ht Hs Htg. eexists. split.
  { exact (match_Some this resource file locale _ Hfile
             (_matchResource_string this resource s tg Ht Hs Htg)). }
  assert (forall x, In x (List.filter (missing_in s tg) (_dntTerms this))
                    <-> In x (_dntTerms this) /\ Substring x s /\ ~ Substring x tg) as Hin.
  { intros x. rewrite filter_In. unfold missing_in.
    rewrite andb_true_iff, negb_true_iff, includes_spec, includes_false. tauto. }
  assert (forall x, (exists f,
                        In f (List.map (result this resource file locale)
                                (List.map (partial s)
                                   (List.filter (missing_in s tg) (_dntTerms this))))
                        /\ cites f x)
                    <-> In x (_dntTerms this) /\ Substring x s /\ ~ Substring x tg)
    as Hiff.
  { intros x. rewrite <- Hin. split.
    - intros (f & Hf & Hc). apply in_map_iff in Hf as (p & <- & Hp).
      apply in_map_iff in Hp as (y & <- & Hy).
      apply missing_term_inj in Hc. now subst y.
    - intros Hx. exists (result this resource file locale (partial s x)).
      split; [| reflexivity]. apply in_map_iff. exists (partial s x).
      split; [reflexivity |]. apply in_map_iff. now exists x. }
  split; [exact Hiff |]. rewrite !List.map_map. split; [| split; [| split]].
  - intros f Hf. apply in_map_iff in Hf as (y & <- & Hy).
    split; [reflexivity | now exists y].
  - reflexivity.
  - apply Finite.Injective_map_NoDup.
    + intros x y E. now apply missing_term_inj.
    + apply List.NoDup_filter. exact (new_NoDup params this Hnew).
  - intros ts Hh Hg x. rewrite <- List.map_map, Hiff.
    rewrite (new_explicit_In params this ts Hnew Hh Hg x).
    split; [tauto |]. intros (Hx & Hsub & Hn). repeat split; try assumption.
    intros ->. apply Hn, Substring_empty.
Qed.

(** C2. For a rule built by the constructor and a resource of shape
    [plural] whose source and target pass the check of the shape, [match]
    being called with a file path that is not empty: [match] returns a list
    of findings; a finding citing the term [x] is in it
    exactly when [x] is in the term set, some source category text contains
    [x] and not every target category text contains [x]; no two findings
    cite the same term, however many target categories lack it; and the
    source fragment of the finding citing [x] is the first source category
    text, in enumeration order, that contains [x].  When the rule was given
    its terms as an explicit list [ts], the same equivalence holds with [ts]
    in place of the term set. *)
Theorem match_plural_findings (params : list (string * JsVal)) (this : t)
    (resource : Resource) (file locale : string) :
  new params = Return this ->
  file <> "" ->
  getType resource = "plural" ->
  well_typed resource = true ->
  exists findings,
    match_ this resource file locale = Return (Some findings)
    /\ (forall x, (exists f, In f findings /\ cites f x)
                  <-> In x (_dntTerms this)
                      /\ List.Exists (Substring x) (category_texts (getSource resource))
                      /\ ~ List.Forall (Substring x) (category_texts (getTarget resource)))
    /\ List.NoDup (List.map Result.highlight findings)
    /\ (forall f x, In f findings -> cites f x ->
          exists pre post,
            category_texts (getSource resource) = pre ++ Result.source f :: post
            /\ Substring x (Result.source f)
            /\ List.Forall (fun item => ~ Substring x item) pre)
    /\ (forall ts,
          has_prop "terms" params = true ->
          get_prop "terms" params = JArr (List.map JStr ts) ->
          forall x, (exists f, In f findings /\ cites f x)
                    <-> In x ts
                        /\ List.Exists (Substring x) (category_texts (getSource resource))
                        /\ ~ List.Forall (Substring x)
                              (category_texts (getTarget resource))).
Proof.
  intros Hnew Hfile Ht Hw.
  assert (plural_guard (getSource resource) (getTarget resource) = true) as Hg.
  { rewrite plural_guard_split. unfold well_typed in Hw. now rewrite Ht in Hw. }
  eexists. split.
  { exact (match_Some this resource file locale _ Hfile
             (_matchResource_plural this resource Ht Hg)). }
  set (src := getSource resource). set (tgt := getTarget resource).
  assert (forall x p, plural_partial src tgt x = Some p ->
            pr_highlight p = missing_term x
            /\ List.Exists (Substring x) (category_texts src)
            /\ ~ List.Forall (Substring x) (category_texts tgt)
            /\ exists pre post,
                 category_texts src = pre ++ pr_source p :: post
                 /\ Substring x (pr_source p)
                 /\ List.Forall (fun item => ~ Substring x item) pre) as Hp.
  { intros x p. unfold plural_partial.
    destruct (List.find _ (category_texts src)) as [item|] eqn:Ef; [| discriminate].
    destruct (forallb _ (category_texts tgt)) eqn:Ea; simpl; [discriminate |].
    intros [= <-]. simpl.
    destruct (find_first _ _ _ Ef) as (pre & post & El & Hi & Hpre).
    apply includes_spec in Hi. repeat split.
    - rewrite El. apply List.Exists_app. right. now constructor.
    - rewrite <- (forallb_Forall_Prop _ _ _ (fun y => includes_spec y x)). congruence.
    - exists pre, post. repeat split; [exact El | exact Hi |].
      eapply List.Forall_impl; [| exact Hpre]. intros y. apply includes_false. }
  assert (forall x, List.Exists (Substring x) (category_texts src) ->
                    ~ List.Forall (Substring x) (category_texts tgt) ->
                    exists p, plural_partial src tgt x = Some p) as Hq.
  { intros x He Ha. unfold plural_partial.
    rewrite <- (existsb_Exists_Prop _ _ _ (fun y => includes_spec y x)) in He.
    rewrite find_existsb in He.
    destruct (List.find _ (category_texts src)) as [item|]; [| discriminate].
    rewrite <- (forallb_Forall_Prop _ _ _ (fun y => includes_spec y x)) in Ha.
    destruct (forallb _ (category_texts tgt)); [congruence |]. simpl. eauto. }
  assert (forall x, (exists f,
                        In f (List.map (result this resource file locale)
                                (omap (plural_partial src tgt) (_dntTerms this)))
                        /\ cites f x)
                    <-> In x (_dntTerms this)
                        /\ List.Exists (Substring x) (category_texts src)
                        /\ ~ List.Forall (Substring x) (category_texts tgt)) as Hiff.
  { intros x. split.
    - intros (f & Hf & Hc). apply in_map_iff in Hf as (p & <- & Hp').
      apply In_omap in Hp' as (y & Hy & E). destruct (Hp y p E) as (Eh & He & Ha & _).
      unfold cites in Hc. rewrite highlight_result, Eh in Hc.
      apply missing_term_inj in Hc. now subst y.
    - intros (Hx & He & Ha). destruct (Hq x He Ha) as [p E].
      exists (result this resource file locale p). split.
      + apply in_map_iff. exists p. split; [reflexivity |]. apply In_omap. eauto.
      + unfold cites. rewrite highlight_result. now apply Hp. }
  split; [exact Hiff |]. split; [| split].
  - rewrite List.map_map.
    apply (NoDup_omap_inj _ _ missing_term).
    + intros x p E. rewrite highlight_result. now apply Hp.
    + apply missing_term_inj.
    + exact (new_NoDup params this Hnew).
  - intros f x Hf Hc. apply in_map_iff in Hf as (p & <- & Hp').
    apply In_omap in Hp' as (y & Hy & E).
    destruct (Hp y p E) as (Eh & _ & _ & pre & post & El & Hs & Hpre).
    unfold cites in Hc. rewrite highlight_result, Eh in Hc.
    apply missing_term_inj in Hc. subst y. now exists pre, post.
  - intros ts Hh Hts x. rewrite Hiff.
    rewrite (new_explicit_In params this ts Hnew Hh Hts x).
    split; [tauto |]. intros (Hx & He & Hn). repeat split; try assumption.
    intros ->. apply Hn, List.Forall_forall. intros y _. apply Substring_empty.
Qed.

(** C3. For a resource of shape [array] whose source and target are arrays
    of texts, [match] being called with a file path that is not empty, the
    list of findings [match] returns is the concatenation, in source index
    order, of the findings [match] returns for the resource of shape
    [string] made of the source item at each index and the target item at
    the same index, the empty string standing for a target item that does
    not exist; on each of these resources [match] returns a list. *)
Theorem match_array_concat (this : t) (resource : Resource) (file locale : string)
    (src tgt : list string) :
  file <> "" ->
  getType resource = "array" ->
  getSource resource = JArr (List.map JStr src) ->
  getTarget resource = JArr (List.map JStr tgt) ->
  match_ this resource file locale
  = Return (Some (List.concat
                    (imap (fun idx sourceItem =>
                             findings
                               (match_ this
                                  (string_resource (getKey resource) sourceItem
                                                   (default "" (tgt !! idx)))
                                  file locale))
                          src)))
  /\ forall sourceItem targetItem,
       exists l,
         match_ this (string_resource (getKey resource) sourceItem targetItem)
                file locale
         = Return (Some l).
Proof.
  intros Hfile Ht Hs Htg.
  assert (forall x y,
            match_ this (string_resource (getKey resource) x y) file locale
            = Return (Some (List.map (result this resource file locale)
                              (List.map (partial x)
                                 (List.filter (missing_in x y) (_dntTerms this))))))
    as Hstr.
  { intros x y.
    exact (match_Some this (string_resource (getKey resource) x y) file locale _ Hfile
             (_matchResource_string this (string_resource (getKey resource) x y) x y
                eq_refl eq_refl eq_refl)). }
  split.
  - rewrite (match_Some this resource file locale _ Hfile
               (_matchResource_array this resource src tgt Ht Hs Htg)).
    do 2 f_equal. rewrite concat_map, map_imap. f_equal.
    apply imap_ext. intros i x _. cbv beta. now rewrite Hstr.
  - intros x y. rewrite Hstr. eauto.
Qed.

(** C5. A resource whose content does not fit its declared shape, or whose
    shape is none of [string], [array] and [plural], gets no findings:
    [match] returns [undefined], and it returns normally (no [Result] is
    constructed, and no other operation on its path throws). *)
Theorem match_declines_ill_typed (this : t) (resource : Resource) (file locale : string) :
  well_typed resource = false ->
  match_ this resource file locale = Return None
  /\ findings (match_ this resource file locale) = [].
Proof.
  intros Hw. apply (match_None this resource file locale) in Hw.
  now rewrite Hw.
Qed.

(** *** No term missing *)

Lemma filter_nil_iff {A : Type} (p : A -> bool) (l : list A) :
  (forall x, In x l -> p x = false) -> List.filter p l = [].
Proof.
  induction l as [|x l IH]; simpl; intros Hl; [reflexivity |].
  rewrite (Hl x) by now left. apply IH. intros y Hy. apply Hl. now right.
Qed.

Lemma omap_nil_iff {A B : Type} (g : A -> option B) (l : list A) :
  (forall x, In x l -> g x = None) -> omap g l = [].
Proof.
  induction l as [|x l IH]; simpl; intros Hl; [reflexivity |].
  rewrite (Hl x) by now left. apply IH. intros y Hy. apply Hl. now right.
Qed.

Lemma existsb_false {A : Type} (p : A -> bool) (l : list A) (x : A) :
  existsb p l = false -> In x l -> p x = false.
Proof.
  intros E Hx. destruct (p x) eqn:Px; [| reflexivity].
  assert (existsb p l = true) by (apply existsb_exists; eauto). congruence.
Qed.

Lemma In_imap {A B : Type} (f : nat -> A -> B) (l : list A) (i : nat) (x : A) :
  l !! i = Some x -> In (f i x) (imap f l).
Proof. intros E. apply list_elem_of_In. now apply elem_of_lookup_imap_2. Qed.

(** A well-typed resource from whose target no term is missing gives no
    partial result. *)
Lemma _matchResource_nil (this : t) (resource : Resource) :
  well_typed resource = true ->
  (forall x, In x (_dntTerms this) -> term_missing resource x = false) ->
  _matchResource this resource = Some [].
Proof.
  intros Hw Hm. unfold well_typed in Hw. unfold term_missing in Hm.
  destruct (String.eqb (getType resource) "string") eqn:E1.
  { apply String.eqb_eq in E1. apply andb_prop in Hw as [Hs Htg].
    destruct (getSource resource) as [| | | |s| |] eqn:Es; try discriminate.
    destruct (getTarget resource) as [| | | |tg| |] eqn:Et; try discriminate.
    rewrite (_matchResource_string this resource s tg E1 Es Et).
    rewrite filter_nil_iff; [reflexivity |]. intros y Hy. exact (Hm y Hy). }
  destruct (String.eqb (getType resource) "array") eqn:E2.
  { apply String.eqb_eq in E2. apply andb_prop in Hw as [Hs Htg].
    apply isStringArray_JStr in Hs, Htg.
    rewrite (_matchResource_array this resource _ _ E2 Hs Htg). f_equal.
    apply concat_nil_Forall, List.Forall_forall. intros l Hl.
    apply list_elem_of_In, elem_of_lookup_imap_1 in Hl as (i & x & -> & Ei).
    rewrite filter_nil_iff; [reflexivity |]. intros y Hy.
    apply (existsb_false _ _ _ (Hm y Hy)
             (In_imap (fun idx sourceItem => (default "" (_ !! idx), sourceItem)) _ i _ Ei)). }
  destruct (String.eqb (getType resource) "plural") eqn:E3; [| discriminate].
  apply String.eqb_eq in E3.
  rewrite (_matchResource_plural this resource E3)
    by (now rewrite plural_guard_split).
  f_equal.
  apply omap_nil_iff. intros x Hx. specialize (Hm x Hx).
  unfold plural_partial. rewrite find_existsb in Hm.
  destruct (List.find _ _); [| reflexivity].
  simpl in Hm. now rewrite Hm.
Qed.

(** C10. [match] tells a resource it did not evaluate from one it evaluated
    and found in order: the result is [undefined] when the content does not
    fit the declared shape (or the shape is unknown), and the empty list when
    the resource is well typed and no term of the rule is missing from its
    target. *)
Theorem match_undefined_or_empty (this : t) (resource : Resource) (file locale : string) :
  (well_typed resource = false -> match_ this resource file locale = Return None)
  /\ (well_typed resource = true ->
      (forall x, In x (_dntTerms this) -> term_missing resource x = false) ->
      match_ this resource file locale = Return (Some [])).
Proof.
  split; [apply match_None |].
  intros Hw Hm. now apply match_nil, _matchResource_nil.
Qed.

(** C6. When the rule is constructed from a terms file (no [terms] given, a
    [termsFilePath] given) and the file is read as JSON but is malformed, or
    parses to something other than an array of strings, or the declared
    [termsFileType] is neither [json] nor [txt], the constructor throws the
    error of that defect: no instance is returned, so no [match] is ever
    reached. *)
Theorem new_rejects_terms_file (params : list (string * JsVal)) (e : Exn) :
  has_prop "terms" params = false ->
  has_prop "termsFilePath" params = true ->
  TermsFileDefect params e ->
  new params = Throw e /\ forall this, new params <> Return this.
Proof.
  intros Hterms Hpath Hd.
  assert (new params = Throw e) as E; [| split; [exact E | intros this; congruence]].
  unfold new. rewrite Hterms, Hpath.
  destruct Hd as [text Hj Hr Hp | text content Hj Hr Hp Hc | Hj Htx].
  - rewrite Hj. unfold parseTermsFromJsonFile. rewrite Hr. simpl. now rewrite Hp.
  - rewrite Hj. unfold parseTermsFromJsonFile. rewrite Hr. simpl. rewrite Hp.
    rewrite isStringArray_split in Hc.
    destruct (isArray content), (everyString (elements content)); try discriminate;
      reflexivity.
  - rewrite Hj, Htx. reflexivity.
Qed.

End Properties.

(** *** The statements at the sample rule and resources *)
Import Samples.
#[local] Existing Instance dnt_host.

(** The rule with the term [OAuth] on "Sign in with OAuth" / "Connectez-vous":
    one finding. *)
Lemma match_string_findings_witness :
  exists findings,
    match_ oauth_rule sign_in "app.xliff" "fr-FR" = Return (Some findings)
    /\ List.map Result.source findings = ["Sign in with OAuth"]
    /\ List.map Result.highlight findings = ["Missing term: <e0>OAuth</e0>"].
Proof.
  assert ("app.xliff" <> "") as Hfile by discriminate.
  destruct (match_string_findings oauth_params oauth_rule sign_in "app.xliff" "fr-FR"
              "Sign in with OAuth" "Connectez-vous"
              eq_refl Hfile eq_refl eq_refl eq_refl)
    as (findings & E & _).
  exists findings. split; [exact E |].
  injection E as <-. split; reflexivity.
Defined.

(** The same rule on the plural resource whose [one] target lacks the term:
    one finding, on the first source category. *)
Lemma match_plural_findings_witness :
  exists findings,
    match_ oauth_rule tokens "app.xliff" "fr-FR" = Return (Some findings)
    /\ List.map Result.source findings = ["1 OAuth token"]
    /\ List.NoDup (List.map Result.highlight findings).
Proof.
  assert ("app.xliff" <> "") as Hfile by discriminate.
  destruct (match_plural_findings oauth_params oauth_rule tokens "app.xliff" "fr-FR"
              eq_refl Hfile eq_refl eq_refl)
    as (findings & E & _ & Hnd & _).
  exists findings. split; [exact E |]. split; [| exact Hnd].
  injection E as <-. reflexivity.
Defined.

(** The same rule on an array of three source items and two target items. *)
Lemma match_array_concat_witness :
  match_ oauth_rule menu "app.xliff" "fr-FR"
  = Return
      (Some (List.concat
               [findings (match_ oauth_rule
                            (string_resource "menu" "Sign in with OAuth" "Connexion OAuth")
                            "app.xliff" "fr-FR");
                findings (match_ oauth_rule
                            (string_resource "menu" "Help" "Aide")
                            "app.xliff" "fr-FR");
                findings (match_ oauth_rule
                            (string_resource "menu" "OAuth settings" "")
                            "app.xliff" "fr-FR")])).
Proof.
  assert ("app.xliff" <> "") as Hfile by discriminate.
  exact (proj1 (match_array_concat oauth_rule menu "app.xliff" "fr-FR"
                  ["Sign in with OAuth"; "Help"; "OAuth settings"]
                  ["Connexion OAuth"; "Aide"]
                  Hfile eq_refl eq_refl eq_refl)).
Defined.

(** A [string] resource without a target is not evaluated. *)
Lemma match_declines_ill_typed_witness :
  match_ oauth_rule untranslated "app.xliff" "fr-FR" = Return None.
Proof.
  exact (proj1 (match_declines_ill_typed oauth_rule untranslated "app.xliff" "fr-FR"
                  eq_refl)).
Defined.

(** Not evaluated against evaluated and in order. *)
Lemma match_undefined_or_empty_witness :
  match_ oauth_rule untranslated "app.xliff" "fr-FR" = Return None
  /\ match_ oauth_rule translated "app.xliff" "fr-FR" = Return (Some []).
Proof.
  split.
  - apply (proj1 (match_undefined_or_empty oauth_rule untranslated "app.xliff" "fr-FR")).
    reflexivity.
  - apply (proj2 (match_undefined_or_empty oauth_rule translated "app.xliff" "fr-FR")).
    + reflexivity.
    + intros x [<-|[]]. reflexivity.
Defined.

(** A terms file holding an object, declared as [json], is rejected. *)
Lemma new_rejects_terms_file_witness :
  new object_file_params
  = Throw (Error "DNT terms JSON file has unexpected content; expected string[]").
Proof.
  apply (new_rejects_terms_file object_file_params).
  - reflexivity.
  - reflexivity.
  - apply (not_a_string_array object_file_params foo_object_text
             (JObj [("foo", JNum 1)])); reflexivity.
Defined.

End DNTTermsTheory.

(** *** The DNT-terms rule in the store *)
Module DNTStoreTheory.
Import JS ResourceDNTTerms DNTTermsSpec DNTTermsFacts DNTStore DNTStoreSpec.

Lemma with_heap_id (st : Store) : with_heap (heap st) st = st.
Proof. now destruct st. Qed.

Lemma for_of_eq (fuel arr index : nat) (body : Val -> M unit) (st : Store) :
  for_of fuel arr index body st
  = match heap st !! arr with
    | None => None
    | Some items =>
        match items !! index with
        | None => Some (tt, st)
        | Some x =>
            match fuel with
            | O => None
            | S fuel' =>
                match body x st with
                | Some (_, st') => for_of fuel' arr (S index) body st'
                | None => None
                end
            end
        end
    end.
Proof. now destruct fuel. Qed.

Lemma omap_filter {A B : Type} (c : A -> bool) (f : A -> B) (l : list A) :
  omap (fun x => if c x then Some (f x) else None) l = List.map f (List.filter c l).
Proof.
  induction l as [|x l IH]; [reflexivity |]. simpl.
  destruct (c x); simpl; [f_equal |]; exact IH.
Qed.

Lemma strs_of_Str (T : list string) : strs_of (List.map Str T) = Some T.
Proof. induction T as [|x T IH]; [reflexivity |]. simpl. now rewrite IH. Qed.

Lemma partials_of_Partial (l : list PartialResult) :
  partials_of (List.map Partial l) = Some l.
Proof. induction l as [|x l IH]; [reflexivity |]. simpl. now rewrite IH. Qed.

(** *** The loop over the terms

    A loop over the array of the terms whose body pushes at most one partial
    result per term to another array visits every term once, in order, and
    changes nothing but that other array. *)
Lemma for_of_push (c : string -> option PartialResult) (body : Val -> M unit)
    (pr arr : nat) (T : list string) :
  (forall term st,
      body (Str term) st
      = match c term with
        | Some p => push pr [Partial p] st
        | None => Some (tt, st)
        end) ->
  arr <> pr ->
  forall fuel index acc st,
    heap st !! arr = Some (List.map Str T) ->
    heap st !! pr = Some acc ->
    length T <= fuel + index ->
    for_of fuel arr index body st
    = Some (tt, with_heap
                  (<[pr := acc ++ List.map Partial (omap c (drop index T))]> (heap st))
                  st).
Proof.
  intros Hbody Hne. induction fuel as [|fuel IH]; intros index acc st Harr Hpr Hlen;
    rewrite for_of_eq, Harr, list_lookup_fmap.
  - rewrite lookup_ge_None_2 by lia. simpl.
    rewrite drop_ge by lia. simpl. rewrite List.app_nil_r, list_insert_id by exact Hpr.
    now rewrite with_heap_id.
  - destruct (T !! index) as [x|] eqn:Ex; simpl.
    + rewrite Hbody, (drop_S _ _ _ Ex). simpl.
      destruct (c x) as [p|].
      * unfold push. rewrite Hpr.
        rewrite (IH (S index) (acc ++ [Partial p])); simpl.
        -- rewrite list_insert_insert_eq, <- List.app_assoc. reflexivity.
        -- now rewrite list_lookup_insert_ne by congruence.
        -- apply list_lookup_insert_eq. now apply lookup_lt_Some in Hpr.
        -- lia.
      * rewrite (IH (S index) acc st Harr Hpr) by lia. reflexivity.
    + apply lookup_ge_None_1 in Ex. rewrite drop_ge by lia. simpl.
      rewrite List.app_nil_r, list_insert_id by exact Hpr.
      now rewrite with_heap_id.
Qed.

Lemma lookup_snoc_old {A : Type} (h : list A) (x y : A) (arr : nat) :
  h !! arr = Some y -> (h ++ [x]) !! arr = Some y.
Proof. intros E. rewrite lookup_app_l; [exact E | now apply lookup_lt_Some in E]. Qed.

Lemma insert_snoc {A : Type} (h : list A) (x y : A) :
  <[length h := y]> (h ++ [x]) = h ++ [y].
Proof. rewrite insert_app_r_alt by lia. now rewrite Nat.sub_diag. Qed.

Lemma terms_loop (c : string -> option PartialResult) (body : nat -> Val -> M unit)
    (fuel : nat) (T : list string) (st : Store) :
  (forall pr term st',
      body pr (Str term) st'
      = match c term with
        | Some p => push pr [Partial p] st'
        | None => Some (tt, st')
        end) ->
  holds_terms st T -> length T <= fuel ->
  runs (partialResults <- new_array ;;
        terms <- get_dntTerms ;;
        for_of fuel terms 0 (body partialResults) ;;
        ret partialResults)%store
       st (length (heap st)) (heap st ++ [List.map Partial (omap c T)]).
Proof.
  intros Hbody Hterms Hfuel. split; [| intros arr items; apply lookup_snoc_old].
  unfold and_then, new_array, get_dntTerms, ret. cbn [this_dntTerms with_heap heap].
  pose proof (lookup_lt_Some _ _ _ Hterms) as Hlt.
  rewrite (for_of_push c (body (length (heap st))) (length (heap st)) (this_dntTerms st) T
             (Hbody _) ltac:(lia) fuel 0 []).
  - cbn [with_heap heap this_name this_description this_link this_ruleType this_dntTerms].
    rewrite insert_snoc. reflexivity.
  - cbn [with_heap heap]. now apply lookup_snoc_old.
  - cbn [with_heap heap]. now rewrite list_lookup_middle.
  - lia.
Qed.

Lemma _matchString_run (fuel : nat) (s tg : string) (st : Store) (T : list string) :
  holds_terms st T -> length T <= fuel ->
  runs (_matchString fuel s tg) st (length (heap st))
       (heap st ++ [List.map Partial (ResourceDNTTerms._matchString (instance st T) s tg)]).
Proof.
  intros Hterms Hfuel. rewrite _matchString_eq. cbn [instance _dntTerms].
  rewrite <- (omap_filter (missing_in s tg) (partial s)).
  apply (terms_loop
           (fun term => if missing_in s tg term then Some (partial s term) else None)
           (fun partialResults term =>
              match term with
              | Str term =>
                  if includes s term && negb (includes tg term)
                  then push partialResults
                         [Partial {| pr_source := s;
                                     pr_highlight :=
                                       "Missing term: <e0>" +:+ term +:+ "</e0>" |}]
                  else ret tt
              | Partial _ => fault
              end)); try assumption.
  intros pr term st'. unfold missing_in. now destruct (includes s term && _).
Qed.

Lemma _matchPlural_run (fuel : nat) (source target : JsVal) (st : Store)
    (T : list string) :
  holds_terms st T -> length T <= fuel ->
  runs (_matchPlural fuel source target) st (length (heap st))
       (heap st
        ++ [List.map Partial
              (ResourceDNTTerms._matchPlural (instance st T) source target)]).
Proof.
  intros Hterms Hfuel. rewrite _matchPlural_eq. cbn [instance _dntTerms].
  apply (terms_loop
           (plural_partial source target)
           (fun partialResults term =>
              match term with
              | Str term =>
                  match List.find (fun sourceItem => includes sourceItem term)
                                  (strings_of (values source)) with
                  | Some item =>
                      if negb (forallb (fun targetItem => includes targetItem term)
                                       (strings_of (values target)))
                      then push partialResults
                             [Partial {| pr_source := item;
                                         pr_highlight :=
                                           "Missing term: <e0>" +:+ term +:+ "</e0>" |}]
                      else ret tt
                  | None => ret tt
                  end
              | Partial _ => fault
              end)); try assumption.
  intros pr term st'. unfold plural_partial, category_texts.
  destruct (List.find _ _); [| reflexivity]. now destruct (negb _).
Qed.

Lemma runs_returns (m : M nat) (st : Store) (expected : list PartialResult) :
  runs m st (length (heap st)) (heap st ++ [List.map Partial expected]) ->
  returns_array m st expected.
Proof. intros Hr. eexists _, _. split; [exact Hr | now rewrite list_lookup_middle]. Qed.

Lemma _matchString_returns (fuel : nat) (s tg : string) (st : Store) (T : list string) :
  holds_terms st T -> length T <= fuel ->
  returns_array (_matchString fuel s tg) st
    (ResourceDNTTerms._matchString (instance st T) s tg).
Proof. intros Hterms Hfuel. now apply runs_returns, _matchString_run. Qed.

Lemma _matchPlural_returns (fuel : nat) (source target : JsVal) (st : Store)
    (T : list string) :
  holds_terms st T -> length T <= fuel ->
  returns_array (_matchPlural fuel source target) st
    (ResourceDNTTerms._matchPlural (instance st T) source target).
Proof. intros Hterms Hfuel. now apply runs_returns, _matchPlural_run. Qed.

(** *** The loop over the items of an array resource *)
Lemma forEach_matchArray (fuel : nat) (tgt T : list string) (pr : nat) :
  forall (src : list string) (idx : nat) (acc : list PartialResult) (st : Store),
    holds_terms st T -> length T <= fuel ->
    pr <> this_dntTerms st ->
    heap st !! pr = Some (List.map Partial acc) ->
    exists h',
      forEach
        (fun sourceItem idx =>
           let targetItem := default "" (tgt !! idx) in
           found <- _matchString fuel sourceItem targetItem ;;
           items <- read found ;;
           push pr items)%store
        idx src st
      = Some (tt, with_heap h' st)
      /\ (forall arr items,
            arr <> pr -> heap st !! arr = Some items -> h' !! arr = Some items)
      /\ h' !! pr
         = Some (List.map Partial
                   (acc ++ List.concat
                             (imap (fun i sourceItem =>
                                      ResourceDNTTerms._matchString (instance st T)
                                        sourceItem (default "" (tgt !! (idx + i))))
                                   src))).
Proof.
  induction src as [|x src IH]; intros idx acc st Hterms Hfuel Hne Hpr.
  - exists (heap st). simpl. unfold ret. rewrite with_heap_id, List.app_nil_r.
    split; [reflexivity |]. split; [intros arr items _ E; exact E | exact Hpr].
  - destruct (_matchString_run fuel x (default "" (tgt !! idx)) st T Hterms Hfuel)
      as [Erun _].
    set (found := ResourceDNTTerms._matchString (instance st T) x (default "" (tgt !! idx)))
      in *.
    set (h1 := <[pr := List.map Partial acc ++ List.map Partial found]>
                 (heap st ++ [List.map Partial found])).
    pose proof (lookup_lt_Some _ _ _ Hpr) as Hlt.
    assert (forall arr items, arr <> pr -> heap st !! arr = Some items ->
                              h1 !! arr = Some items) as Hframe.
    { intros arr items Harr E. unfold h1.
      rewrite list_lookup_insert_ne by congruence. now apply lookup_snoc_old. }
    assert (h1 !! pr = Some (List.map Partial (acc ++ found))) as Hpr1.
    { unfold h1. rewrite List.map_app. apply list_lookup_insert_eq.
      rewrite length_app. lia. }
    destruct (IH (S idx) (acc ++ found) (with_heap h1 st)) as (h' & Eloop & Hf & Hres).
    + unfold holds_terms. cbn [with_heap heap this_dntTerms]. apply Hframe; [congruence |].
      exact Hterms.
    + exact Hfuel.
    + exact Hne.
    + exact Hpr1.
    + exists h'. split; [| split].
      * cbn [forEach]. unfold and_then at 1. unfold and_then at 1. rewrite Erun.
        unfold and_then at 1, read at 1. cbn [with_heap heap].
        rewrite list_lookup_middle by reflexivity.
        unfold push. cbn [with_heap heap]. rewrite (lookup_snoc_old _ _ _ _ Hpr).
        fold h1. exact Eloop.
      * intros arr items Harr E. apply Hf; [exact Harr |].
        cbn [with_heap heap]. now apply Hframe.
      * rewrite Hres. do 2 f_equal. rewrite <- List.app_assoc. f_equal.
        rewrite imap_cons. cbn [List.concat]. rewrite Nat.add_0_r. fold found. f_equal.
        f_equal. apply imap_ext. intros i y _. unfold compose.
        now rewrite Nat.add_succ_r.
Qed.

Lemma _matchArray_returns (fuel : nat) (src tgt : list string) (st : Store)
    (T : list string) :
  holds_terms st T -> length T <= fuel ->
  returns_array (_matchArray fuel src tgt) st
    (ResourceDNTTerms._matchArray (instance st T) src tgt).
Proof.
  intros Hterms Hfuel. pose proof (lookup_lt_Some _ _ _ Hterms) as Hlt.
  destruct (forEach_matchArray fuel tgt T (length (heap st)) src 0 []
              (with_heap (heap st ++ [[]]) st)) as (h' & Eloop & Hf & Hres).
  - unfold holds_terms. cbn [with_heap heap this_dntTerms]. now apply lookup_snoc_old.
  - exact Hfuel.
  - cbn [with_heap this_dntTerms]. lia.
  - cbn [with_heap heap]. now rewrite list_lookup_middle.
  - exists (length (heap st)), h'. split; [split |].
    + match type of Eloop with
      | ?loop = _ =>
          change (_matchArray fuel src tgt st)
            with (match loop with
                  | Some (_, st') => Some (length (heap st), st')
                  | None => None
                  end)
      end.
      now rewrite Eloop.
    + intros arr items E. apply Hf.
      * apply lookup_lt_Some in E. lia.
      * cbn [with_heap heap]. now apply lookup_snoc_old.
    + rewrite Hres, _matchArray_eq. reflexivity.
Qed.

(** *** [_matchResource] and [match] *)
Lemma _matchResource_run (fuel : nat) (resource : Resource) (st : Store)
    (T : list string) :
  holds_terms st T -> length T <= fuel ->
  exists found h',
    runs (_matchResource fuel resource) st found h'
    /\ match found, ResourceDNTTerms._matchResource (instance st T) resource with
       | Some a, Some expected => h' !! a = Some (List.map Partial expected)
       | None, None => True
       | _, _ => False
       end.
Proof.
  intros Hterms Hfuel.
  assert (forall (m : M nat) expected,
            returns_array m st expected ->
            exists found h',
              runs (found <- m ;; ret (Some found))%store st found h'
              /\ match found with
                 | Some a => h' !! a = Some (List.map Partial expected)
                 | None => False
                 end) as Hsome.
  { intros m expected (a & h' & [Erun Hf] & Hres). exists (Some a), h'.
    split; [split; [| exact Hf] | exact Hres].
    unfold and_then. now rewrite Erun. }
  assert (exists found h',
            runs (ret (@None nat)) st found h'
            /\ match found with
               | Some a => False
               | None => True
               end) as Hnone.
  { exists None, (heap st). split; [split |]; [| intros arr items E; exact E | exact I].
    unfold ret. now rewrite with_heap_id. }
  unfold _matchResource, ResourceDNTTerms._matchResource.
  destruct (String.eqb (getType resource) "string").
  { destruct (negb _ || negb _).
    - destruct Hnone as (found & h' & Hr & Hm). exists found, h'. now destruct found.
    - destruct (Hsome _ _ (_matchString_returns fuel (text_of (getSource resource))
                                (text_of (getTarget resource)) st T Hterms Hfuel))
        as (found & h' & Hr & Hm).
      exists found, h'. split; [exact Hr |]. now destruct found. }
  destruct (String.eqb (getType resource) "array").
  { destruct (negb _).
    - destruct Hnone as (found & h' & Hr & Hm). exists found, h'. now destruct found.
    - destruct (Hsome _ _ (_matchArray_returns fuel (strings_of (elements (getSource resource)))
                                (strings_of (elements (getTarget resource)))
                                st T Hterms Hfuel))
        as (found & h' & Hr & Hm).
      exists found, h'. split; [exact Hr |]. now destruct found. }
  destruct (String.eqb (getType resource) "plural").
  { destruct (negb _).
    - destruct Hnone as (found & h' & Hr & Hm). exists found, h'. now destruct found.
    - destruct (Hsome _ _ (_matchPlural_returns fuel (getSource resource) (getTarget resource)
                                st T Hterms Hfuel))
        as (found & h' & Hr & Hm).
      exists found, h'. split; [exact Hr |]. now destruct found. }
  destruct Hnone as (found & h' & Hr & Hm). exists found, h'. now destruct found.
Qed.

(** [match] in the store computes what [match] on the value of the instance
    computes, and touches nothing that existed before the call. *)
Lemma match_run (fuel : nat) (resource : Resource) (file locale : string) (st : Store)
    (T : list string) :
  holds_terms st T -> length T <= fuel ->
  exists h',
    runs (match_ fuel resource file locale) st
         (ResourceDNTTerms.match_ (instance st T) resource file locale) h'.
Proof.
  intros Hterms Hfuel.
  destruct (_matchResource_run fuel resource st T Hterms Hfuel)
    as (found & h' & [Erun Hf] & Hm).
  exists h'. split; [| exact Hf].
  unfold match_, and_then at 1, self. rewrite Hterms, strs_of_Str.
  unfold and_then at 1. rewrite Erun. unfold ResourceDNTTerms.match_.
  fold (instance st T).
  destruct found as [a|], (ResourceDNTTerms._matchResource (instance st T) resource)
    as [expected|]; try contradiction; [| reflexivity].
  unfold and_then, read. cbn [with_heap heap]. rewrite Hm, partials_of_Partial.
  reflexivity.
Qed.

Lemma runs_untouched {A : Type} (m : M A) (st : Store) (a : A) (h' : list (list Val)) :
  runs m st a h' -> untouched st (with_heap h' st).
Proof. intros [_ Hf]. now repeat split. Qed.

Lemma runs_holds_terms {A : Type} (m : M A) (st : Store) (a : A) (h' : list (list Val))
    (T : list string) :
  runs m st a h' -> holds_terms st T -> holds_terms (with_heap h' st) T.
Proof. intros [_ Hf] Hterms. exact (Hf _ _ Hterms). Qed.

Lemma store_of_holds_terms (this : t) :
  holds_terms (store_of this) (_dntTerms this)
  /\ instance (store_of this) (_dntTerms this) = this.
Proof. now destruct this. Qed.

(** C9. In the store, where [this._dntTerms] is a reference to an array
    that [push] could update and every array is allocated and updated in
    place: for an instance whose array holds the terms [T], [match] called
    twice on the same resource finishes both times, with the same outcome
    (the same findings, or the same exception).  Each call leaves the fields
    of the instance and every array that existed before it, the array of the
    terms among them, as they were; the outcome is the one the fields and
    the terms of the instance determine, so nothing an earlier call left
    behind enters it; and a call made in between on another resource does
    not change it. *)
Theorem match_twice (st : Store) (T : list string) (fuel : nat) (resource : Resource)
    (file locale : string) :
  holds_terms st T ->
  length T <= fuel ->
  exists outcome st1 st2,
    match_ fuel resource file locale st = Some (outcome, st1)
    /\ match_ fuel resource file locale st1 = Some (outcome, st2)
    /\ outcome = ResourceDNTTerms.match_ (instance st T) resource file locale
    /\ untouched st st1
    /\ untouched st1 st2
    /\ holds_terms st1 T
    /\ holds_terms st2 T
    /\ forall resource' file' locale',
         exists outcome' st1' st2',
           match_ fuel resource' file' locale' st = Some (outcome', st1')
           /\ match_ fuel resource file locale st1' = Some (outcome, st2')
           /\ holds_terms st2' T.
Proof.
  intros Hterms Hfuel.
  destruct (match_run fuel resource file locale st T Hterms Hfuel) as (h1 & Hr1).
  pose proof (runs_holds_terms _ _ _ _ T Hr1 Hterms) as Hterms1.
  destruct (match_run fuel resource file locale (with_heap h1 st) T Hterms1 Hfuel)
    as (h2 & Hr2).
  pose proof (runs_holds_terms _ _ _ _ T Hr2 Hterms1) as Hterms2.
  exists (ResourceDNTTerms.match_ (instance st T) resource file locale),
         (with_heap h1 st), (with_heap h2 (with_heap h1 st)).
  split; [exact (proj1 Hr1) |]. split; [exact (proj1 Hr2) |]. split; [reflexivity |].
  split; [exact (runs_untouched _ _ _ _ Hr1) |].
  split; [exact (runs_untouched _ _ _ _ Hr2) |].
  split; [exact Hterms1 |]. split; [exact Hterms2 |].
  intros resource' file' locale'.
  destruct (match_run fuel resource' file' locale' st T Hterms Hfuel) as (h1' & Hr1').
  pose proof (runs_holds_terms _ _ _ _ T Hr1' Hterms) as Hterms1'.
  destruct (match_run fuel resource file locale (with_heap h1' st) T Hterms1' Hfuel)
    as (h2' & Hr2').
  eexists _, _, _. split; [exact (proj1 Hr1') |]. split; [exact (proj1 Hr2') |].
  exact (runs_holds_terms _ _ _ _ T Hr2' Hterms1').
Qed.

(** *** The statement at the sample rule *)
Import Samples.

(** The rule with the term [OAuth], as the constructor leaves it, on
    "Sign in with OAuth" / "Connectez-vous": both calls return the one
    finding, and the array of the terms still holds [OAuth]. *)
Lemma match_twice_witness :
  exists outcome st1 st2,
    match_ 1 sign_in "app.xliff" "fr-FR" (store_of oauth_rule) = Some (outcome, st1)
    /\ match_ 1 sign_in "app.xliff" "fr-FR" st1 = Some (outcome, st2)
    /\ outcome = ResourceDNTTerms.match_ oauth_rule sign_in "app.xliff" "fr-FR"
    /\ heap st2 !! this_dntTerms st2 = Some [Str "OAuth"].
Proof.
  assert (holds_terms (store_of oauth_rule) ["OAuth"]) as Hterms by reflexivity.
  assert (length ["OAuth"] <= 1) as Hfuel by (simpl; lia).
  destruct (match_twice (store_of oauth_rule) ["OAuth"] 1 sign_in "app.xliff" "fr-FR"
              Hterms Hfuel)
    as (outcome & st1 & st2 & E1 & E2 & Eo & _ & _ & _ & H2 & _).
  exists outcome, st1, st2. split; [exact E1 |]. split; [exact E2 |].
  split; [exact Eo | exact H2].
Defined.

End DNTStoreTheory.

(** *** The declarative resource rule *)
Module DeclarativeTheory.
Import JS DeclarativeResourceRule DeclarativeSpec.

Section Properties.
Context {Re Resource St : Type} `{CheckString Re Resource St}.

Lemma concat_returned (results : list JsVal) (x : JsVal) :
  concat results x = results ++ returned x.
Proof. now destruct x. Qed.

Lemma check_all_from (res : list Re) (source target : JsVal) (file : string)
    (resource : Resource) (st : St) (acc : list JsVal) :
  fold_left
    (fun acc re =>
       let r := checkString re source target file resource (snd acc) in
       (concat (fst acc) (fst r), snd r))
    res (acc, st)
  = (acc ++ List.concat
              (List.map returned (fst (check_each res source target file resource st))),
     snd (check_each res source target file resource st)).
Proof.
  revert st acc. induction res as [|re res IH]; intros st acc; simpl.
  - now rewrite List.app_nil_r.
  - rewrite IH, concat_returned. now rewrite <- List.app_assoc.
Qed.

Lemma length_truthy (l : list JsVal) :
  (truthy (JArr l) && truthy (JNum (Z.of_nat (length l))))%bool
  = match l with
    | [] => false
    | _ :: _ => true
    end.
Proof. now destruct l. Qed.

(** C7. [matchString] invokes the per-pattern check for each compiled
    pattern in order, each call in the state left by the one before;
    concatenates what the calls return (the elements of a returned array, a
    returned value otherwise); drops the falsy entries; and returns
    [undefined] when nothing is left and the list otherwise, so it never
    returns an empty list.  The earlier, positional version of the method
    computes the same. *)
Theorem matchString_aggregates (this : t Re) (source target : JsVal) (file : string)
    (resource : Resource) (st : St) :
  let calls := check_each (re this) source target file resource st in
  let found := List.filter truthy (List.concat (List.map returned (fst calls))) in
  matchString this source target file resource st
  = (nonempty_or_undefined found, snd calls)
  /\ fst (matchString this source target file resource st) <> Some []
  /\ forall locale,
       matchString_positional this locale source target file resource st
       = matchString this source target file resource st.
Proof.
  intros calls found.
  assert (matchString this source target file resource st
          = (nonempty_or_undefined found, snd calls)) as E.
  { unfold matchString, check_all. rewrite check_all_from. cbn [fst snd].
    rewrite List.app_nil_l, length_truthy. fold calls. fold found.
    now destruct found. }
  split; [exact E | split; [| reflexivity]].
  rewrite E. cbn [fst]. now destruct found.
Qed.

End Properties.
End DeclarativeTheory.

(** *** The project *)
Module ProjectTheory.
Import JS Project ProjectSpec.

(** *** Enumeration order *)

Lemma ordinary_keys_declared (ks : list string) :
  List.Forall (fun k => is_index k = false) ks -> ordinary_keys ks = ks.
Proof.
  intros Hks. unfold ordinary_keys.
  assert (index_keys ks = []) as ->.
  { induction Hks as [|k ks Hk _ IH]; [reflexivity |].
    unfold index_keys, is_index in *. simpl.
    destruct (array_index k); [discriminate | exact IH]. }
  simpl. induction Hks as [|k ks Hk _ IH]; [reflexivity |].
  simpl. rewrite Hk. simpl. now f_equal.
Qed.

Lemma lookup_prop_NoDup (props : list (string * JsVal)) (k : string) (v : JsVal) :
  List.NoDup (List.map fst props) -> In (k, v) props -> lookup_prop k props = Some v.
Proof.
  induction props as [|[k' v'] props IH]; simpl; [tauto |].
  intros Hnd [E|Hin].
  - injection E as -> ->. now rewrite String.eqb_refl.
  - apply List.NoDup_cons_iff in Hnd as [Hk Hnd].
    destruct (String.eqb k' k) eqn:E; [| now apply IH].
    apply String.eqb_eq in E. subst k'. exfalso. apply Hk.
    apply in_map_iff. now exists (k, v).
Qed.

(** The values of a plain object without array-index keys come in the order
    its properties are declared. *)
Lemma values_declared (props : list (string * JsVal)) :
  List.NoDup (List.map fst props) ->
  List.Forall (fun k => is_index k = false) (List.map fst props) ->
  values (JObj props) = List.map snd props.
Proof.
  intros Hnd Hk. unfold values. simpl. rewrite (ordinary_keys_declared _ Hk).
  rewrite List.map_map. apply List.map_ext_in. intros [k v] Hin. simpl.
  unfold get_prop. now rewrite (lookup_prop_NoDup props k v Hnd Hin).
Qed.

Lemma existsb_eqb_false (x : string) (l : list string) :
  existsb (String.eqb x) l = false -> ~ In x l.
Proof.
  intros E Hx.
  assert (existsb (String.eqb x) l = true)
    by (apply existsb_exists; exists x; split; [exact Hx | apply String.eqb_refl]).
  congruence.
Qed.

Section Properties.
Context {FileType Obj W : Type} `{Host FileType Obj W}.

(** *** The file-type table *)

Lemma registered_set (k : string) (ft : FileType) (this : t FileType Obj) :
  registered (set_filetype k ft this) k ft.
Proof.
  unfold registered, set_filetype. simpl.
  destruct (String.eqb k "__proto__"); [reflexivity | apply lookup_insert_eq].
Qed.

Lemma registered_set_ne (k name : string) (x ft : FileType) (this : t FileType Obj) :
  k <> name -> registered this name ft -> registered (set_filetype k x this) name ft.
Proof.
  unfold registered, set_filetype. simpl. intros Hne.
  destruct (String.eqb name "__proto__") eqn:En, (String.eqb k "__proto__") eqn:Ek;
    try (intros E; exact E).
  - apply String.eqb_eq in En, Ek. congruence.
  - intros E. now rewrite lookup_insert_ne.
Qed.

Lemma own_set (k k' : string) (x : FileType) (this : t FileType Obj) :
  k <> k' -> filetypes (set_filetype k x this) !! k' = filetypes this !! k'.
Proof.
  unfold set_filetype. simpl. intros Hne.
  destruct (String.eqb k "__proto__"); [reflexivity | now apply lookup_insert_ne].
Qed.

Lemma own_set_mono (k k' : string) (x : FileType) (this : t FileType Obj) :
  is_Some (filetypes this !! k') -> is_Some (filetypes (set_filetype k x this) !! k').
Proof.
  unfold set_filetype. simpl. intros Hk.
  destruct (String.eqb k "__proto__"); [exact Hk |].
  destruct (decide (k = k')) as [->|Hne];
    [rewrite lookup_insert_eq; eauto | now rewrite lookup_insert_ne].
Qed.

Lemma proto_set (k : string) (x : FileType) (this : t FileType Obj) :
  k <> "__proto__" -> filetypes_proto (set_filetype k x this) = filetypes_proto this.
Proof.
  unfold set_filetype. simpl. intros Hne.
  destruct (String.eqb k "__proto__") eqn:E; [| reflexivity].
  apply String.eqb_eq in E. contradiction.
Qed.

Lemma own_proto_key (k : string) (x : FileType) (this : t FileType Obj) :
  filetypes this !! "__proto__" = None ->
  filetypes (set_filetype k x this) !! "__proto__" = None.
Proof.
  unfold set_filetype. simpl. intros Hk.
  destruct (String.eqb k "__proto__") eqn:E; [exact Hk |].
  rewrite lookup_insert_ne; [exact Hk |]. intros ->. discriminate.
Qed.

(** A name that is registered reads as its file type. *)
Lemma lookup_registered (this : t FileType Obj) (name : string) (ft : FileType) :
  registered this name ft -> lookup_filetype this name = Some (FileTypeOf ft).
Proof.
  unfold registered, lookup_filetype.
  destruct (String.eqb name "__proto__"); now intros ->.
Qed.

(** A name that is not registered reads as the inherited member of that
    name, if there is one. *)
Lemma lookup_unregistered (this : t FileType Obj) (name : string) :
  (forall ft, ~ registered this name ft) ->
  lookup_filetype this name
  = if inherited this name then Some (Inherited name) else None.
Proof.
  unfold registered, lookup_filetype, inherited. intros Hn.
  destruct (String.eqb name "__proto__") eqn:E.
  - apply String.eqb_eq in E. subst name.
    destruct (filetypes_proto this) as [ft|]; [now destruct (Hn ft) | reflexivity].
  - destruct (filetypes this !! name) as [ft|]; [now destruct (Hn ft) | reflexivity].
Qed.

(** *** The loops of the constructor *)

Lemma declare_filetypes_spec (fts : list string) (this this' : t FileType Obj) (w w' : W) :
  declare_filetypes fts this w = Return (this', w') ->
  config this' = config this
  /\ mappings this' = mappings this
  /\ (forall k, is_Some (filetypes this !! k) -> is_Some (filetypes this' !! k))
  /\ (forall k, ~ In k fts -> filetypes this' !! k = filetypes this !! k)
  /\ (~ In "__proto__" fts -> filetypes_proto this' = filetypes_proto this)
  /\ (forall k ft, ~ In k fts -> registered this k ft -> registered this' k ft)
  /\ (forall k, In k fts ->
        exists project wa ft wb,
          FileType_new project
            (spread [("name", JStr k)] (get (get (config this) "filetypes") k)) wa
          = Return (ft, wb)
          /\ registered this' k ft).
Proof.
  revert this w. induction fts as [|ft fts IH]; intros this w; simpl.
  - intros [= <- <-]. repeat split; try tauto.
  - destruct (FileType_new this _ w) as [[x w1]|e] eqn:Ex; simpl; [| discriminate].
    intros E. destruct (IH _ _ E) as (Hc & Hm & Hmono & Hown & Hproto & Hreg & Hbuilt).
    split; [exact Hc |]. split; [exact Hm |]. split; [| split; [| split; [| split]]].
    + intros k Hk. apply Hmono. now apply own_set_mono.
    + intros k Hk. rewrite Hown by tauto. apply own_set. tauto.
    + intros Hk. rewrite Hproto by tauto. apply proto_set. tauto.
    + intros k y Hk Hy. apply Hreg; [tauto |]. apply registered_set_ne; tauto.
    + intros k Hk. destruct (in_dec string_dec k fts) as [Hin|Hout].
      * exact (Hbuilt k Hin).
      * destruct Hk as [<-|Hk]; [| contradiction].
        exists this, w, x, w1. split; [exact Ex |].
        apply Hreg; [exact Hout | apply registered_set].
Qed.

Lemma declare_inline_spec (globs : list string) (this this' : t FileType Obj) (w w' : W) :
  declare_inline globs this w = Return (this', w') ->
  config this' = config this
  /\ mappings this' = mappings this
  /\ (forall k, is_Some (filetypes this !! k) -> is_Some (filetypes this' !! k))
  /\ (forall k, ~ (In k globs /\ typeof (get (mappings this) k) = "object") ->
                filetypes this' !! k = filetypes this !! k)
  /\ (~ (In "__proto__" globs /\ typeof (get (mappings this) "__proto__") = "object") ->
      filetypes_proto this' = filetypes_proto this)
  /\ (forall k ft, ~ (In k globs /\ typeof (get (mappings this) k) = "object") ->
                   registered this k ft -> registered this' k ft)
  /\ (forall k, In k globs -> typeof (get (mappings this) k) = "object" ->
        exists project wa ft wb,
          FileType_new project (spread [("name", JStr k)] (get (mappings this) k)) wa
          = Return (ft, wb)
          /\ registered this' k ft).
Proof.
  revert this w. induction globs as [|glob globs IH]; intros this w; simpl.
  - intros [= <- <-]. repeat split; try tauto.
  - destruct (String.eqb (typeof (get (mappings this) glob)) "object") eqn:Eo.
    + apply String.eqb_eq in Eo.
      destruct (FileType_new this _ w) as [[x w1]|e] eqn:Ex; simpl; [| discriminate].
      intros E. destruct (IH _ _ E) as (Hc & Hm & Hmono & Hown & Hproto & Hreg & Hbuilt).
      split; [exact Hc |]. split; [exact Hm |]. split; [| split; [| split; [| split]]].
      * intros k Hk. apply Hmono. now apply own_set_mono.
      * intros k Hk. rewrite Hown by (simpl; tauto). apply own_set.
        intros <-. tauto.
      * intros Hk. rewrite Hproto by (simpl; tauto). apply proto_set.
        intros ->. tauto.
      * intros k y Hk Hy. apply Hreg; [simpl; tauto |]. apply registered_set_ne; [| exact Hy].
        intros <-. tauto.
      * intros k Hk Ho.
        destruct (in_dec string_dec k globs) as [Hin|Hout].
        -- exact (Hbuilt k Hin Ho).
        -- destruct Hk as [<-|Hk]; [| contradiction].
           exists this, w, x, w1. split; [exact Ex |].
           apply Hreg; [simpl; tauto | apply registered_set].
    + apply String.eqb_neq in Eo.
      intros E. destruct (IH _ _ E) as (Hc & Hm & Hmono & Hown & Hproto & Hreg & Hbuilt).
      split; [exact Hc |]. split; [exact Hm |]. split; [exact Hmono |].
      split; [| split; [| split]].
      * intros k Hk. apply Hown. intros [Hin Ho]. apply Hk. split; [now right | exact Ho].
      * intros Hk. apply Hproto. intros [Hin Ho]. apply Hk. split; [now right | exact Ho].
      * intros k y Hk. apply Hreg. intros [Hin Ho]. apply Hk. split; [now right | exact Ho].
      * intros k [<-|Hk] Ho; [contradiction | now apply Hbuilt].
Qed.

(** *** The steps of the constructor *)

Lemma new_inv (root options : JsVal) (pluginManager : option Obj) (config : JsVal)
    (w : W) (this : t FileType Obj) (w' : W) :
  new root options pluginManager config w = Return (this, w') ->
  exists pluginMgr w0 w1 xliff w2 unknown w3 this1 w4,
    pluginManager = Some pluginMgr
    /\ truthy options = true /\ truthy root = true /\ truthy config = true
    /\ DirItem_new root options pluginManager config w = Return w0
    /\ register pluginMgr config w0 = Return w1
    /\ builtin_xliff (init root options pluginManager config) w1 = Return (xliff, w2)
    /\ builtin_unknown (init root options pluginManager config) w2 = Return (unknown, w3)
    /\ (if truthy (get config "filetypes")
        then declare_filetypes (own_keys (get config "filetypes"))
               (set_filetype "unknown" unknown
                  (set_filetype "xliff" xliff (init root options pluginManager config)))
               w3
        else Return (set_filetype "unknown" unknown
                       (set_filetype "xliff" xliff
                          (init root options pluginManager config)), w3))
       = Return (this1, w4)
    /\ (if truthy (get config "paths")
        then declare_inline (own_keys (get config "paths"))
               (set_mappings (get config "paths") this1) w4
        else Return (this1, w4))
       = Return (this, w').
Proof.
  unfold new.
  destruct (DirItem_new root options pluginManager config w) as [w0|e] eqn:Ed; simpl;
    [| discriminate].
  destruct pluginManager as [pluginMgr|]; [| discriminate].
  destruct (truthy options) eqn:Eo, (truthy root) eqn:Er, (truthy config) eqn:Ec; simpl;
    try discriminate.
  destruct (register pluginMgr config w0) as [w1|e] eqn:Eg; simpl; [| discriminate].
  destruct (builtin_xliff _ w1) as [[xliff w2]|e] eqn:Ex; simpl; [| discriminate].
  destruct (builtin_unknown _ w2) as [[unknown w3]|e] eqn:Eu; simpl; [| discriminate].
  destruct (if truthy (get config "filetypes") then _ else _) as [[this1 w4]|e] eqn:E1;
    simpl; [| discriminate].
  intros E2.
  exists pluginMgr, w0, w1, xliff, w2, unknown, w3, this1, w4.
  repeat (split; [reflexivity || assumption |]). exact E2.
Qed.

(** What the constructor leaves in [filetypes] and [mappings]. *)
Lemma new_spec (root options : JsVal) (pluginManager : option Obj) (config : JsVal)
    (w : W) (this : t FileType Obj) (w' : W) :
  new root options pluginManager config w = Return (this, w') ->
  exists w1 xliff w2 unknown w3,
    builtin_xliff (init root options pluginManager config) w1 = Return (xliff, w2)
    /\ builtin_unknown (init root options pluginManager config) w2 = Return (unknown, w3)
    /\ mappings this = (if truthy (get config "paths")
                        then get config "paths" else JUndefined)
    /\ is_Some (filetypes this !! "xliff")
    /\ is_Some (filetypes this !! "unknown")
    /\ (redeclares config "xliff" = false -> filetypes this !! "xliff" = Some xliff)
    /\ (redeclares config "unknown" = false -> filetypes this !! "unknown" = Some unknown)
    /\ (redeclares config "__proto__" = false -> filetypes_proto this = None)
    /\ (forall name, redeclares config name = true ->
          exists project wa ft wb,
            FileType_new project
              (spread [("name", JStr name)] (user_definition config name)) wa
            = Return (ft, wb)
            /\ registered this name ft).
Proof.
  intros Hnew.
  destruct (new_inv _ _ _ _ _ _ _ Hnew)
    as (pluginMgr & w0 & w1 & xliff & w2 & unknown & w3 & this1 & w4
        & _ & _ & _ & _ & _ & _ & Ex & Eu & E1 & E2).
  set (this0 := set_filetype "unknown" unknown
                  (set_filetype "xliff" xliff (init root options pluginManager config)))
    in *.
  assert (filetypes this0 !! "xliff" = Some xliff) as Hx0 by reflexivity.
  assert (filetypes this0 !! "unknown" = Some unknown) as Hu0 by reflexivity.
  assert (filetypes_proto this0 = None) as Hp0 by reflexivity.
  assert (Project.config this0 = config) as Hc0 by reflexivity.
  assert (Project.config this1 = config
          /\ (forall k, is_Some (filetypes this0 !! k) -> is_Some (filetypes this1 !! k))
          /\ (forall k, declares_filetype config k = false ->
                        filetypes this1 !! k = filetypes this0 !! k)
          /\ (declares_filetype config "__proto__" = false ->
              filetypes_proto this1 = filetypes_proto this0)
          /\ (forall k, declares_filetype config k = true ->
                exists project wa ft wb,
                  FileType_new project
                    (spread [("name", JStr k)] (get (get config "filetypes") k)) wa
                  = Return (ft, wb)
                  /\ registered this1 k ft))
    as (Hc1 & Hmono1 & Hown1 & Hproto1 & Hbuilt1).
  { unfold declares_filetype. destruct (truthy (get config "filetypes")).
    - destruct (declare_filetypes_spec _ _ _ _ _ E1)
        as (Hc & _ & Hmono & Hown & Hproto & _ & Hbuilt).
      rewrite Hc0 in Hbuilt.
      split; [congruence |]. split; [exact Hmono |]. split; [| split].
      + intros k Hk. apply Hown. now apply existsb_eqb_false.
      + intros Hk. apply Hproto. now apply existsb_eqb_false.
      + intros k Hk. apply Hbuilt. simpl in Hk.
        apply existsb_exists in Hk as (y & Hy & E). apply String.eqb_eq in E.
        now rewrite E.
    - assert (this1 = this0) as -> by (now injection E1).
      split; [reflexivity |]. split; [tauto |].
      split; [reflexivity |]. split; [reflexivity | discriminate]. }
  assert (mappings this = (if truthy (get config "paths")
                           then get config "paths" else JUndefined)
          /\ (truthy (get config "paths") = false -> this = this1)
          /\ (forall k, is_Some (filetypes this1 !! k) -> is_Some (filetypes this !! k))
          /\ (forall k, declares_inline config k = false ->
                        filetypes this !! k = filetypes this1 !! k)
          /\ (declares_inline config "__proto__" = false ->
              filetypes_proto this = filetypes_proto this1)
          /\ (forall k ft, declares_inline config k = false ->
                           registered this1 k ft -> registered this k ft)
          /\ (forall k, declares_inline config k = true ->
                exists project wa ft wb,
                  FileType_new project
                    (spread [("name", JStr k)] (get (get config "paths") k)) wa
                  = Return (ft, wb)
                  /\ registered this k ft))
    as (Hm2 & Hsame2 & Hmono2 & Hown2 & Hproto2 & Hreg2 & Hbuilt2).
  { unfold declares_inline. destruct (truthy (get config "paths")).
    - destruct (declare_inline_spec _ _ _ _ _ E2)
        as (_ & Hm & Hmono & Hown & Hproto & Hreg & Hbuilt).
      cbn [set_mappings mappings filetypes filetypes_proto] in *.
      assert (forall k,
                existsb (String.eqb k) (own_keys (get config "paths"))
                && String.eqb (typeof (get (get config "paths") k)) "object" = false ->
                ~ (In k (own_keys (get config "paths"))
                   /\ typeof (get (get config "paths") k) = "object")) as Hnot.
      { intros k Hk [Hin Ho]. rewrite Ho in Hk. simpl in Hk. rewrite andb_true_r in Hk.
        now apply existsb_eqb_false in Hk. }
      split; [exact Hm |]. split; [discriminate |]. split; [exact Hmono |].
      split; [| split; [| split]].
      + intros k Hk. apply Hown. now apply Hnot.
      + intros Hk. apply Hproto. now apply Hnot.
      + intros k ft Hk Hr. apply Hreg; [now apply Hnot | exact Hr].
      + intros k Hk. simpl in Hk. apply andb_prop in Hk as [Hin Ho].
        apply String.eqb_eq in Ho.
        apply existsb_exists in Hin as (y & Hy & E). apply String.eqb_eq in E. subst y.
        now apply Hbuilt.
    - injection E2 as <- <-. split; [| split; [reflexivity |]].
      + destruct (truthy (get config "filetypes")).
        * now destruct (declare_filetypes_spec _ _ _ _ _ E1) as (_ & -> & _).
        * assert (this1 = this0) as -> by (now injection E1). reflexivity.
      + split; [tauto |]. split; [reflexivity |]. split; [reflexivity |].
        split; [tauto | discriminate]. }
  assert (forall name, redeclares config name = false ->
                       filetypes this !! name = filetypes this0 !! name) as Hkeep.
  { intros name Hr. apply orb_false_elim in Hr as [Hf Hp].
    now rewrite Hown2, Hown1. }
  exists w1, xliff, w2, unknown, w3.
  split; [exact Ex |]. split; [exact Eu |]. split; [exact Hm2 |].
  split; [apply Hmono2, Hmono1; rewrite Hx0; eauto |].
  split; [apply Hmono2, Hmono1; rewrite Hu0; eauto |].
  split; [intros Hr; now rewrite (Hkeep _ Hr) |].
  split; [intros Hr; now rewrite (Hkeep _ Hr) |].
  split.
  { intros Hr. apply orb_false_elim in Hr as [Hf Hp]. now rewrite Hproto2, Hproto1. }
  intros name Hr. unfold user_definition.
  destruct (declares_inline config name) eqn:Ei.
  - now apply Hbuilt2.
  - unfold redeclares in Hr. rewrite Ei, orb_false_r in Hr.
    destruct (Hbuilt1 name Hr) as (project & wa & ft & wb & Eft & Hreg).
    exists project, wa, ft, wb. split; [exact Eft |]. now apply Hreg2.
Qed.

(** *** The scan of [getFileTypeForPath] *)

Lemma scan_first (this : t FileType Obj) (pathName glob : string) (pre post : list string) :
  List.Forall (fun g => isMatch pathName g = false) pre ->
  isMatch pathName glob = true ->
  scan_mappings this pathName (pre ++ glob :: post)
  = filetype_or_unknown this (mapped_name this glob).
Proof.
  intros Hpre Hg. induction Hpre as [|g pre Hg' _ IH]; simpl.
  - now rewrite Hg.
  - now rewrite Hg'.
Qed.


(** *** The enumeration order of a mapping table *)








(** C8 (amended). For every configuration the constructor accepts, the
    file-type table has an entry [xliff] and an entry [unknown]: the
    configuration can add file types but cannot remove these two.  Each is
    the built-in file type (for [xliff], the one whose rule set is
    [resource-check-all], which the constructor registers with the rule
    manager; for [unknown], the one without a rule set) unless the
    configuration declares a file type of that name, in [filetypes] or as an
    inline path mapping whose glob is that name; a name the configuration
    declares, [xliff] and [unknown] included, is registered with the file
    type constructed from the definition the configuration gives for it. *)
Theorem builtin_filetypes (root options : JsVal) (pluginManager : option Obj)
    (config : JsVal) (w : W) (this : t FileType Obj) (w' : W) :
  new root options pluginManager config w = Return (this, w') ->
  exists w1 xliff w2 unknown w3,
    builtin_xliff (init root options pluginManager config) w1 = Return (xliff, w2)
    /\ builtin_unknown (init root options pluginManager config) w2 = Return (unknown, w3)
    /\ is_Some (filetypes this !! "xliff")
    /\ is_Some (filetypes this !! "unknown")
    /\ (redeclares config "xliff" = false -> filetypes this !! "xliff" = Some xliff)
    /\ (redeclares config "unknown" = false -> filetypes this !! "unknown" = Some unknown)
    /\ (forall name,
          redeclares config name = true ->
          exists project wa ft wb,
            FileType_new project
              (spread [("name", JStr name)] (user_definition config name)) wa
            = Return (ft, wb)
            /\ registered this name ft)
    /\ get_prop "ruleset" (spread [] xliffFileTypeDefinition)
       = JArr [JStr "resource-check-all"]
    /\ has_prop "ruleset" (spread [] unknownFileTypeDefinition) = false
    /\ exists pluginMgr ruleMgr wa wb wc wd,
         pluginManager = Some pluginMgr
         /\ getRuleManager pluginMgr wa = Return (ruleMgr, wb)
         /\ RuleManager_addRuleSetDefinitions ruleMgr rulesetDefinitions wc = Return wd
         /\ has_prop "resource-check-all" (spread [] rulesetDefinitions) = true.
Proof.
  intros Hnew.
  destruct (new_spec _ _ _ _ _ _ _ Hnew)
    as (w1 & xliff & w2 & unknown & w3 & Ex & Eu & _ & Hx & Hu & Hkx & Hku & _ & Hbuilt).
  exists w1, xliff, w2, unknown, w3.
  repeat (split; [assumption || reflexivity |]).
  destruct (new_inv _ _ _ _ _ _ _ Hnew)
    as (pluginMgr & w0 & w1' & _ & _ & _ & _ & _ & _ & Ep & _ & _ & _ & _ & Eg & _).
  unfold register in Eg.
  destruct (getRuleManager pluginMgr w0) as [[ruleMgr wa]|e] eqn:Er; simpl in Eg;
    [| discriminate].
  destruct (if truthy (get config "rules") then _ else _) as [wb|e]; simpl in Eg;
    [| discriminate].
  destruct (RuleManager_addRuleSetDefinitions ruleMgr rulesetDefinitions wb) as [wc|e]
    eqn:Ea; simpl in Eg; [| discriminate].
  exists pluginMgr, ruleMgr, w0, wa, wb, wc. now repeat split.
Qed.

End Properties.

(** *** The statements at the sample projects *)
Import Samples.
#[local] Existing Instance project_host.


(** A configuration that declares [A] and [B] keeps both built-ins; one
    that declares [xliff] gets, under that name, the file type constructed
    from its own definition. *)
Lemma builtin_filetypes_witness :
  (exists this w',
      @new _ _ _ project_host sample_root sample_options sample_pluginManager
           config_overlapping []
      = Return (this, w')
      /\ filetypes this !! "xliff" = Some builtin_xliff_type
      /\ filetypes this !! "unknown" = Some builtin_unknown_type)
  /\ (exists this w',
         @new _ _ _ project_host sample_root sample_options sample_pluginManager
              config_redeclaring_xliff []
         = Return (this, w')
         /\ filetypes this !! "xliff"
            = Some [("name", JStr "xliff"); ("ruleset", JArr [JStr "my-rules"])]
         /\ filetypes this !! "unknown" = Some builtin_unknown_type).
Proof.
  split.
  - eexists _, _. split; [vm_compute; reflexivity |].
    match goal with
    | |- filetypes ?p !! _ = _ /\ _ =>
        assert (@new _ _ _ project_host sample_root sample_options sample_pluginManager
                     config_overlapping []
                = Return (p, ["add rule sets resource-check-all"])) as E
          by (vm_compute; reflexivity);
        destruct (@builtin_filetypes _ _ _ project_host
                    sample_root sample_options sample_pluginManager config_overlapping []
                    p _ E)
          as (w1 & xliff & w2 & unknown & w3 & Ex & Eu & _ & _ & Hx & Hu & _)
    end.
    injection Ex as <- <-. injection Eu as <- <-.
    split; [apply Hx | apply Hu]; reflexivity.
  - eexists _, _. split; [vm_compute; reflexivity |].
    match goal with
    | |- filetypes ?p !! _ = _ /\ _ =>
        assert (@new _ _ _ project_host sample_root sample_options sample_pluginManager
                     config_redeclaring_xliff []
                = Return (p, ["add rule sets resource-check-all"])) as E
          by (vm_compute; reflexivity);
        destruct (@builtin_filetypes _ _ _ project_host
                    sample_root sample_options sample_pluginManager
                    config_redeclaring_xliff [] p _ E)
          as (w1 & xliff & w2 & unknown & w3 & Ex & Eu & _ & _ & _ & Hu & Hdecl & _)
    end.
    injection Eu as <- <-. split; [| apply Hu; reflexivity].
    destruct (Hdecl "xliff" eq_refl) as (project & wa & ft & wb & Eft & Hreg).
    injection Eft as <- _. exact Hreg.
Defined.

(** [{ paths: { "**/*.xliff": "xliff", "**/*": "unknown" } }] resolves
    [a/b.xliff] to the built-in [xliff] and [a/b.txt] to the built-in
    [unknown]. *)
Example resolve_default_mapping :
  exists this w',
    new sample_root sample_options sample_pluginManager
        (JObj [("paths", JObj [("**/*.xliff", JStr "xliff"); ("**/*", JStr "unknown")])])
        []
    = Return (this, w')
    /\ getFileTypeForPath this "a/b.xliff" = Some (FileTypeOf builtin_xliff_type)
    /\ getFileTypeForPath this "a/b.txt" = Some (FileTypeOf builtin_unknown_type).
Proof.
  eexists _, _. split; [vm_compute; reflexivity |].
  split; vm_compute; reflexivity.
Qed.


(** C8, as stated, fails: a configuration that declares a file type named
    [xliff] replaces the built-in one, and the entry is then bound to the
    rule set of the configuration. *)
Lemma builtin_xliff_replaced :
  exists this w',
    @new _ _ _ project_host sample_root sample_options sample_pluginManager
         config_redeclaring_xliff []
    = Return (this, w')
    /\ @builtin_xliff _ _ _ project_host
         (init sample_root sample_options sample_pluginManager config_redeclaring_xliff)
         ["add rule sets resource-check-all"]
       = Return (builtin_xliff_type, ["add rule sets resource-check-all"])
    /\ filetypes this !! "xliff"
       = Some [("name", JStr "xliff"); ("ruleset", JArr [JStr "my-rules"])]
    /\ filetypes this !! "xliff" <> Some builtin_xliff_type.
Proof.
  eexists _, _. split; [vm_compute; reflexivity |].
  split; [reflexivity |]. split; [vm_compute; reflexivity |].
  vm_compute. discriminate.
Qed.

End ProjectTheory.

(** ** Further properties *)

(** *** More on the DNT-terms rule *)
Module DNTTermsMore.
Import JS ResourceDNTTerms DNTTermsSpec StringFacts DNTTermsFacts DNTTermsTheory.
Import ResourceDNTTermsOps ConstructionSpec.

(** **** The term list *)

Lemma Set_of_sublist_from (l acc : list string) :
  exists r, fold_left (fun acc x => if existsb (String.eqb x) acc then acc else acc ++ [x])
                      l acc = acc ++ r
            /\ r `sublist_of` l.
Proof.
  revert acc. induction l as [|y l IH]; intros acc; simpl.
  - exists []. split; [now rewrite List.app_nil_r | constructor].
  - destruct (existsb (String.eqb y) acc).
    + destruct (IH acc) as (r & E & Hr). exists r. split; [exact E | now apply sublist_cons].
    + destruct (IH (acc ++ [y])) as (r & E & Hr). exists (y :: r). split.
      * rewrite E. now rewrite <- List.app_assoc.
      * now apply sublist_skip.
Qed.

Lemma Set_of_sublist (l : list string) : Set_of l `sublist_of` l.
Proof. destruct (Set_of_sublist_from l []) as (r & E & Hr). unfold Set_of. now rewrite E. Qed.

Lemma nonempty_sublist (l : list string) : nonempty l `sublist_of` l.
Proof.
  unfold nonempty. induction l as [|x l IH]; simpl; [constructor |].
  destruct (0 <? String.length x)%nat; [now apply sublist_skip | now apply sublist_cons].
Qed.

Lemma filter_filter_and {A : Type} (p q : A -> bool) (l : list A) :
  List.filter p (List.filter q l) = List.filter (fun x => q x && p x) l.
Proof.
  induction l as [|x l IH]; [reflexivity |]. simpl.
  destruct (q x); simpl; [destruct (p x) |]; now rewrite IH.
Qed.

Lemma filter_true {A : Type} (p : A -> bool) (l : list A) :
  (forall x, In x l -> p x = true) -> List.filter p l = l.
Proof.
  induction l as [|x l IH]; intros Hp; [reflexivity |]. simpl.
  rewrite (Hp x) by now left. f_equal. apply IH. intros y Hy. apply Hp. now right.
Qed.

(** The loop of [Set_of], started with the elements [acc] already seen,
    appends the first occurrences of the elements not yet seen. *)
Lemma Set_of_first_from (l acc : list string) :
  fold_left (fun acc x => if existsb (String.eqb x) acc then acc else acc ++ [x]) l acc
  = acc ++ List.filter (fun z => negb (existsb (String.eqb z) acc)) (first_occurrences l).
Proof.
  revert acc. induction l as [|y l IH]; intros acc; simpl.
  - now rewrite List.app_nil_r.
  - rewrite IH. destruct (existsb (String.eqb y) acc) eqn:E; simpl.
    + f_equal. rewrite filter_filter_and. apply filter_ext_in. intros z _.
      destruct (String.eqb z y) eqn:Ez; [| reflexivity].
      apply String.eqb_eq in Ez. subst z. now rewrite E.
    + rewrite <- List.app_assoc. simpl. do 2 f_equal.
      rewrite filter_filter_and. apply filter_ext. intros z.
      rewrite existsb_app. simpl. rewrite orb_false_r, negb_orb. apply andb_comm.
Qed.

Lemma Set_of_first (l : list string) : Set_of l = first_occurrences l.
Proof.
  unfold Set_of. rewrite Set_of_first_from. simpl. now apply filter_true.
Qed.

Section Constructed.
Context `{Host}.

(** X1. The term list of a constructed rule has no duplicates and no empty
    term; when the terms were given explicitly, it is the list of the given
    terms that are not empty, each at the place of its first occurrence. *)
Theorem new_term_list (params : list (string * JsVal)) (this : t) :
  new params = Return this ->
  List.NoDup (_dntTerms this)
  /\ ~ In "" (_dntTerms this)
  /\ forall ts,
       has_prop "terms" params = true ->
       get_prop "terms" params = JArr (List.map JStr ts) ->
       _dntTerms this = first_occurrences (nonempty ts)
       /\ _dntTerms this `sublist_of` ts
       /\ forall x, In x ts -> x <> "" -> In x (_dntTerms this).
Proof.
  intros Hnew. split; [exact (new_NoDup params this Hnew) |]. split.
  - destruct (new_terms params this Hnew) as [terms ->].
    rewrite Set_of_In, nonempty_In. tauto.
  - intros ts Hh Hg.
    assert (_dntTerms this = Set_of (nonempty ts)) as E.
    { pose proof Hnew as E. unfold new in E. rewrite Hh, Hg in E. simpl in E.
      rewrite everyString_JStr in E. simpl in E. injection E as <-. simpl.
      now rewrite strings_of_JStr. }
    split; [| split].
    + now rewrite E, Set_of_first.
    + rewrite E.
      transitivity (nonempty ts); [apply Set_of_sublist | apply nonempty_sublist].
    + intros x Hx Hne. apply (new_explicit_In params this ts Hnew Hh Hg). tauto.
Qed.

(** X2. Constructed without [terms] and without [termsFilePath], the rule
    has no terms, and [match] then reports nothing on any resource. *)
Theorem new_without_terms (params : list (string * JsVal)) :
  has_prop "terms" params = false ->
  has_prop "termsFilePath" params = false ->
  exists this,
    new params = Return this
    /\ _dntTerms this = []
    /\ forall resource file locale,
         exists r, match_ this resource file locale = Return r /\ findings_of r = [].
Proof.
  intros Ht Hp. eexists. split; [unfold new; rewrite Ht, Hp; reflexivity |].
  split; [reflexivity |].
  intros resource file locale.
  match goal with
  | |- exists r, match_ ?this _ _ _ = _ /\ _ =>
      assert (_matchResource this resource = None
              \/ _matchResource this resource = Some []) as [E|E]
  end.
  { unfold _matchResource. cbn [_dntTerms].
    destruct (String.eqb (getType resource) "string").
    { destruct (negb _ || negb _); [now left | now right]. }
    destruct (String.eqb (getType resource) "array").
    { destruct (negb _); [now left | right]. rewrite _matchArray_eq. f_equal.
      apply concat_nil_Forall, List.Forall_forall. intros l Hl.
      apply list_elem_of_In, elem_of_lookup_imap_1 in Hl as (i & x & -> & _).
      reflexivity. }
    destruct (String.eqb (getType resource) "plural"); [| now left].
    destruct (negb _); [now left | now right]. }
  - exists None. unfold match_. now rewrite E.
  - exists (Some []). unfold match_. now rewrite E.
Qed.

(** X3. Explicit terms take precedence over a terms file: when [terms] is
    present the host is never consulted, a value that is not an array of
    strings is rejected, and an array of strings is always accepted. *)
Theorem new_explicit_terms (params : list (string * JsVal)) :
  has_prop "terms" params = true ->
  (forall other : Host, @new other params = @new _ params)
  /\ (isStringArray (get_prop "terms" params) = false ->
      new params
      = Throw (Error "DNT terms provided in an unexpected format; expected string[]"))
  /\ (isStringArray (get_prop "terms" params) = true ->
      exists this, new params = Return this).
Proof.
  intros Ht. split; [| split].
  - intros other. unfold new. now rewrite Ht.
  - intros Hs. unfold new. rewrite Ht. rewrite isStringArray_split in Hs.
    destruct (isArray _), (everyString _); try discriminate; reflexivity.
  - intros Hs. unfold new. rewrite Ht. rewrite isStringArray_split in Hs.
    destruct (isArray _), (everyString _); try discriminate. simpl. eauto.
Qed.

(** X4. A terms file that cannot be read is fatal to the construction:
    whether it is declared [json] or [txt], the constructor throws what
    [readFileSync] threw. *)
Theorem new_read_failure (params : list (string * JsVal)) (e : Exn) :
  has_prop "terms" params = false ->
  has_prop "termsFilePath" params = true ->
  (strictEqStr (get_prop "termsFileType" params) "json" = true
   \/ strictEqStr (get_prop "termsFileType" params) "txt" = true) ->
  readFileSync (get_prop "termsFilePath" params) = Throw e ->
  new params = Throw e.
Proof.
  intros Ht Hp Hty Hr. unfold new. rewrite Ht, Hp.
  destruct (strictEqStr (get_prop "termsFileType" params) "json").
  - unfold parseTermsFromJsonFile. now rewrite Hr.
  - destruct Hty as [|Htxt]; [discriminate |]. rewrite Htxt.
    unfold parseTermsFromTxtFile. now rewrite Hr.
Qed.

(** X5. A [json] terms file that parses to an array of strings gives the
    rule the constructor builds from the same strings given explicitly. *)
Theorem new_json_file_as_explicit (params : list (string * JsVal)) (text : string)
    (ts : list string) :
  has_prop "terms" params = false ->
  has_prop "termsFilePath" params = true ->
  strictEqStr (get_prop "termsFileType" params) "json" = true ->
  readFileSync (get_prop "termsFilePath" params) = Return text ->
  JSON_parse text = Some (JArr (List.map JStr ts)) ->
  new params = new [("terms", JArr (List.map JStr ts))].
Proof.
  intros Ht Hp Hty Hr Hj. unfold new. rewrite Ht, Hp, Hty.
  unfold parseTermsFromJsonFile. rewrite Hr. simpl. rewrite Hj. simpl.
  now rewrite everyString_JStr.
Qed.

End Constructed.
(** **** The statements at the sample rules *)
Import Samples MoreSamples.

(** The terms [OAuth], the empty string, [Acme] and [OAuth] again give the
    term list [OAuth], [Acme]. *)
Lemma new_term_list_witness :
  exists this,
    @new dnt_host [("terms", JArr (List.map JStr ["OAuth"; ""; "Acme"; "OAuth"]))]
    = Return this
    /\ List.NoDup (_dntTerms this)
    /\ _dntTerms this = ["OAuth"; "Acme"].
Proof.
  eexists. split; [vm_compute; reflexivity |].
  match goal with
  | |- List.NoDup (_dntTerms ?r) /\ _ =>
      destruct (@new_term_list dnt_host
                  [("terms", JArr (List.map JStr ["OAuth"; ""; "Acme"; "OAuth"]))]
                  r eq_refl) as (Hnd & _ & Hts)
  end.
  split; [exact Hnd |].
  exact (proj1 (Hts ["OAuth"; ""; "Acme"; "OAuth"] eq_refl eq_refl)).
Defined.

(** The rule constructed from [{}]. *)
Lemma new_without_terms_witness :
  exists this, @new dnt_host [] = Return this /\ _dntTerms this = [].
Proof.
  destruct (@new_without_terms dnt_host [] eq_refl eq_refl) as (this & E & Ht & _).
  exists this. split; [exact E | exact Ht].
Defined.

(** The explicit term [OAuth] is accepted. *)
Lemma new_explicit_terms_witness :
  exists this, @new dnt_host oauth_params = Return this.
Proof.
  apply (proj2 (proj2 (@new_explicit_terms dnt_host oauth_params eq_refl))).
  reflexivity.
Defined.

(** A [json] terms file that does not exist. *)
Lemma new_read_failure_witness :
  @new dnt_host missing_file_params
  = Throw (Error "ENOENT: no such file or directory").
Proof.
  apply (@new_read_failure dnt_host missing_file_params);
    [reflexivity | reflexivity | left; reflexivity | reflexivity].
Defined.

(** The file [dnt.json] holds the array with the one string [OAuth]. *)
Lemma new_json_file_as_explicit_witness :
  @new dnt_host dnt_json_params
  = @new dnt_host [("terms", JArr (List.map JStr ["OAuth"]))].
Proof.
  apply (@new_json_file_as_explicit dnt_host dnt_json_params oauth_array_text ["OAuth"]);
    reflexivity.
Defined.

End DNTTermsMore.

(** *** Terms files with one term per line *)
Module TxtTerms.
Import JS ResourceDNTTerms DNTTermsSpec StringFacts DNTTermsFacts.
Import ResourceDNTTermsOps.

Lemma append_nil_r (s : string) : s +:+ "" = s.
Proof. induction s as [|c s IH]; unfold_app; [reflexivity | now rewrite IH]. Qed.

Lemma append_assoc (a b c : string) : (a +:+ b) +:+ c = a +:+ (b +:+ c).
Proof. induction a as [|x a IH]; unfold_app; [reflexivity | now rewrite IH]. Qed.

Lemma no_newline_append (a b : string) :
  no_newline (a +:+ b) = no_newline a && no_newline b.
Proof.
  induction a as [|c a IH]; unfold_app; simpl; [reflexivity |].
  rewrite IH. now rewrite andb_assoc.
Qed.

Lemma is_newline_space (c : ascii) : is_newline c = true -> is_space c = true.
Proof.
  unfold is_newline, is_space. intros E.
  apply orb_prop in E as [E|E]; rewrite E; simpl; rewrite ?orb_true_r; reflexivity.
Qed.

(** **** Splitting *)

Lemma split_lines_no_newline (s cur : string) (in_sep : bool) :
  no_newline cur = true ->
  List.Forall (fun p => no_newline p = true) (split_lines_from cur in_sep s).
Proof.
  revert cur in_sep. induction s as [|c s IH]; intros cur in_sep Hcur; simpl.
  - now repeat constructor.
  - destruct (is_newline c) eqn:E.
    + destruct in_sep; [now apply IH |]. constructor; [exact Hcur | now apply IH].
    + apply IH. rewrite no_newline_append, Hcur. simpl. now rewrite E.
Qed.

Lemma split_lines_line (t r cur : string) (in_sep : bool) :
  no_newline t = true -> t <> "" ->
  split_lines_from cur in_sep (t +:+ r) = split_lines_from (cur +:+ t) false r.
Proof.
  revert cur in_sep. induction t as [|c t IH]; intros cur in_sep Hn Hne; [congruence |].
  simpl in Hn. apply andb_prop in Hn as [Hc Hn]. apply negb_true_iff in Hc.
  unfold_app. simpl. rewrite Hc. destruct t as [|d t].
  - now unfold_app.
  - rewrite IH by (exact Hn || discriminate). now rewrite append_assoc.
Qed.

(** **** Trimming *)

Lemma trimStart_no_newline (s : string) :
  no_newline s = true -> no_newline (trimStart s) = true.
Proof.
  induction s as [|c s IH]; simpl; [reflexivity |]. intros E.
  destruct (is_space c); [| exact E]. apply andb_prop in E as [_ E]. now apply IH.
Qed.

Lemma trimStart_first (s : string) (c : ascii) (r : string) :
  trimStart s = String c r -> is_space c = false.
Proof.
  induction s as [|d s IH]; simpl; [discriminate |].
  destruct (is_space d) eqn:E; [exact IH |]. now intros [= <- _].
Qed.

Lemma trimEnd_no_newline (s : string) :
  no_newline s = true -> no_newline (trimEnd s) = true.
Proof.
  induction s as [|c s IH]; simpl; [reflexivity |]. intros E.
  apply andb_prop in E as [Hc E]. specialize (IH E).
  destruct (trimEnd s) as [|d t].
  - destruct (is_space c); simpl; [reflexivity | now rewrite Hc].
  - simpl in *. now rewrite Hc.
Qed.

Lemma trimEnd_first (s : string) (c : ascii) (r : string) :
  trimEnd s = String c r -> exists s', s = String c s'.
Proof.
  destruct s as [|d s]; simpl; [discriminate |].
  destruct (trimEnd s); [destruct (is_space d) |]; intros [= <- _]; eauto.
Qed.

Lemma trimEnd_last (s : string) (c : ascii) (r : string) :
  trimEnd s = String c r -> is_space (last_char c r) = false.
Proof.
  revert c r. induction s as [|d s IH]; intros c r; simpl; [discriminate |].
  destruct (trimEnd s) as [|e t] eqn:E.
  - destruct (is_space d) eqn:Ed; [discriminate |]. now intros [= <- <-].
  - intros [= <- <-]. simpl. now apply IH.
Qed.

Lemma trimEnd_id (s : string) (c : ascii) :
  is_space (last_char c s) = false -> trimEnd (String c s) = String c s.
Proof.
  revert c. induction s as [|d s IH]; intros c Hl.
  - simpl in *. now rewrite Hl.
  - change (trimEnd (String c (String d s)))
      with (match trimEnd (String d s) with
            | EmptyString => if is_space c then EmptyString else String c EmptyString
            | t => String c t
            end).
    now rewrite (IH d Hl).
Qed.

Lemma trim_clean (p : string) :
  no_newline p = true -> trim p <> "" -> clean (trim p) = true.
Proof.
  intros Hn Hne. unfold trim in *.
  destruct (trimEnd (trimStart p)) as [|c r] eqn:E; [congruence |].
  unfold clean.
  destruct (trimEnd_first _ _ _ E) as [s' Es].
  rewrite (trimStart_first _ _ _ Es), (trimEnd_last _ _ _ E). cbn [negb andb].
  rewrite <- E. apply trimEnd_no_newline, trimStart_no_newline, Hn.
Qed.

Lemma clean_trim (term : string) : clean term = true -> trim term = term.
Proof.
  destruct term as [|c s]; [discriminate |]. unfold clean, trim.
  intros E. apply andb_prop in E as [E _]. apply andb_prop in E as [Hc Hl].
  apply negb_true_iff in Hc, Hl. simpl. rewrite Hc. now apply trimEnd_id.
Qed.

Lemma clean_no_newline (term : string) : clean term = true -> no_newline term = true.
Proof. destruct term; [discriminate |]. unfold clean. intros E. now apply andb_prop in E. Qed.

Lemma clean_nonempty (term : string) : clean term = true -> term <> "".
Proof. now destruct term. Qed.

Lemma split_join_from (term : string) (terms : list string) (in_sep : bool) :
  List.Forall (fun t => clean t = true) (term :: terms) ->
  split_lines_from "" in_sep (join_lines (term :: terms)) = term :: terms.
Proof.
  revert term in_sep. induction terms as [|t2 terms IH]; intros term in_sep Hc.
  - simpl. apply List.Forall_inv in Hc.
    rewrite <- (append_nil_r term) at 1.
    rewrite split_lines_line by (now apply clean_no_newline || now apply clean_nonempty).
    reflexivity.
  - change (join_lines (term :: t2 :: terms))
      with (term +:+ String "010" (join_lines (t2 :: terms))).
    pose proof (List.Forall_inv Hc) as Ht. apply List.Forall_inv_tail in Hc.
    rewrite split_lines_line by (now apply clean_no_newline || now apply clean_nonempty).
    unfold_app. simpl. f_equal. now apply IH.
Qed.

Section Parsing.
Context `{Host}.

(** X6. Every term read from a [txt] terms file is non-empty, lies on one
    line (no CR, no LF) and has no white space at either end. *)
Theorem txt_terms_clean (path : JsVal) (terms : list string) :
  parseTermsFromTxtFile path = Return terms ->
  List.Forall (fun term => clean term = true) terms.
Proof.
  unfold parseTermsFromTxtFile. destruct (readFileSync path) as [text|e]; [| discriminate].
  simpl. intros [= <-]. apply List.Forall_forall. intros term Hin.
  apply nonempty_In in Hin as [Hin Hne].
  apply in_map_iff in Hin as (p & <- & Hp).
  apply trim_clean; [| exact Hne].
  pose proof (split_lines_no_newline text "" false eq_refl) as Hall.
  rewrite List.Forall_forall in Hall. now apply Hall.
Qed.

(** X7. Writing terms one per line and reading the file back as [txt] gives
    the same terms, provided each term is non-empty, on one line and
    without white space at either end. *)
Theorem txt_round_trip (path : JsVal) (terms : list string) :
  List.Forall (fun term => clean term = true) terms ->
  readFileSync path = Return (join_lines terms) ->
  parseTermsFromTxtFile path = Return terms.
Proof.
  intros Hc Hr. unfold parseTermsFromTxtFile. rewrite Hr. simpl. f_equal.
  destruct terms as [|term terms]; [reflexivity |].
  unfold split_lines. rewrite split_join_from by exact Hc.
  assert (List.map trim (term :: terms) = term :: terms) as ->.
  { rewrite <- (List.map_id (term :: terms)) at 2. apply List.map_ext_in.
    intros t Ht. apply clean_trim. rewrite List.Forall_forall in Hc. now apply Hc. }
  unfold nonempty. apply forallb_filter_id, forallb_forall. intros t Ht.
  rewrite List.Forall_forall in Hc. specialize (Hc t Ht). now destruct t.
Qed.

(** X8. A [txt] terms file is never rejected for its content: whenever the
    file can be read the constructor returns a rule, whose terms are the
    distinct non-empty trimmed lines of the file. *)
Theorem new_txt_accepts (params : list (string * JsVal)) (text : string) :
  has_prop "terms" params = false ->
  has_prop "termsFilePath" params = true ->
  strictEqStr (get_prop "termsFileType" params) "txt" = true ->
  readFileSync (get_prop "termsFilePath" params) = Return text ->
  exists this,
    new params = Return this
    /\ forall x, In x (_dntTerms this)
                 <-> x <> "" /\ exists line, In line (split_lines text) /\ x = trim line.
Proof.
  intros Ht Hp Hty Hr. eexists. split.
  - unfold new. rewrite Ht, Hp.
    assert (strictEqStr (get_prop "termsFileType" params) "json" = false) as ->.
    { destruct (get_prop "termsFileType" params) as [| | | |s| |]; try discriminate.
      simpl in *. apply String.eqb_eq in Hty. now subst s. }
    rewrite Hty. unfold parseTermsFromTxtFile. rewrite Hr. reflexivity.
  - intros x. simpl. rewrite Set_of_In, nonempty_In, nonempty_In, in_map_iff.
    split.
    + intros [[(line & <- & Hl) Hne] _]. split; [exact Hne | eauto].
    + intros [Hne (line & Hl & ->)]. repeat split; eauto.
Qed.

End Parsing.
(** **** The statements at the sample files *)
Import MoreSamples.

(** The lines of [messy.txt]. *)
Lemma txt_terms_clean_witness :
  List.Forall (fun term => clean term = true) ["OAuth"; "Acme Cloud"; "OAuth"].
Proof.
  apply (@txt_terms_clean txt_host (JStr "messy.txt")). reflexivity.
Defined.

(** [terms.txt] holds [OAuth] and [Acme Cloud], one per line. *)
Lemma txt_round_trip_witness :
  @parseTermsFromTxtFile txt_host (JStr "terms.txt") = Return ["OAuth"; "Acme Cloud"].
Proof.
  apply (@txt_round_trip txt_host (JStr "terms.txt") ["OAuth"; "Acme Cloud"]).
  - repeat constructor.
  - reflexivity.
Defined.

(** [messy.txt] is accepted. *)
Lemma new_txt_accepts_witness :
  exists this, @new txt_host messy_txt_params = Return this.
Proof.
  destruct (@new_txt_accepts txt_host messy_txt_params messy_txt
              eq_refl eq_refl eq_refl eq_refl) as (this & E & _).
  exists this. exact E.
Defined.
End TxtTerms.

(** *** More on matching *)
Module DNTMatchingMore.
Import JS ResourceDNTTerms DNTTermsSpec StringFacts DNTTermsFacts DNTTermsTheory.

(** X9. Whatever the shape of the resource, every finding of [match]
    carries the key of the resource, the file and the locale of the call,
    the severity [error], the rule itself and the rule's fixed description,
    and its highlight names a term of the rule: no finding is ever about
    anything else than a configured term. *)
Theorem finding_fields (this : t) (resource : Resource) (file locale : string)
    (findings : list (Result.t t)) (f : Result.t t) :
  match_ this resource file locale = Return (Some findings) ->
  In f findings ->
  Result.id f = getKey resource
  /\ Result.rule f = this
  /\ Result.pathName f = file
  /\ Result.locale f = locale
  /\ Result.severity f = "error"
  /\ Result.description f = "A DNT term is missing in target string."
  /\ exists x, In x (_dntTerms this)
               /\ Result.highlight f = "Missing term: <e0>" +:+ x +:+ "</e0>".
Proof.
  intros Hm Hf. apply match_Return in Hm as (l & E & ->).
  apply in_map_iff in Hf as (p & <- & Hp).
  repeat (split; [reflexivity |]).
  exact (partials_cite_terms this resource l E p Hp).
Qed.

Lemma missing_in_same (s x : string) : missing_in s s x = false.
Proof. unfold missing_in. now destruct (includes s x). Qed.

(** X10. A [string] or [array] resource whose target is identical to its
    source passes: [match] returns the empty list, whatever the terms. *)
Theorem identical_target_passes (this : t) (resource : Resource) (file locale : string) :
  getTarget resource = getSource resource ->
  well_typed resource = true ->
  getType resource <> "plural" ->
  match_ this resource file locale = Return (Some []).
Proof.
  intros Hsame Hw Hnp. unfold well_typed in Hw. rewrite Hsame in Hw. apply match_nil.
  destruct (String.eqb (getType resource) "string") eqn:E1.
  { apply String.eqb_eq in E1. apply andb_prop in Hw as [Hs _].
    destruct (getSource resource) as [| | | |s| |] eqn:Es; try discriminate.
    rewrite (_matchResource_string this resource s s E1 Es Hsame).
    rewrite filter_nil_iff; [reflexivity |]. intros x _. apply missing_in_same. }
  destruct (String.eqb (getType resource) "array") eqn:E2.
  { apply String.eqb_eq in E2. apply andb_prop in Hw as [Hs _].
    apply isStringArray_JStr in Hs. rewrite Hs in Hsame.
    rewrite (_matchResource_array this resource _ _ E2 Hs Hsame). f_equal.
    apply concat_nil_Forall, List.Forall_forall. intros l Hl.
    apply list_elem_of_In, elem_of_lookup_imap_1 in Hl as (i & x & -> & Ei).
    rewrite Ei. simpl.
    rewrite filter_nil_iff; [reflexivity |]. intros y _. apply missing_in_same. }
  destruct (String.eqb (getType resource) "plural") eqn:E3; [| discriminate].
  apply String.eqb_eq in E3. contradiction.
Qed.

Lemma lookup_app_default (tgt extra : list string) (i : nat) :
  i < length tgt -> default "" ((tgt ++ extra) !! i) = default "" (tgt !! i).
Proof. intros Hi. now rewrite lookup_app_l. Qed.

(** X11. Target items of an [array] resource beyond the length of the
    source are never examined: removing them does not change the result. *)
Theorem array_surplus_target_ignored (this : t) (resource : Resource)
    (file locale : string) (src tgt extra : list string) :
  getType resource = "array" ->
  getSource resource = JArr (List.map JStr src) ->
  getTarget resource = JArr (List.map JStr (tgt ++ extra)) ->
  length src <= length tgt ->
  match_ this resource file locale
  = match_ this
      {| getKey := getKey resource;
         getType := "array";
         getSource := JArr (List.map JStr src);
         getTarget := JArr (List.map JStr tgt) |}
      file locale.
Proof.
  intros Ht Hs Htg Hlen. unfold match_.
  rewrite (_matchResource_array this resource src (tgt ++ extra) Ht Hs Htg).
  rewrite (_matchResource_array this
             {| getKey := getKey resource;
                getType := "array";
                getSource := JArr (List.map JStr src);
                getTarget := JArr (List.map JStr tgt) |}
             src tgt eq_refl eq_refl eq_refl).
  match goal with
  | |- bind (map_throws ?f ?l) ?k = bind (map_throws ?f' ?l') ?k' =>
      assert (l = l') as ->; [| reflexivity]
  end.
  f_equal.
  apply imap_ext. intros i x Hi. cbv beta.
  rewrite lookup_app_default; [reflexivity |].
  apply lookup_lt_Some in Hi. lia.
Qed.

(** X12. A [plural] resource whose target has no category at all passes:
    nothing is reported however many terms its source contains. *)
Theorem plural_empty_target_passes (this : t) (resource : Resource)
    (file locale : string) :
  getType resource = "plural" ->
  well_typed resource = true ->
  category_texts (getTarget resource) = [] ->
  match_ this resource file locale = Return (Some []).
Proof.
  intros Ht Hw He. apply match_nil.
  rewrite (_matchResource_plural this resource Ht).
  - f_equal.
    apply omap_nil_iff. intros x _. unfold plural_partial. rewrite He. simpl.
    now destruct (List.find _ _).
  - rewrite plural_guard_split. unfold well_typed in Hw. now rewrite Ht in Hw.
Qed.

Lemma In_cons_shape {A : Type} (x : A) (l : list A) :
  In x l -> exists y l', l = y :: l'.
Proof. destruct l as [|y l']; [contradiction | eauto]. Qed.

(** A well-typed resource from whose target a term is missing gives a
    partial result. *)
Lemma _matchResource_cons (this : t) (resource : Resource) (x : string) :
  well_typed resource = true ->
  In x (_dntTerms this) ->
  term_missing resource x = true ->
  exists p l, _matchResource this resource = Some (p :: l).
Proof.
  intros Hw Hx Hm. unfold well_typed in Hw. unfold term_missing in Hm.
  destruct (String.eqb (getType resource) "string") eqn:E1.
  { apply String.eqb_eq in E1. apply andb_prop in Hw as [Hs Htg].
    destruct (getSource resource) as [| | | |s| |] eqn:Es; try discriminate.
    destruct (getTarget resource) as [| | | |tg| |] eqn:Et; try discriminate.
    rewrite (_matchResource_string this resource s tg E1 Es Et).
    destruct (In_cons_shape (partial s x)
                (List.map (partial s) (List.filter (missing_in s tg) (_dntTerms this))))
      as (p & l & ->); [| eauto].
    apply in_map, filter_In. split; [exact Hx | exact Hm]. }
  destruct (String.eqb (getType resource) "array") eqn:E2.
  { apply String.eqb_eq in E2. apply andb_prop in Hw as [Hs Htg].
    apply isStringArray_JStr in Hs, Htg.
    rewrite (_matchResource_array this resource _ _ E2 Hs Htg).
    apply existsb_exists in Hm as ([tg s] & Hin & Hm).
    apply list_elem_of_In, elem_of_lookup_imap_1 in Hin as (i & s' & E & Ei).
    injection E as -> ->.
    match goal with
    | |- exists p l, Some ?c = _ =>
        destruct (In_cons_shape (partial s' x) c) as (p & l & ->); [| eauto]
    end.
    apply in_concat. eexists. split.
    - apply (In_imap _ _ i s' Ei).
    - cbv beta. apply in_map, filter_In. split; [exact Hx | exact Hm]. }
  destruct (String.eqb (getType resource) "plural") eqn:E3; [| discriminate].
  apply String.eqb_eq in E3.
  rewrite (_matchResource_plural this resource E3)
    by (now rewrite plural_guard_split).
  apply andb_prop in Hm as [He Ha]. rewrite find_existsb in He.
  destruct (List.find _ (category_texts (getSource resource))) as [item|] eqn:Ef;
    [| discriminate].
  match goal with
  | |- exists p l, Some ?c = _ =>
      destruct (In_cons_shape (partial item x) c) as (p & l & ->); [| eauto]
  end.
  apply In_omap. exists x. split; [exact Hx |].
  unfold plural_partial. now rewrite Ef, Ha.
Qed.

(** X28. The constructor of [Result] does not accept an empty file path:
    called with the file path [""], [match] throws the string
    [Missing fields in Result constructor] on every well-typed resource from
    whose target a term of the rule is missing; when no term is missing, or
    the resource is not well typed, no [Result] is constructed and [match]
    returns what it returns for any other path. *)
Theorem match_empty_path (this : t) (resource : Resource) (locale : string) :
  (well_typed resource = true ->
   (exists x, In x (_dntTerms this) /\ term_missing resource x = true) ->
   match_ this resource "" locale = Throw missing_fields)
  /\ (well_typed resource = true ->
      (forall x, In x (_dntTerms this) -> term_missing resource x = false) ->
      match_ this resource "" locale = Return (Some []))
  /\ (well_typed resource = false -> match_ this resource "" locale = Return None).
Proof.
  split; [| split].
  - intros Hw (x & Hx & Hm).
    destruct (_matchResource_cons this resource x Hw Hx Hm) as (p & l & E).
    exact (match_Throw this resource locale p l E).
  - intros Hw Hm. now apply match_nil, _matchResource_nil.
  - apply match_None.
Qed.

Section Constructed.
Context `{Host}.

(** X13. When [match] is called with a file path that is not empty, a
    [string] resource whose target is the empty string gets one finding for
    every term of the rule that its source contains. *)
Theorem empty_target_reports_all (params : list (string * JsVal)) (this : t)
    (resource : Resource) (file locale s : string) :
  new params = Return this ->
  file <> "" ->
  getType resource = "string" ->
  getSource resource = JStr s ->
  getTarget resource = JStr "" ->
  exists findings,
    match_ this resource file locale = Return (Some findings)
    /\ List.map Result.highlight findings
       = List.map missing_term
           (List.filter (fun x => includes s x) (_dntTerms this)).
Proof.
  intros Hnew Hfile Ht Hs Htg. eexists. split.
  { exact (match_Some this resource file locale _ Hfile
             (_matchResource_string this resource s "" Ht Hs Htg)). }
  rewrite !List.map_map. cbn [partial pr_highlight result Result.highlight].
  f_equal. apply filter_ext_in. intros x Hx. unfold missing_in.
  assert (x <> "") as Hne.
  { intros ->. destruct (new_terms params this Hnew) as [terms E].
    rewrite E, Set_of_In, nonempty_In in Hx. tauto. }
  destruct x as [|c x]; [congruence |]. simpl. now rewrite andb_true_r.
Qed.

End Constructed.
(** **** The statements at the sample resources *)
Import Samples MoreSamples.

(** The finding on "Sign in with OAuth" / "Connectez-vous". *)
Lemma finding_fields_witness :
  exists findings f,
    match_ oauth_rule sign_in "app.xliff" "fr-FR" = Return (Some findings)
    /\ In f findings
    /\ Result.id f = "sign.in"
    /\ Result.severity f = "error".
Proof.
  eexists _, _. split; [reflexivity |]. split; [left; reflexivity |].
  match goal with
  | |- Result.id ?f = _ /\ _ =>
      destruct (finding_fields oauth_rule sign_in "app.xliff" "fr-FR" _ f
                  eq_refl (or_introl eq_refl)) as (Hid & _ & _ & _ & Hsev & _)
  end.
  split; [exact Hid | exact Hsev].
Defined.

(** A source copied to the target. *)
Lemma identical_target_passes_witness :
  match_ oauth_rule copied "app.xliff" "fr-FR" = Return (Some []).
Proof.
  apply identical_target_passes; [reflexivity | reflexivity | discriminate].
Defined.

(** One source item, three target items. *)
Lemma array_surplus_target_ignored_witness :
  match_ oauth_rule long_menu "app.xliff" "fr-FR"
  = match_ oauth_rule
      {| getKey := "menu";
         getType := "array";
         getSource := JArr (List.map JStr ["Sign in with OAuth"]);
         getTarget := JArr (List.map JStr ["Connexion"]) |}
      "app.xliff" "fr-FR".
Proof.
  apply (array_surplus_target_ignored oauth_rule long_menu "app.xliff" "fr-FR"
           ["Sign in with OAuth"] ["Connexion"] ["Aide"; "OAuth"]);
    [reflexivity | reflexivity | reflexivity | simpl; lia].
Defined.

(** A plural resource with the target [{}]. *)
Lemma plural_empty_target_passes_witness :
  match_ oauth_rule no_plurals "app.xliff" "fr-FR" = Return (Some []).
Proof.
  apply plural_empty_target_passes; reflexivity.
Defined.

(** "Sign in with OAuth" / "Connectez-vous" reported without a file path. *)
Lemma match_empty_path_witness :
  match_ oauth_rule sign_in "" "fr-FR" = Throw missing_fields.
Proof.
  apply (proj1 (match_empty_path oauth_rule sign_in "fr-FR")); [reflexivity |].
  exists "OAuth". split; [now left | reflexivity].
Defined.

(** "Sign in with OAuth" with an empty target. *)
Lemma empty_target_reports_all_witness :
  exists findings,
    match_ oauth_rule blank "app.xliff" "fr-FR" = Return (Some findings)
    /\ List.map Result.highlight findings = ["Missing term: <e0>OAuth</e0>"].
Proof.
  assert ("app.xliff" <> "") as Hfile by discriminate.
  destruct (@empty_target_reports_all dnt_host oauth_params oauth_rule blank
              "app.xliff" "fr-FR" "Sign in with OAuth"
              eq_refl Hfile eq_refl eq_refl eq_refl) as (findings & E & Hh).
  exists findings. split; [exact E | exact Hh].
Defined.
End DNTMatchingMore.

(** *** More on the declarative resource rule *)
Module DeclarativeMore.
Import JS DeclarativeResourceRule DeclarativeConstruction.

Section Construction.
Context {Re : Type} `{Host Re}.

Lemma compile_all_Forall2 (items : list JsVal) (res : list Re) :
  compile_all items = Return res ->
  List.Forall2 (fun item r => RegExp_new item = Return r) items res.
Proof.
  revert res. induction items as [|item items IH]; intros res; simpl.
  - intros [= <-]. constructor.
  - destruct (RegExp_new item) as [r|e] eqn:Er; simpl; [| discriminate].
    destruct (compile_all items) as [rs|e]; simpl; [| discriminate].
    intros [= <-]. constructor; [exact Er | now apply IH].
Qed.

Lemma compile_all_first_failure (pre post : list JsVal) (item : JsVal) (e : Exn) :
  List.Forall (fun p => exists r, RegExp_new p = Return r) pre ->
  RegExp_new item = Throw e ->
  compile_all (pre ++ item :: post) = Throw e.
Proof.
  intros Hpre He. induction Hpre as [|p pre [r Hr] _ IH]; simpl.
  - now rewrite He.
  - rewrite Hr. simpl. now rewrite IH.
Qed.

(** X14. Once the superclass constructor has returned, the constructor
    throws the same string, before compiling any pattern, when the options
    are falsy or lack a truthy [name], [description], [note] or [regexps];
    the earlier version of the class only requires [regexps]. *)
Theorem new_missing_options (options : JsVal) :
  ResourceRule_new options = Return tt ->
  (truthy options = false
   \/ truthy (get options "name") = false
   \/ truthy (get options "description") = false
   \/ truthy (get options "note") = false
   \/ truthy (get options "regexps") = false ->
   new options = Throw missing_options)
  /\ (truthy options = false \/ truthy (get options "regexps") = false ->
      new_positional options = Throw missing_options).
Proof.
  intros Hs. split; intros Hm.
  - unfold new. rewrite Hs. simpl.
    destruct Hm as [E|[E|[E|[E|E]]]]; rewrite E; simpl;
      rewrite ?orb_true_r; reflexivity.
  - unfold new_positional. rewrite Hs. simpl.
    destruct Hm as [E|E]; rewrite E; simpl; rewrite ?orb_true_r; reflexivity.
Qed.

(** X15. A constructed rule holds one compiled pattern per element of
    [options.regexps], in the same order; its source locale and severity are
    never falsy: they default to [en-US] and [error]. *)
Theorem new_compiles_patterns (options : JsVal) (fields : Fields) (this : t Re) :
  new options = Return (fields, this) ->
  (exists items,
      get options "regexps" = JArr items
      /\ List.Forall2 (fun item r => RegExp_new item = Return r) items (re this))
  /\ truthy (sourceLocale fields) = true
  /\ truthy (severity fields) = true
  /\ (truthy (get options "sourceLocale") = false -> sourceLocale fields = JStr "en-US")
  /\ (truthy (get options "severity") = false -> severity fields = JStr "error")
  /\ name fields = get options "name"
  /\ description fields = get options "description"
  /\ note fields = get options "note"
  /\ link fields = get options "link".
Proof.
  unfold new. destruct (ResourceRule_new options) as [[]|e]; simpl; [| discriminate].
  destruct (_ || _); [discriminate |].
  destruct (get options "regexps") as [| | | | |items|] eqn:Er; simpl; try discriminate.
  destruct (compile_all items) as [res|e] eqn:Ec; simpl; [| discriminate].
  intros [= <- <-]. simpl. split.
  { exists items. split; [reflexivity | now apply compile_all_Forall2]. }
  destruct (truthy (get options "sourceLocale")) eqn:E1,
           (truthy (get options "severity")) eqn:E2;
    repeat split; auto; discriminate.
Qed.

(** X16. A pattern that does not compile is fatal to the construction: when
    the required options are present and the patterns before it compile,
    the constructor throws what [new RegExp] threw on it. *)
Theorem new_pattern_failure (options : JsVal) (pre post : list JsVal) (item : JsVal)
    (e : Exn) :
  ResourceRule_new options = Return tt ->
  truthy options = true ->
  truthy (get options "name") = true ->
  truthy (get options "description") = true ->
  truthy (get options "note") = true ->
  get options "regexps" = JArr (pre ++ item :: post) ->
  List.Forall (fun p => exists r, RegExp_new p = Return r) pre ->
  RegExp_new item = Throw e ->
  new options = Throw e.
Proof.
  intros Hs Ho Hn Hd Hnote Hr Hpre He. unfold new.
  rewrite Hs, Ho, Hn, Hd, Hnote, Hr. simpl.
  now rewrite (compile_all_first_failure pre post item e Hpre He).
Qed.

End Construction.

Section Base.
Context {Re Resource St : Type}.

(** X17. With the [checkString] of the class itself, which returns
    nothing, [matchString] returns [undefined] for every pattern list and
    every input, and leaves the state untouched. *)
Theorem base_matchString_undefined (this : t Re) (source target : JsVal)
    (file : string) (resource : Resource) (st : St) :
  @matchString Re Resource St (@base_checkString Re Resource St)
     this source target file resource st
  = (None, st).
Proof.
  unfold matchString, check_all.
  assert (forall res acc,
            List.filter truthy acc = [] ->
            let r := fold_left
                       (fun acc re =>
                          let r := @checkString Re Resource St
                                     (@base_checkString Re Resource St)
                                     re source target file resource (snd acc) in
                          (concat (fst acc) (fst r), snd r))
                       res (acc, st) in
            List.filter truthy (fst r) = [] /\ snd r = st) as Hloop.
  { induction res as [|r0 res IH]; intros acc Hacc; simpl; [now split |].
    apply IH. unfold concat, base_checkString, checkString. simpl.
    rewrite List.filter_app, Hacc. reflexivity. }
  destruct (Hloop (re this) [] eq_refl) as [Hf Hs].
  cbv zeta in Hf, Hs. rewrite Hf, Hs. reflexivity.
Qed.

End Base.
(** **** The statements at the sample options *)
Import MoreSamples.

(** Options with a name only. *)
Lemma new_missing_options_witness :
  @new string regexp_host (JObj [("name", JStr "resource-sample")])
  = Throw missing_options.
Proof.
  apply (proj1 (@new_missing_options string regexp_host
                  (JObj [("name", JStr "resource-sample")]) eq_refl)).
  right. right. left. reflexivity.
Defined.

(** Two patterns that compile. *)
Lemma new_compiles_patterns_witness :
  exists fields this,
    @new string regexp_host (rule_options (JArr [JStr "a+"; JStr "b"]))
    = Return (fields, this)
    /\ length (re this) = 2
    /\ severity fields = JStr "error".
Proof.
  eexists _, _. split; [reflexivity |]. split; [reflexivity |].
  match goal with
  | |- severity ?f = _ =>
      destruct (@new_compiles_patterns string regexp_host
                  (rule_options (JArr [JStr "a+"; JStr "b"])) f _ eq_refl)
        as (_ & _ & _ & _ & Hsev & _)
  end.
  apply Hsev. reflexivity.
Defined.

(** The second of three patterns is an unterminated group. *)
Lemma new_pattern_failure_witness :
  @new string regexp_host (rule_options (JArr [JStr "a+"; JStr "("; JStr "b"]))
  = Throw (Error "Invalid regular expression: /(/: Unterminated group").
Proof.
  apply (@new_pattern_failure string regexp_host
           (rule_options (JArr [JStr "a+"; JStr "("; JStr "b"]))
           [JStr "a+"] [JStr "b"] (JStr "("));
    try reflexivity.
  constructor; [now exists "a+" | constructor].
Defined.
End DeclarativeMore.

(** *** More on the project *)
Module ProjectMore.
Import JS Project ProjectSpec ProjectTheory ProjectOpsSpec.

Section Properties.
Context {FileType Obj W : Type} `{Host FileType Obj W}.

Lemma same_fields_refl (a : t FileType Obj) : same_fields a a.
Proof. now repeat split. Qed.

Lemma same_fields_trans (a b c : t FileType Obj) :
  same_fields a b -> same_fields b c -> same_fields a c.
Proof.
  intros (?&?&?&?&?&?&?) (?&?&?&?&?&?&?). repeat split; congruence.
Qed.

Lemma declare_filetypes_fields (fts : list string) (this this' : t FileType Obj)
    (w w' : W) :
  declare_filetypes fts this w = Return (this', w') -> same_fields this' this.
Proof.
  revert this w. induction fts as [|ft fts IH]; intros this w; simpl.
  - intros [= <- <-]. apply same_fields_refl.
  - destruct (FileType_new this _ w) as [[x w1]|e]; simpl; [| discriminate].
    intros E. apply (same_fields_trans _ _ _ (IH _ _ E)). now repeat split.
Qed.

Lemma declare_inline_fields (globs : list string) (this this' : t FileType Obj)
    (w w' : W) :
  declare_inline globs this w = Return (this', w') -> same_fields this' this.
Proof.
  revert this w. induction globs as [|glob globs IH]; intros this w; simpl.
  - intros [= <- <-]. apply same_fields_refl.
  - destruct (String.eqb _ "object"); [| apply IH].
    destruct (FileType_new this _ w) as [[x w1]|e]; simpl; [| discriminate].
    intros E. apply (same_fields_trans _ _ _ (IH _ _ E)). now repeat split.
Qed.

Lemma new_fields (root0 options0 : JsVal) (pluginManager0 : option Obj)
    (config0 : JsVal) (w : W) (this : t FileType Obj) (w' : W) :
  new root0 options0 pluginManager0 config0 w = Return (this, w') ->
  same_fields this (init root0 options0 pluginManager0 config0).
Proof.
  intros Hnew.
  destruct (new_inv _ _ _ _ _ _ _ Hnew)
    as (pluginMgr & w0 & w1 & xliff & w2 & unknown & w3 & this1 & w4
        & _ & _ & _ & _ & _ & _ & _ & _ & E1 & E2).
  set (this0 := set_filetype "unknown" unknown _) in *.
  assert (same_fields this1 this0) as H1.
  { destruct (truthy (get config0 "filetypes")).
    - now apply declare_filetypes_fields in E1.
    - assert (this1 = this0) as -> by (now injection E1). apply same_fields_refl. }
  assert (same_fields this this1) as H2.
  { destruct (truthy (get config0 "paths")).
    - apply declare_inline_fields in E2.
      apply (same_fields_trans _ _ _ E2). now repeat split.
    - injection E2 as <- _. apply same_fields_refl. }
  apply (same_fields_trans _ _ _ H2), (same_fields_trans _ _ _ H1). now repeat split.
Qed.

(** X18. The constructor first runs the constructor of [DirItem], and what
    that throws, it throws.  Once that has returned, the constructor rejects
    insufficient parameters before it calls a manager or builds a file
    type: when the options, the root, the configuration or the plugin
    manager of the options is falsy, it throws the string
    [Insufficient params given to Project constructor]. *)
Theorem new_insufficient_params (root0 options0 : JsVal) (pluginManager0 : option Obj)
    (config0 : JsVal) (w : W) :
  (forall e,
      DirItem_new root0 options0 pluginManager0 config0 w = Throw e ->
      new root0 options0 pluginManager0 config0 w = Throw e)
  /\ (forall w0,
        DirItem_new root0 options0 pluginManager0 config0 w = Return w0 ->
        truthy options0 = false \/ truthy root0 = false \/ truthy config0 = false
        \/ pluginManager0 = None ->
        new root0 options0 pluginManager0 config0 w
        = Throw (Thrown (JStr "Insufficient params given to Project constructor"))).
Proof.
  split.
  - intros e Ed. unfold new. now rewrite Ed.
  - intros w0 Ed Hm. unfold new. rewrite Ed. simpl.
    destruct pluginManager0 as [pluginMgr|]; [| reflexivity].
    destruct Hm as [E|[E|[E|E]]]; [| | | discriminate];
      rewrite E; simpl; rewrite ?orb_true_r; reflexivity.
Qed.

Lemma declare_filetypes_total (fts : list string) (this : t FileType Obj) (w : W) :
  (forall p o w, exists ft w', FileType_new p o w = Return (ft, w')) ->
  exists this' w', declare_filetypes fts this w = Return (this', w').
Proof.
  intros Htot. revert this w. induction fts as [|ft fts IH]; intros this w; simpl;
    [eauto |].
  destruct (Htot this (spread [("name", JStr ft)] (get (get (config this) "filetypes") ft))
              w) as (x & w1 & ->).
  simpl. apply IH.
Qed.

Lemma declare_inline_total (globs : list string) (this : t FileType Obj) (w : W) :
  (forall p o w, exists ft w', FileType_new p o w = Return (ft, w')) ->
  exists this' w', declare_inline globs this w = Return (this', w').
Proof.
  intros Htot. revert this w. induction globs as [|glob globs IH]; intros this w; simpl;
    [eauto |].
  destruct (String.eqb _ "object"); [| apply IH].
  destruct (Htot this (spread [("name", JStr glob)] (get (mappings this) glob)) w)
    as (x & w1 & ->).
  simpl. apply IH.
Qed.

(** X19. With a truthy root, options and configuration and a plugin
    manager, the constructor throws nothing of its own: when the constructor
    of [DirItem], the calls on the plugin manager, the rule manager and the
    formatter manager, and the constructor of [FileType] do not throw, every
    configuration is accepted. *)
Theorem new_accepts (root0 options0 : JsVal) (pluginMgr0 : Obj) (config0 : JsVal)
    (w : W) :
  truthy options0 = true -> truthy root0 = true -> truthy config0 = true ->
  (forall w, exists w', DirItem_new root0 options0 (Some pluginMgr0) config0 w = Return w') ->
  (forall w, exists r w', getRuleManager pluginMgr0 w = Return (r, w')) ->
  (forall r v w, exists w', RuleManager_add r v w = Return w') ->
  (forall r v w, exists w', RuleManager_addRuleSetDefinitions r v w = Return w') ->
  (forall w, exists r w', getFormatterManager pluginMgr0 w = Return (r, w')) ->
  (forall r v w, exists w', FormatterManager_add r v w = Return w') ->
  (forall p o w, exists ft w', FileType_new p o w = Return (ft, w')) ->
  exists this w', new root0 options0 (Some pluginMgr0) config0 w = Return (this, w').
Proof.
  intros Ho Hr Hc Hd Hrm Hadd Hdefs Hfm Hfadd Htot. unfold new.
  destruct (Hd w) as (w0 & ->). simpl. rewrite Ho, Hr, Hc. simpl.
  assert (exists w1, register pluginMgr0 config0 w0 = Return w1) as (w1 & ->).
  { unfold register. destruct (Hrm w0) as (ruleMgr & wa & ->). simpl.
    assert (exists wb, (if truthy (get config0 "rules")
                        then RuleManager_add ruleMgr (get config0 "rules") wa
                        else Return wa) = Return wb) as (wb & ->).
    { destruct (truthy (get config0 "rules")); [apply Hadd | eauto]. }
    simpl. destruct (Hdefs ruleMgr rulesetDefinitions wb) as (wc & ->). simpl.
    assert (exists wd, (if truthy (get config0 "rulesets")
                        then RuleManager_addRuleSetDefinitions ruleMgr
                               (get config0 "rulesets") wc
                        else Return wc) = Return wd) as (wd & ->).
    { destruct (truthy (get config0 "rulesets")); [apply Hdefs | eauto]. }
    simpl. destruct (truthy (get config0 "formatters")); [| eauto].
    destruct (Hfm wd) as (fmtMgr & we & ->). simpl. apply Hfadd. }
  simpl. unfold builtin_xliff, builtin_unknown.
  destruct (Htot (init root0 options0 (Some pluginMgr0) config0)
              (spread [] xliffFileTypeDefinition) w1) as (xliff & w2 & ->).
  simpl.
  destruct (Htot (init root0 options0 (Some pluginMgr0) config0)
              (spread [] unknownFileTypeDefinition) w2) as (unknown & w3 & ->).
  simpl.
  set (this0 := set_filetype "unknown" unknown _).
  assert (exists this1 w4,
             (if truthy (get config0 "filetypes")
              then declare_filetypes (own_keys (get config0 "filetypes")) this0 w3
              else Return (this0, w3)) = Return (this1, w4)) as (this1 & w4 & ->).
  { destruct (truthy (get config0 "filetypes"));
      [now apply declare_filetypes_total | eauto]. }
  simpl.
  destruct (truthy (get config0 "paths")); [| eauto].
  now apply declare_inline_total.
Qed.

Lemma lookup_inherited (this : t FileType Obj) (name member : string) :
  lookup_filetype this name = Some (Inherited member) ->
  member = name /\ (forall ft, ~ registered this name ft) /\ inherited this name = true.
Proof.
  unfold lookup_filetype, registered, inherited.
  destruct (String.eqb name "__proto__") eqn:E.
  - apply String.eqb_eq in E. subst name.
    destruct (filetypes_proto this); [discriminate |].
    intros [= <-]. split; [reflexivity |]. split; [discriminate | reflexivity].
  - destruct (filetypes this !! name); [discriminate |].
    destruct (match filetypes_proto this with
              | Some ft => FileType_member ft name
              | None => existsb (String.eqb name) Object_prototype
              end); [| discriminate].
    intros [= <-]. split; [reflexivity |]. split; [discriminate | reflexivity].
Qed.

(** X20. [getFileTypeForPath] never returns [undefined] on a constructed
    project.  What it returns is a file type, except when the first glob
    that matches the path is mapped to a name under which no file type is
    registered and which the file-type table inherits from its prototype
    ([toString], [constructor], ...): then, and only then, it returns the
    inherited member of that name. *)
Theorem getFileTypeForPath_defined (root0 options0 : JsVal)
    (pluginManager0 : option Obj) (config0 : JsVal) (w : W)
    (this : t FileType Obj) (w' : W) (pathName : string) :
  new root0 options0 pluginManager0 config0 w = Return (this, w') ->
  is_Some (getFileTypeForPath this pathName)
  /\ (forall member,
        getFileTypeForPath this pathName = Some (Inherited member) ->
        exists pre glob post,
          own_keys (mappings this) = pre ++ glob :: post
          /\ List.Forall (fun g => isMatch (normalize pathName) g = false) pre
          /\ isMatch (normalize pathName) glob = true
          /\ mapped_name this glob = member
          /\ (forall ft, ~ registered this member ft)
          /\ inherited this member = true)
  /\ (forall pre glob post,
        own_keys (mappings this) = pre ++ glob :: post ->
        List.Forall (fun g => isMatch (normalize pathName) g = false) pre ->
        isMatch (normalize pathName) glob = true ->
        (forall ft, ~ registered this (mapped_name this glob) ft) ->
        inherited this (mapped_name this glob) = true ->
        getFileTypeForPath this pathName = Some (Inherited (mapped_name this glob))).
Proof.
  intros Hnew.
  destruct (new_spec _ _ _ _ _ _ _ Hnew)
    as (w1 & xliff & w2 & unknown & w3 & _ & _ & _ & _ & Hu & _).
  unfold getFileTypeForPath. split; [| split].
  - induction (own_keys (mappings this)) as [|glob globs IH]; simpl.
    + unfold filetypes_unknown. destruct Hu as [u ->]. simpl. eauto.
    + destruct (isMatch _ glob); [| exact IH].
      unfold filetype_or_unknown.
      destruct (lookup_filetype this (mapped_name this glob)); [eauto |].
      unfold filetypes_unknown. destruct Hu as [u ->]. simpl. eauto.
  - intros member. induction (own_keys (mappings this)) as [|glob globs IH]; simpl.
    + unfold filetypes_unknown. destruct Hu as [u ->]. discriminate.
    + destruct (isMatch (normalize pathName) glob) eqn:Eg.
      * unfold filetype_or_unknown.
        destruct (lookup_filetype this (mapped_name this glob)) as [m|] eqn:El.
        -- intros [= ->]. apply lookup_inherited in El as (-> & Hn & Hi).
           exists [], glob, globs. repeat split; try assumption. constructor.
        -- unfold filetypes_unknown. destruct Hu as [u ->]. discriminate.
      * intros E. destruct (IH E) as (pre & g & post & -> & Hpre & Hg & Hm & Hn & Hi).
        exists (glob :: pre), g, post. repeat split; try assumption.
        now constructor.
  - intros pre glob post Eg Hpre Hg Hn Hi.
    rewrite Eg, (scan_first this _ glob pre post Hpre Hg).
    unfold filetype_or_unknown. now rewrite (lookup_unregistered _ _ Hn), Hi.
Qed.

(** X21. A configuration without [paths] maps nothing: the includes
    default to the single glob [**], yet every path resolves to the file
    type registered under [unknown]. *)
Theorem new_without_paths (root0 options0 : JsVal) (pluginManager0 : option Obj)
    (config0 : JsVal) (w : W) (this : t FileType Obj) (w' : W) :
  new root0 options0 pluginManager0 config0 w = Return (this, w') ->
  truthy (get config0 "paths") = false ->
  includes this = ["**"]
  /\ mappings this = JUndefined
  /\ forall pathName,
       getFileTypeForPath this pathName = FileTypeOf <$> filetypes this !! "unknown".
Proof.
  intros Hnew Hp.
  destruct (new_fields _ _ _ _ _ _ _ Hnew) as (_ & _ & _ & Hi & _).
  destruct (new_spec _ _ _ _ _ _ _ Hnew)
    as (w1 & xliff & w2 & unknown & w3 & _ & _ & Hm & _).
  rewrite Hp in Hm. split; [| split; [exact Hm |]].
  - rewrite Hi. simpl. now rewrite Hp.
  - intros pathName. unfold getFileTypeForPath. now rewrite Hm.
Qed.

(** X22. With [paths] configured, the includes of the project are exactly
    the globs [getFileTypeForPath] scans, in the order it scans them. *)
Theorem includes_are_scanned (root0 options0 : JsVal) (pluginManager0 : option Obj)
    (config0 : JsVal) (w : W) (this : t FileType Obj) (w' : W) :
  new root0 options0 pluginManager0 config0 w = Return (this, w') ->
  truthy (get config0 "paths") = true ->
  includes this = own_keys (mappings this)
  /\ mappings this = get config0 "paths".
Proof.
  intros Hnew Hp.
  destruct (new_fields _ _ _ _ _ _ _ Hnew) as (_ & _ & _ & Hi & _).
  destruct (new_spec _ _ _ _ _ _ _ Hnew)
    as (w1 & xliff & w2 & unknown & w3 & _ & _ & Hm & _).
  rewrite Hp in Hm. split; [| exact Hm].
  rewrite Hi, Hm. simpl. now rewrite Hp.
Qed.

(** X23. A path whose first matching glob carries an inline definition
    resolves to the file type constructed from that definition under the
    name of the glob: it never falls back to [unknown]. *)
Theorem inline_definition_resolves (root0 options0 : JsVal)
    (pluginManager0 : option Obj) (config0 : JsVal) (w : W)
    (this : t FileType Obj) (w' : W)
    (pathName glob : string) (pre post : list string) :
  new root0 options0 pluginManager0 config0 w = Return (this, w') ->
  truthy (get config0 "paths") = true ->
  own_keys (get config0 "paths") = pre ++ glob :: post ->
  List.NoDup (own_keys (get config0 "paths")) ->
  List.Forall (fun g => isMatch (normalize pathName) g = false) pre ->
  isMatch (normalize pathName) glob = true ->
  typeof (get (get config0 "paths") glob) = "object" ->
  exists project wa ft wb,
    FileType_new project
      (spread [("name", JStr glob)] (get (get config0 "paths") glob)) wa
    = Return (ft, wb)
    /\ getFileTypeForPath this pathName = Some (FileTypeOf ft).
Proof.
  intros Hnew Hp Hk Hnd Hpre Hg Ho.
  destruct (new_spec _ _ _ _ _ _ _ Hnew)
    as (w1 & xliff & w2 & unknown & w3 & _ & _ & Hm & _ & _ & _ & _ & _ & Hbuilt).
  rewrite Hp in Hm.
  assert (declares_inline config0 glob = true) as Hd.
  { unfold declares_inline. rewrite Hp, Ho, Hk. simpl. rewrite andb_true_r.
    apply existsb_exists. exists glob. split; [| apply String.eqb_refl].
    apply in_or_app. right. now left. }
  destruct (Hbuilt glob) as (project & wa & ft & wb & Eft & Hreg).
  { unfold redeclares. rewrite Hd. apply orb_true_r. }
  unfold user_definition in Eft. rewrite Hd in Eft.
  exists project, wa, ft, wb. split; [exact Eft |].
  unfold getFileTypeForPath. rewrite Hm, Hk.
  rewrite (scan_first this (normalize pathName) glob pre post Hpre Hg).
  unfold filetype_or_unknown.
  assert (mapped_name this glob = glob) as ->.
  { unfold mapped_name. now rewrite Hm, Ho. }
  now rewrite (lookup_registered _ _ _ Hreg).
Qed.

End Properties.
(** **** The statements at the sample projects *)
Import Samples MoreSamples.
#[local] Existing Instance project_host.

(** Options without a plugin manager. *)
Lemma new_insufficient_params_witness :
  new sample_root sample_options None config_inline []
  = Throw (Thrown (JStr "Insufficient params given to Project constructor")).
Proof.
  apply (proj2 (new_insufficient_params sample_root sample_options None config_inline [])
           []); [reflexivity |].
  right. right. right. reflexivity.
Defined.

(** The sample host never fails on its plugin manager. *)
Lemma new_accepts_witness :
  exists this w',
    new sample_root sample_options sample_pluginManager config_inline []
    = Return (this, w').
Proof.
  apply new_accepts; try reflexivity.
  - intros w. exists w. reflexivity.
  - intros w. exists "ruleManager", w. reflexivity.
  - intros r v w. eexists. reflexivity.
  - intros r v w. eexists. reflexivity.
  - intros w. exists "formatterManager", w. reflexivity.
  - intros r v w. eexists. reflexivity.
  - intros p o w. exists o, w. reflexivity.
Defined.

(** A path no glob of which is declared inline resolves to [unknown]; a
    path matched by a glob mapped to [toString] resolves to the inherited
    member. *)
Lemma getFileTypeForPath_defined_witness :
  (exists this w',
      new sample_root sample_options sample_pluginManager config_inline []
      = Return (this, w')
      /\ is_Some (getFileTypeForPath this "README.md"))
  /\ (exists this w',
         new sample_root sample_options sample_pluginManager config_inherited_name []
         = Return (this, w')
         /\ getFileTypeForPath this "README.md" = Some (Inherited "toString")).
Proof.
  split.
  - eexists _, _. split; [vm_compute; reflexivity |].
    match goal with
    | |- is_Some (getFileTypeForPath ?p _) =>
        assert (new sample_root sample_options sample_pluginManager config_inline []
                = Return (p, ["add rule sets resource-check-all"])) as E
          by (vm_compute; reflexivity);
        exact (proj1 (getFileTypeForPath_defined _ _ _ _ _ _ _ "README.md" E))
    end.
  - eexists _, _. split; [vm_compute; reflexivity |].
    match goal with
    | |- getFileTypeForPath ?p _ = _ =>
        assert (new sample_root sample_options sample_pluginManager
                    config_inherited_name []
                = Return (p, ["add rule sets resource-check-all"])) as E
          by (vm_compute; reflexivity);
        destruct (getFileTypeForPath_defined _ _ _ _ _ _ _ "README.md" E)
          as (_ & _ & Hinh)
    end.
    apply (Hinh [] "**" []); try reflexivity.
    + constructor.
    + intros ft Hft. discriminate Hft.
Defined.

(** A configuration with file types only. *)
Lemma new_without_paths_witness :
  exists this w',
    new sample_root sample_options sample_pluginManager config_redeclaring_xliff []
    = Return (this, w')
    /\ includes this = ["**"]
    /\ getFileTypeForPath this "src/x.js" = FileTypeOf <$> filetypes this !! "unknown".
Proof.
  eexists _, _. split; [vm_compute; reflexivity |].
  match goal with
  | |- includes ?p = _ /\ _ =>
      assert (new sample_root sample_options sample_pluginManager
                  config_redeclaring_xliff []
              = Return (p, ["add rule sets resource-check-all"])) as E
        by (vm_compute; reflexivity);
      destruct (new_without_paths _ _ _ _ _ _ _ E eq_refl) as (Hi & _ & Hr)
  end.
  split; [exact Hi | exact (Hr "src/x.js")].
Defined.

Lemma includes_are_scanned_witness :
  exists this w',
    new sample_root sample_options sample_pluginManager config_overlapping []
    = Return (this, w')
    /\ includes this = own_keys (mappings this).
Proof.
  eexists _, _. split; [vm_compute; reflexivity |].
  match goal with
  | |- includes ?p = _ =>
      assert (new sample_root sample_options sample_pluginManager config_overlapping []
              = Return (p, ["add rule sets resource-check-all"])) as E
        by (vm_compute; reflexivity);
      exact (proj1 (includes_are_scanned _ _ _ _ _ _ _ E eq_refl))
  end.
Defined.

(** [src/x.js] resolves to the file type declared inline for [**/*.js]. *)
Lemma inline_definition_resolves_witness :
  exists this w',
    new sample_root sample_options sample_pluginManager config_inline []
    = Return (this, w')
    /\ getFileTypeForPath this "src/x.js"
       = Some (FileTypeOf
                 [("name", JStr "**/*.js"); ("ruleset", JArr [JStr "source-checks"])]).
Proof.
  eexists _, _. split; [vm_compute; reflexivity |].
  match goal with
  | |- getFileTypeForPath ?p _ = _ =>
      assert (new sample_root sample_options sample_pluginManager config_inline []
              = Return (p, ["add rule sets resource-check-all"])) as E
        by (vm_compute; reflexivity);
      destruct (inline_definition_resolves _ _ _ _ _ _ _ "src/x.js" "**/*.js" [] ["**"]
                  E eq_refl eq_refl) as (project & wa & ft & wb & Eft & Er)
  end.
  - repeat constructor; simpl; intuition discriminate.
  - constructor.
  - reflexivity.
  - reflexivity.
  - rewrite Er. injection Eft as <- _. reflexivity.
Defined.

End ProjectMore.

(** *** The files of a project *)
Module ProjectFilesTheory.
Import JS Project ProjectOps.

Section Properties.
Context {Item W : Type} `{Items Item W}.

Lemma flat_app (a b : list JsVal) : flat (a ++ b) = flat a ++ flat b.
Proof. unfold flat. now rewrite List.map_app, List.concat_app. Qed.

Lemma examine_app (files1 files2 : list Item) (locales : JsVal) (w : W) :
  examine (files1 ++ files2) locales w
  = bind (examine files1 locales w) (fun r1 =>
    bind (examine files2 locales (snd r1)) (fun r2 =>
    Return (fst r1 ++ fst r2, snd r2))).
Proof.
  revert w. induction files1 as [|file files1 IH]; intros w; simpl.
  - destruct (examine files2 locales w) as [[l w']|e]; reflexivity.
  - destruct (parse file w) as [w1|e]; simpl; [| reflexivity].
    destruct (findIssues_of file locales w1) as [r|e]; simpl; [| reflexivity].
    rewrite IH. destruct (examine files1 locales (snd r)) as [r1|e]; simpl; [| reflexivity].
    destruct (examine files2 locales (snd r1)) as [r2|e]; reflexivity.
Qed.

(** X24. [findIssues] on a project without files returns no issue and
    touches nothing.  On the files of a project followed by one more file
    it first does what it does on the files before; then, in the world they
    left, it parses the last file and only then asks it for its issues; what
    the file returns is added after the issues found so far, an array
    through its elements (one level: the elements are added as they are)
    and any other value as it is.  An exception of [parse] or of the
    [findIssues] of a file ends the pass.  So the files are examined in the
    order they were added, and the issues of files given in two runs are
    those of the first run followed by those of the second; [add] appends a
    file and [clear] leaves none. *)
Theorem findIssues_app (files files2 : list Item) (file : Item)
    (ruleset locales : JsVal) (w : W) :
  findIssues [] ruleset locales w = Return ([], w)
  /\ findIssues (files ++ [file]) ruleset locales w
     = bind (findIssues files ruleset locales w) (fun found =>
       bind (parse file (snd found)) (fun w1 =>
       bind (findIssues_of file locales w1) (fun r =>
       Return (fst found ++ match fst r with
                            | JArr items => items
                            | _ => [fst r]
                            end,
               snd r))))
  /\ findIssues (files ++ files2) ruleset locales w
     = bind (findIssues files ruleset locales w) (fun r1 =>
       bind (findIssues files2 ruleset locales (snd r1)) (fun r2 =>
       Return (fst r1 ++ fst r2, snd r2)))
  /\ add files file = files ++ [file]
  /\ findIssues (clear files) ruleset locales w = Return ([], w).
Proof.
  assert (forall f1 f2,
            findIssues (f1 ++ f2) ruleset locales w
            = bind (findIssues f1 ruleset locales w) (fun r1 =>
              bind (findIssues f2 ruleset locales (snd r1)) (fun r2 =>
              Return (fst r1 ++ fst r2, snd r2)))) as Happ.
  { intros f1 f2. unfold findIssues. rewrite examine_app.
    destruct (examine f1 locales w) as [r1|e]; simpl; [| reflexivity].
    destruct (examine f2 locales (snd r1)) as [r2|e]; simpl; [| reflexivity].
    now rewrite flat_app. }
  split; [reflexivity |]. split; [| split; [apply Happ | split; reflexivity]].
  rewrite Happ. destruct (findIssues files ruleset locales w) as [found|e]; simpl;
    [| reflexivity].
  unfold findIssues. simpl.
  destruct (parse file (snd found)) as [w1|e]; simpl; [| reflexivity].
  destruct (findIssues_of file locales w1) as [r|e]; simpl; [| reflexivity].
  unfold flat. simpl. now rewrite List.app_nil_r.
Qed.

Lemma init_files_app (files1 files2 : list Item) (v : JsVal) (w : W) :
  init_files (files1 ++ files2) v w
  = bind (init_files files1 v w) (fun r => init_files files2 (fst r) (snd r)).
Proof.
  revert v w. induction files1 as [|file files1 IH]; intros v w; simpl; [reflexivity |].
  destruct (init_of file) as [init_file|]; [| apply IH].
  destruct (init_file w) as [r|e]; simpl; [apply IH | reflexivity].
Qed.

Lemma init_files_none (files : list Item) (v : JsVal) (w : W) :
  List.Forall (fun file => init_of file = None) files ->
  init_files files v w = Return (v, w).
Proof.
  induction files as [|file files IH]; intros Hn; simpl; [reflexivity |].
  rewrite (List.Forall_inv Hn). apply IH. exact (List.Forall_inv_tail Hn).
Qed.

(** X25. [init] on a project without files loads the plugins, if the
    configuration names any, and is fulfilled with [true] otherwise.  On the
    files of a project followed by one more file it first does what it does
    on the files before; when that is fulfilled and the last file has an
    [init] method, the method is called in the world left so far and its
    outcome is the outcome of [init]; a file without [init] changes
    nothing.  So the plugins are loaded first and the files are initialized
    in the order they were added; when loading the plugins is rejected,
    [init] is rejected with the same reason whatever the files are; with no
    plugins and no file to initialize it is fulfilled with [true] and
    changes nothing. *)
Theorem init_chain (config : JsVal) (files : list Item) (file : Item) (w : W) :
  init config [] w
  = (if truthy (get config "plugins")
     then load (get config "plugins") w
     else Return (JBool true, w))
  /\ init config (files ++ [file]) w
     = bind (init config files w) (fun r =>
         match init_of file with
         | Some init_file => init_file (snd r)
         | None => Return r
         end)
  /\ (forall e,
        truthy (get config "plugins") = true ->
        load (get config "plugins") w = Throw e ->
        init config files w = Throw e)
  /\ (truthy (get config "plugins") = false ->
      List.Forall (fun file => init_of file = None) files ->
      init config files w = Return (JBool true, w)).
Proof.
  split; [| split; [| split]].
  - unfold init. now destruct (if truthy (get config "plugins") then _ else _) as [[v w1]|e].
  - unfold init.
    destruct (if truthy (get config "plugins") then _ else _) as [r|e]; simpl;
      [| reflexivity].
    rewrite init_files_app.
    destruct (init_files files (fst r) (snd r)) as [[v w1]|e]; simpl; [| reflexivity].
    destruct (init_of file) as [init_file|]; [| reflexivity].
    now destruct (init_file w1) as [[v' w2]|e].
  - intros e Ht Hl. unfold init. now rewrite Ht, Hl.
  - intros Ht Hn. unfold init. rewrite Ht. simpl. now apply init_files_none.
Qed.

End Properties.
(** **** The statements at the logging items *)
Import MoreSamples.

(** Two files: each is parsed, then examined, the first before the second. *)
Lemma findIssues_app_witness :
  @findIssues string (list string) log_items (["a.xliff"] ++ ["b.xliff"])
    JUndefined (JArr [JStr "fr-FR"]) []
  = Return ([JStr "issue in a.xliff"; JStr "issue in b.xliff"],
            ["parse a.xliff"; "examine a.xliff"; "parse b.xliff"; "examine b.xliff"]).
Proof.
  rewrite (proj1 (proj2 (@findIssues_app string (list string) log_items
                           ["a.xliff"] [] "b.xliff"
                           JUndefined (JArr [JStr "fr-FR"]) []))).
  reflexivity.
Defined.

(** No plugins, a file without [init] and two with it: the two are
    initialized, in the order they were added. *)
Lemma init_chain_witness :
  @init string (list string) log_items (JObj []) (["a.xliff"; "sub1"] ++ ["sub2"]) []
  = Return (JBool true, ["init sub1"; "init sub2"]).
Proof.
  rewrite (proj1 (proj2 (@init_chain string (list string) log_items
                           (JObj []) ["a.xliff"; "sub1"] "sub2" []))).
  reflexivity.
Defined.
End ProjectFilesTheory.

(** *** The test formatter *)
Module TestFormatterTheory.
Import JS TestFormatter TestFormatterSpec StringFacts TxtTerms.

Lemma split_dot_layout (s s' cur : string) :
  layout s = layout s' -> split_dot_from cur s = split_dot_from cur s'.
Proof.
  revert s' cur. induction s as [|c s IH]; intros [|c' s'] cur; simpl; try discriminate.
  - reflexivity.
  - destruct (is_line_terminator c) eqn:E, (is_line_terminator c') eqn:E';
      intros Hl; try discriminate.
    + injection Hl as -> Hl. now apply IH.
    + injection Hl as Hl. f_equal. now apply IH.
Qed.

(** X26. [rainbow] sees nothing of its argument but its line terminators:
    two strings with the same line terminators at the same positions, and
    any other characters elsewhere, give the same output. *)
Theorem rainbow_layout (s s' : string) :
  layout s = layout s' -> rainbow s = rainbow s'.
Proof.
  intros Hl. unfold rainbow, split_dot. now rewrite (split_dot_layout s s' "" Hl).
Qed.

Lemma string_forall_append (p : ascii -> bool) (a b : string) :
  string_forall p (a +:+ b) = string_forall p a && string_forall p b.
Proof.
  induction a as [|c a IH]; unfold_app; simpl; [reflexivity |].
  rewrite IH. now rewrite andb_assoc.
Qed.

Lemma split_dot_breaks (s cur : string) :
  string_forall is_line_terminator cur = true ->
  List.Forall (fun p => string_forall is_line_terminator p = true) (split_dot_from cur s).
Proof.
  revert cur. induction s as [|c s IH]; intros cur Hcur; simpl.
  - now repeat constructor.
  - destruct (is_line_terminator c) eqn:E.
    + apply IH. rewrite string_forall_append, Hcur. simpl. now rewrite E.
    + constructor; [exact Hcur | now apply IH].
Qed.

Lemma break_allowed (p : string) :
  string_forall is_line_terminator p = true -> string_forall escape_or_break p = true.
Proof.
  induction p as [|c p IH]; simpl; [reflexivity |]. intros E.
  apply andb_prop in E as [Hc Hp]. rewrite (IH Hp), andb_true_r.
  unfold is_line_terminator, is_newline in Hc. unfold escape_or_break.
  apply orb_prop in Hc as [->| ->]; rewrite ?orb_true_r; reflexivity.
Qed.

Lemma color_allowed (idx : nat) : string_forall escape_or_break (color idx) = true.
Proof.
  unfold color. generalize (idx mod length rainbowColors). intros n.
  do 7 (destruct n as [|n]; [reflexivity |]). reflexivity.
Qed.

Lemma join_allowed (l : list string) :
  List.Forall (fun p => string_forall escape_or_break p = true) l ->
  string_forall escape_or_break (join l) = true.
Proof.
  induction 1 as [|p l Hp _ IH]; simpl; [reflexivity |].
  change (String.append p (join l)) with (p +:+ join l).
  now rewrite string_forall_append, Hp, IH.
Qed.

Lemma rainbow_allowed (s : string) : string_forall escape_or_break (rainbow s) = true.
Proof.
  unfold rainbow. apply join_allowed, List.Forall_app. split; [| now repeat constructor].
  apply List.Forall_forall. intros p Hp.
  apply list_elem_of_In, elem_of_lookup_imap_1 in Hp as (i & piece & -> & Hi).
  rewrite string_forall_append, color_allowed. simpl.
  apply break_allowed.
  pose proof (split_dot_breaks s "" eq_refl) as Hall.
  rewrite List.Forall_forall in Hall. apply Hall.
  apply list_elem_of_In. now apply list_elem_of_lookup_2 in Hi.
Qed.

(** X27. [format] returns nothing for a falsy result; for any other
    result its output contains none of the texts of the result: every
    character of it belongs to an escape sequence ([ESC], brackets, digits,
    [m]) or is a line break. *)
Theorem format_loses_text (result : option Result) :
  match result with
  | None => format result = None
  | Some _ => exists output,
                format result = Some output
                /\ string_forall escape_or_break output = true
  end.
Proof.
  destruct result as [r|]; [| reflexivity].
  eexists. split; [reflexivity | apply rainbow_allowed].
Qed.

(** Two texts of three letters. *)
Lemma rainbow_layout_witness : rainbow "abc" = rainbow "xyz".
Proof. apply rainbow_layout. reflexivity. Defined.
End TestFormatterTheory.
